(* ===== verification/_CoqProject ===== *)
-Q . S2P
Prelude.v
BitCodec.v
CodecSpec.v
PixelBuffer.v
Engine.v
WriteLoop.v
Encoder.v
ReadLoop.v
Decoder.v
Lifecycle.v
FileHelpers.v
Encrypted.v
Compare.v
Cli.v
Examples.v
