(* ===== verification/Prelude.v ===== *)
(** * A verification library for [steganographer.py]

    The program, [src/steganographer.py], hides a message in the least
    significant bits (LSBs) of the pixel channels of an image and reads
    it back.  Class [Steganographer] has a static bit codec (lines
    44-173), an object whose state is the input and output file names,
    a numpy copy of the pixels, the colour mode, the number of channels
    per pixel used for embedding ([color_size]), the image size and the
    capacity [max_bits_storable] (lines 18-40), and the handlers
    [initialize_image_data] (247-281), [save_output_image] (283-299),
    [encode_image] (301-365) and [decode_image] (367-449).  The encoder
    builds a frame -- the 32-bit message length, 8 bits per character,
    zero padding to a multiple of [color_size] -- checks it against the
    capacity, writes it with three nested loops into the LSBs of the
    pixels and saves the image through PIL; the decoder loads an image,
    reads 32 LSBs for the length, then the message bits, and converts
    them back.  Both load the image lazily when the pixel array is still
    the [(1, 1, 1)] placeholder of the constructor.

    ** Files, in dependency order
    - [Prelude] (this file): the Python exceptions of the code
      ([exn], [value_error]); a state-and-exception monad [PyM S A :=
      S -> outcome A * S] in which the Python statements are written,
      with stdpp's [x <- m; k] and [m ;; k]; [for_each] / [for_range]
      for [for] loops, [try_pass] for [try: ... except Exception: pass],
      [try_except] for [try: ... except E: ...], [zoom] for a method of
      one object run inside a larger state, [py_get]/[py_set] for list
      indexing that raises [IndexError], [py_mod] for [%] with
      [ZeroDivisionError], [py_chr] for [chr]; the monad laws, a setoid
      equivalence with [Proper] instances, and the loop lemmas every
      component uses ([for_each_complete], [for_each_exit],
      [for_each_nested], [for_each_invariant], [try_pass_state]), with
      the hint database [pym].
    - [BitCodec] (Module [BitCodec]): the static methods, one
      definition each, over [Z] with [Z.shiftl], [Z.land], [Z.shiftr],
      [Z.lor] as in the code.
    - [CodecSpec] (Module [CodecSpec]): a reference decoder for
      [bin_list_to_message] (groups of eight, [mapM]) and its
      equivalence with the loop of the code.
    - [PixelBuffer] (Module [PixelBuffer]): the numpy array as nested
      lists of [Z], its reads ([channel_at]), the per-pixel store
      [data[y][x] = __bitList] with numpy's broadcast rule and uint8
      wrap-around ([store_pixel]), the scan order of the nested loops
      ([scan_pixels]: [heightIndex] over [size[0]], [widthIndex] over
      [size[1]], pixel [data[widthIndex][heightIndex]]), and the flat
      specification of the embedding ([embed], [lsbs_of]).
    - [Engine] (Module [Steganographer]): the object as the record
      [stego], the files PIL reads and writes as a [gmap] from names to
      images, the constructor [steganographer_init], and
      [initialize_image_data] with its colour table; every handler is a
      [PyM world] computation over the pair [(stego, files)].
    - [WriteLoop] (Module [WriteLoop]): the writing loops of
      [encode_image] ([encode_channel], [encode_pixel], [encode_scan])
      and their refinement by [embed].
    - [Encoder] (Module [Encoder]): [build_frame], [fromarray],
      [save_output_image], [encode_image], its loop-free contract
      [encode_spec], and the theorems on the encoder.
    - [ReadLoop] (Module [ReadLoop]): the reading loops of
      [decode_image] ([decode_channel], [decode_scan], [read_lsbs]) and
      their refinement by [lsbs_of].
    - [Decoder] (Module [Decoder]): the slice loop, [decode_image], its
      contract [decode_spec], and the round trip.
    - [Lifecycle] (Module [Lifecycle]): a program's calls of the three
      public handlers as a step relation [step] on [world], and the
      invariant of every reachable state.
    - [FileHelpers] (Module [FileHelpers]): the text files as a second
      map, [read_message_from_file], [write_message_to_file],
      [encode_image_from_file], [decode_image_to_file].
    - [Encrypted] (Module [Encrypted]): [EncryptedSteganographer]: the
      type class [Envelope] states what the external [CryptoHelper] and
      [Message] promise (what is sealed for a public key opens with a
      matching key pair); the constructor with [kwargs.pop], and the four
      methods, proved against any instance.
    - [Compare] (Module [Compare]): [compare_pixels], whose printed lines
      are a trace of [cp_line] values.
    - [Cli] (Module [Cli]): the command-line driver: the parsed
      namespace, the if-chain [main] in a monad [CliM] over the image
      files, the text files and the printed lines.
    - [Examples] (Module [Examples]): a 4 x 4 and an 8 x 8 image, text
      files and command lines, and every theorem with hypotheses applied
      to them; runs of the program and of the driver.

    ** What is proved
    - Round trips (C1, C23, C26, C29): an object built with
      [inputFile] and [outputFile] encodes a non-empty message of bytes
      into an RGB image and saves it; a fresh object built on the saved
      file decodes the same message; after two encodes on the same
      object, the saved file decodes to the second message; the same
      from text file to text file, and, for any envelope that meets its
      law, through [EncryptedSteganographer].
    - Refinement and equivalence (C2, C3, C32): [encode_image] and
      [decode_image] on a loaded object equal loop-free contracts that
      write or read the frame in the LSB stream in scan order; the loop
      of [bin_list_to_message] equals a reference decoder.
    - What the encoder changes (C4-C6, C18): on RGB only bit 0 of the
      channels of the first pixels of the scan; on RGBA and on colour
      size 4 nothing at all (the exception of the first store is
      swallowed by the loop's [except Exception: pass]), and on RGBA the
      untouched array is still saved.
    - Guards, bounds and errors (C7-C9, C12-C17, C24, C25, C27, C28,
      C31): the capacity check, the padding of the frame, the under-run
      of the decoder, the failed initialisation followed by
      [ZeroDivisionError], the constructors, the colour table, the
      missing output name, the empty message, the [IOError]s the file
      helpers swallow, the decode error the encrypted decoder swallows,
      the exits of [compare_pixels].
    - Codec (C10, C11, C19-C22, C33): the round trips of the 32-bit and
      8-bit conversions, their errors, truncation to the low byte,
      [set_bit]; the reading loop collects bits only.
    - Invariant (C34): every state reachable by any sequence of calls
      holds well-formed byte arrays of their recorded size.
    - [compare_pixels] (C30): it prints [min(pixels, w*w or h)] lines,
      not [pixels], because of its transposed indexing.
    - The driver (C35-C39): with every argument its branch checks a
      command crashes on [args.print_help()]; no [--encode] run saves an
      image; [--decode] works only without [--outputimage]: to a file it
      writes the message, to the terminal it crashes on [steg.decode()];
      the encrypted [--decode] prints the opened message.

    ** Modelling choices and bounds
    - No fuel is needed: every loop of the code is a [for] over a finite
      [range], modelled by structural recursion over the list of
      indices; the theorems state that the loops finish normally or by
      the exception that ends them.
    - Integers are [Z], as in Python.  The numpy array has dtype uint8:
      a store keeps the value modulo 256 ([to_uint8]).  Characters are
      their code points ([pystr] is [list Z]); [chr] raises outside
      [0, 0x10FFFF].
    - The round trip needs the message length below 2^32 (the length
      field keeps 32 bits), bytes as characters ([char_to_bin_list]
      keeps 8 bits), and an RGB image: for RGBA and colour size 4 the
      encoder writes nothing.
    - [numpy.empty((1, 1, 1))] holds an unspecified value: it is a
      parameter [junk] of the constructor.
    - PIL's [Image.open] and [save(..., 'PNG', compress_level=0)] are
      lookup and insertion in the file map (PNG is lossless);
      [Image.fromarray] chooses the mode from the channel count.
      [open(name)] on text files fails with [IOError] for the empty name
      or a missing file.
    - The external module [message] ([CryptoHelper], [Message]) is the
      interface [Envelope]; an instance that seals with a header byte
      shows its law can be met and drives the examples.
    - In the driver, [exit(n)] raises [SystemExit n], and calling a
      method an object does not have raises [AttributeError]; a run in
      which a [None] of the namespace reaches PIL or [CryptoHelper] is
      beyond the model ([None]), and the theorems name the arguments
      that keep a run inside it.

    ** Not modelled
    - the text of the printed lines (the driver's lines are constructors
      of [cli_line], the methods' own prints are dropped);
    - operating-system failures other than a missing or empty file name,
      and the newline translation of Python 3's text mode: the text-file
      map holds what a read returns;
    - argparse's parsing of [sys.argv] into the namespace, and
      [CryptoHelper.generateKeys], a parameter of the driver. *)

From stdpp Require Export base list strings sets gmap.
From Stdlib Require Export ZArith Lia.

(** ** Python exceptions *)

(** The reasons the code gives to [ValueError]. *)
Inductive value_error :=
  | NoInputFile            (* initialize_image_data: no input file name *)
  | UnsupportedColorModel  (* initialize_image_data: unknown image mode *)
  | NoOutputFile           (* encode_image: no output file name *)
  | MessageNotSet          (* encode_image: empty message *)
  | MessageTooLarge        (* encode_image: frame does not fit *)
  | NotDivisibleBy8        (* bin_list_to_message: bad length *)
  | ChrOutOfRange          (* chr() of a value outside the code points *)
  | BroadcastShape.        (* numpy: could not broadcast input array *)

Inductive exn :=
  | ValueError (why : value_error)
  | IndexError
  | ZeroDivisionError
  | IOError
  | KeyError
  | TypeError              (* PIL: Image.fromarray cannot handle the shape; len(None) *)
  | AttributeError         (* a missing attribute: args.print_help, steg.decode *)
  | Done                   (* raise Exception("Done!") *)
  | SystemExit (code : nat). (* exit(code) *)

#[export] Instance value_error_eq_dec : EqDecision value_error.
Proof. solve_decision. Defined.
#[export] Instance exn_eq_dec : EqDecision exn.
Proof. solve_decision. Defined.

(** The outcome of a Python computation: a value, or an exception. *)
Inductive outcome (A : Type) :=
  | Normal (a : A)
  | Raised (e : exn).
Arguments Normal {A} a.
Arguments Raised {A} e.

Lemma normal_inj {A} (a b : A) : Normal a = Normal b → a = b.
Proof. congruence. Qed.

#[export] Instance outcome_ret : MRet outcome := λ A a, Normal a.
#[export] Instance outcome_bind : MBind outcome := λ A B k o,
  match o with Normal a => k a | Raised e => Raised e end.

(** ** The state-and-exception monad *)

(** A statement sequence that reads and writes a state [S] and may raise;
    the state reached when an exception is raised is kept, as Python
    keeps the effects of the statements that ran before the [raise]. *)
Definition PyM (S A : Type) : Type := S → outcome A * S.

#[export] Instance pym_ret S : MRet (PyM S) := λ A a s, (Normal a, s).
#[export] Instance pym_bind S : MBind (PyM S) := λ A B k m s,
  match m s with
  | (Normal a, s') => k a s'
  | (Raised e, s') => (Raised e, s')
  end.

Definition raise {S A} (e : exn) : PyM S A := λ s, (Raised e, s).
Definition lift {S A} (o : outcome A) : PyM S A := λ s, (o, s).
Definition get {S} : PyM S S := λ s, (Normal s, s).
Definition put {S} (s : S) : PyM S unit := λ _, (Normal tt, s).
Definition modify {S} (f : S → S) : PyM S unit := λ s, (Normal tt, f s).

(** The value of a computation run from [s]. *)
Definition eval {S A} (m : PyM S A) (s : S) : outcome A := fst (m s).

(** [for x in l: body] *)
Fixpoint for_each {S X} (l : list X) (body : X → PyM S unit) : PyM S unit :=
  match l with
  | [] => mret tt
  | x :: l' => (body x ;; for_each l' body)
  end.

(** [for i in range(lo, lo + n): body] *)
Definition for_range {S} (lo n : nat) (body : nat → PyM S unit) : PyM S unit :=
  for_each (seq lo n) body.

(** [try: m  except Exception: pass] *)
Definition try_pass {S} (m : PyM S unit) : PyM S unit := λ s,
  match m s with (_, s') => (Normal tt, s') end.

(** [try: m  except E as e: h(e)] for the exceptions [e] that [handles]
    accepts; the others propagate. *)
Definition try_except {S A} (m : PyM S A) (handles : exn → bool) (h : exn → PyM S A)
    : PyM S A := λ s,
  match m s with
  | (Raised e, s') => if handles e then h e s' else (Raised e, s')
  | r => r
  end.

(** A computation on a part [view t] of a larger state [t], the part
    written back by [update]: a method of one object run inside a
    program whose state holds more. *)
Definition zoom {S T A} (view : T → S) (update : S → T → T) (m : PyM S A) : PyM T A :=
  λ t, let r := m (view t) in (r.1, update r.2 t).

(** ** Python lists *)

(** [l[i]] for a non-negative index. *)
Definition py_get {A} (l : list A) (i : nat) : outcome A :=
  match l !! i with Some x => Normal x | None => Raised IndexError end.

(** [l[i] = x]: out of range, Python raises where stdpp's insert would do
    nothing. *)
Definition py_set {A} (l : list A) (i : nat) (x : A) : outcome (list A) :=
  if decide (i < length l) then Normal (<[i:=x]> l) else Raised IndexError.

(** [a % b] on non-negative integers. *)
Definition py_mod (a b : nat) : outcome nat :=
  if decide (b = 0) then Raised ZeroDivisionError else Normal (a mod b).

(** [chr(v)]: the code point [v], or [ValueError] outside [0, 0x10FFFF]. *)
Definition py_chr (v : Z) : outcome Z :=
  if decide (0 ≤ v ≤ 1114111)%Z then Normal v else Raised (ValueError ChrOutOfRange).

(** A Python [str] as the list of its code points ([ord] of each
    character). *)
Abbreviation pystr := (list Z).

(** A value in [0, 2^w). *)
Definition fits (w : Z) (v : Z) : Prop := (0 ≤ v < 2 ^ w)%Z.
#[export] Instance fits_dec w v : Decision (fits w v).
Proof. unfold fits. solve_decision. Defined.

(** ** Program equivalence *)

(** Two computations are equivalent when they agree from every state. *)
#[export] Instance pym_equiv {S A} : Equiv (PyM S A) := λ m1 m2, ∀ s, m1 s = m2 s.

#[export] Instance pym_equivalence {S A} : Equivalence (≡@{PyM S A}).
Proof.
  split.
  - intros m s. done.
  - intros m1 m2 H s. by rewrite H.
  - intros m1 m2 m3 H1 H2 s. by rewrite H1, H2.
Qed.

#[export] Instance pym_bind_proper {S A B} :
  Proper (pointwise_relation A (≡) ==> (≡) ==> (≡)) (@mbind (PyM S) _ A B).
Proof.
  intros k1 k2 Hk m1 m2 Hm s. unfold mbind, pym_bind.
  rewrite Hm. destruct (m2 s) as [[a|e] s']; [apply Hk | done].
Qed.

#[export] Instance for_each_proper {S X} :
  Proper ((=) ==> pointwise_relation X (≡) ==> (≡)) (@for_each S X).
Proof.
  intros l ? <- b1 b2 Hb. induction l as [|x l IH]; [intros s; done|].
  simpl. apply pym_bind_proper; [intros _; exact IH | apply Hb].
Qed.

(** ** Monad and loop laws *)

Create HintDb pym discriminated.

Section Laws.
Context {St : Type}.

Lemma bind_ret_l {A B} (a : A) (k : A → PyM St B) : (mret a ≫= k) ≡ k a.
Proof. done. Qed.

Lemma bind_assoc {A B C} (m : PyM St A) (k : A → PyM St B) (h : B → PyM St C) :
  ((m ≫= k) ≫= h) ≡ (m ≫= λ a, k a ≫= h).
Proof.
  intros s. unfold mbind, pym_bind. by destruct (m s) as [[a|e] s'].
Qed.

Lemma bind_raise {A B} (e : exn) (k : A → PyM St B) : (raise e ≫= k) ≡ raise e.
Proof. done. Qed.

Lemma bind_normal {A B} (m : PyM St A) (k : A → PyM St B) s a s' :
  m s = (Normal a, s') → (m ≫= k) s = k a s'.
Proof. intros H. unfold mbind, pym_bind. by rewrite H. Qed.

Lemma bind_raised {A B} (m : PyM St A) (k : A → PyM St B) s e s' :
  m s = (Raised e, s') → (m ≫= k) s = (Raised e, s').
Proof. intros H. unfold mbind, pym_bind. by rewrite H. Qed.

Lemma for_each_app {X} (l1 l2 : list X) (body : X → PyM St unit) :
  for_each (l1 ++ l2) body ≡ (for_each l1 body ;; for_each l2 body).
Proof.
  induction l1 as [|x l1 IH]; simpl; [done|].
  rewrite bind_assoc. apply pym_bind_proper; [|done]. intros []. apply IH.
Qed.

Lemma for_each_map {X Y} (f : Y → X) (l : list Y) (body : X → PyM St unit) :
  for_each (f <$> l) body ≡ for_each l (body ∘ f).
Proof.
  induction l as [|y l IH]; simpl; [done|].
  apply pym_bind_proper; [|done]. intros []. apply IH.
Qed.

(** Two nested loops are one loop over the pairs, in the same order. *)
Lemma for_each_nested {X Y} (l : list X) (g : X → list Y)
    (body : X → Y → PyM St unit) :
  for_each l (λ x, for_each (g x) (body x))
  ≡ for_each (l ≫= λ x, pair x <$> g x) (λ p, body p.1 p.2).
Proof.
  induction l as [|x l IH]; simpl; [intros s; done|].
  etransitivity; [|symmetry; apply for_each_app].
  apply pym_bind_proper; [intros []; apply IH|].
  etransitivity; [|symmetry; apply for_each_map].
  apply for_each_proper; [done|]. intros y s. done.
Qed.

(** A loop all of whose iterations complete: iteration [i] takes the
    state [f i] to [f (S i)]. *)
Lemma for_each_complete {X} (l : list X) (body : X → PyM St unit)
    (f : nat → St) (s : St) :
  f 0 = s →
  (∀ i x, l !! i = Some x → body x (f i) = (Normal tt, f (S i))) →
  for_each l body s = (Normal tt, f (length l)).
Proof.
  intros <-. revert f. induction l as [|x l IH]; intros f Hstep; simpl; [done|].
  erewrite bind_normal by (apply (Hstep 0); done).
  apply (IH (λ i, f (S i))). intros i y Hy. by apply (Hstep (S i)).
Qed.

(** A loop whose iteration [K] raises: the loop raises with the state
    that iteration left. *)
Lemma for_each_exit {X} (l : list X) (body : X → PyM St unit) (f : nat → St)
    (s : St) (K : nat) (x : X) (e : exn) (s' : St) :
  f 0 = s →
  (∀ i y, i < K → l !! i = Some y → body y (f i) = (Normal tt, f (S i))) →
  l !! K = Some x → body x (f K) = (Raised e, s') →
  for_each l body s = (Raised e, s').
Proof.
  intros <-. revert f K. induction l as [|y l IH]; intros f K Hstep HK Hx; [done|].
  destruct K as [|K]; simpl in HK |- *.
  - injection HK as ->. by apply bind_raised.
  - erewrite bind_normal by (apply (Hstep 0); [lia|done]).
    apply (IH (λ i, f (S i)) K); [|done|done].
    intros i z ? ?. apply (Hstep (S i)); [lia|done].
Qed.

(** An invariant kept by every iteration, whether it completes or
    raises, holds after the loop. *)
Lemma for_each_invariant {X} (P : St → Prop) (l : list X) (body : X → PyM St unit) s :
  (∀ x s, x ∈ l → P s → P (body x s).2) → P s → P (for_each l body s).2.
Proof.
  revert s. induction l as [|x l IH]; intros s Hstep Hs; [done|]. simpl.
  unfold mbind, pym_bind. pose proof (Hstep x s ltac:(set_solver) Hs) as Hx.
  destruct (body x s) as [[[]|e] s'] eqn:E; [|done].
  apply IH; [|done]. intros y s'' Hy. apply Hstep. set_solver.
Qed.

(** A loop whose last iteration raises from every state of the
    invariant raises. *)
Lemma for_each_snoc_raises {X} (P : St → Prop) (l : list X) (y : X)
    (body : X → PyM St unit) s :
  (∀ x s, x ∈ l → P s → P (body x s).2) →
  (∀ s, P s → ∃ e, (body y s).1 = Raised e) → P s →
  ∃ e, (for_each (l ++ [y]) body s).1 = Raised e.
Proof.
  intros Hstep Hlast Hs. revert s Hs. induction l as [|x l IH]; intros s Hs; simpl.
  - destruct (Hlast s Hs) as [e He]. exists e. unfold mbind, pym_bind.
    destruct (body y s) as [[] s']; simpl in *; by subst.
  - unfold mbind, pym_bind. pose proof (Hstep x s ltac:(set_solver) Hs) as Hx.
    destruct (body x s) as [[[]|e] s'] eqn:E; [|by eexists].
    apply IH; [|done]. intros z s'' Hz. apply Hstep. set_solver.
Qed.

(** A property of the state kept by both halves of a sequence is kept by
    the sequence, whether it completes or raises. *)
Lemma bind_preserves {A B} (P : St → Prop) (m : PyM St A) (k : A → PyM St B) :
  (∀ s, P s → P (m s).2) → (∀ a s, P s → P (k a s).2) → ∀ s, P s → P ((m ≫= k) s).2.
Proof.
  intros Hm Hk s Hs. unfold mbind, pym_bind.
  pose proof (Hm s Hs) as Hs'. destruct (m s) as [[a|e] s']; cbn in *; [by apply Hk|done].
Qed.

Lemma try_pass_state (m : PyM St unit) s :
  try_pass m s = (Normal tt, snd (m s)).
Proof. unfold try_pass. by destruct (m s). Qed.
End Laws.

#[export] Hint Resolve bind_normal bind_raised : pym.

Lemma zoom_run {S T A} (view : T → S) (update : S → T → T) (m : PyM S A) t r s' :
  m (view t) = (r, s') → zoom view update m t = (r, update s' t).
Proof. intros H. unfold zoom. by rewrite H. Qed.

Lemma try_except_normal {S A} (m : PyM S A) handles h s a s' :
  m s = (Normal a, s') → try_except m handles h s = (Normal a, s').
Proof. intros H. unfold try_except. by rewrite H. Qed.

Lemma try_except_caught {S A} (m : PyM S A) handles h s e s' :
  m s = (Raised e, s') → handles e = true → try_except m handles h s = h e s'.
Proof. intros H He. unfold try_except. by rewrite H, He. Qed.

(** The exceptions [except IOError] catches. *)
Definition is_io_error (e : exn) : bool := bool_decide (e = IOError).

(** The exceptions [except Exception] catches: all but [SystemExit],
    which derives from [BaseException] only.  ([try_pass] catches every
    exception: no [exit()] is called inside the loops it wraps.) *)
Definition is_exception (e : exn) : bool :=
  match e with SystemExit _ => false | _ => true end.

(** Shared tactic: unfold the monad's plumbing on a concrete computation. *)
Ltac pym_unfold :=
  unfold mbind, pym_bind, outcome_bind, mret, pym_ret, outcome_ret, raise, lift, get, put, modify,
    eval, try_pass.

(** ** Lists of bits *)

(** Every element is 0 or 1. *)
Definition is_bit (b : Z) : Prop := b = 0%Z ∨ b = 1%Z.
#[export] Instance is_bit_dec b : Decision (is_bit b).
Proof. unfold is_bit. solve_decision. Defined.

Lemma lookup_seq_lt (lo n i : nat) : i < n → seq lo n !! i = Some (lo + i).
Proof. intros. apply lookup_seq. lia. Qed.

#[export] Hint Resolve lookup_seq_lt : pym.

(** [lia] does not expand [x / d] and [x mod d] on [nat]: state the
    Euclidean equation and the bound of the remainder for it. *)
Ltac div_mod_facts x d :=
  pose proof (Nat.div_mod_eq x d); pose proof (Nat.mod_upper_bound x d ltac:(lia)).
