(* ===== verification/BitCodec.v ===== *)
(** * The bit codec: the static methods of class [Steganographer]

    [src/steganographer.py] lines 44-173.  A bit list is a Python list of
    integers, most significant bit first; a character is its code point.
    The file holds the conversions, their round trips, their error cases
    and the single-bit update [set_bit] that [encode_image] applies to
    every channel it writes. *)

From S2P Require Import Prelude.

Module BitCodec.

(** ** Definitions *)

(** The loop shared by [int_to_bin_list] and [char_to_bin_list]:
    [for i in reversed(range(w)): list_value += [((1 << i) & n) >> i]]. *)
Definition msb_bits (w : nat) (n : Z) : list Z :=
  (λ i : nat, Z.shiftr (Z.land (Z.shiftl 1 (Z.of_nat i)) n) (Z.of_nat i))
    <$> reverse (seq 0 w).

(** [int_to_bin_list(number)]: the low 32 bits of [number]. *)
Definition int_to_bin_list (number : Z) : list Z := msb_bits 32 number.

(** [char_to_bin_list(char)]: the low 8 bits of [ord(char)]. *)
Definition char_to_bin_list (char : Z) : list Z :=
  let int_value := char in msb_bits 8 int_value.

Arguments msb_bits : simpl never.
Arguments char_to_bin_list : simpl never.

(** The loop shared by [bin_list_to_int] and [bin_list_to_char]:
    [for i in range(w): int_value += bin_list[w - 1 - i] << i]; the read
    raises [IndexError] when the list is too short. *)
Definition assemble (w : nat) (bin_list : list Z) : outcome Z :=
  eval (for_range 0 w (λ i,
          b ← lift (py_get bin_list (w - 1 - i));
          modify (λ int_value, int_value + Z.shiftl b (Z.of_nat i))%Z) ;;
        get) 0%Z.

(** [bin_list_to_int(bin_list)] *)
Definition bin_list_to_int (bin_list : list Z) : outcome Z := assemble 32 bin_list.

(** [bin_list_to_char(bin_list)]: [chr] of the assembled value. *)
Definition bin_list_to_char (bin_list : list Z) : outcome Z :=
  int_value ← assemble 8 bin_list; py_chr int_value.

(** [message_to_bin_list(message)]:
    [for character in message: list_value += char_to_bin_list(character)]. *)
Definition message_to_bin_list (message : pystr) : list Z :=
  foldl (λ list_value character, list_value ++ char_to_bin_list character)
    [] message.

(** The local variables of [bin_list_to_message]. *)
Record b2m_locals := B2M {
  list_tmp : list Z;
  bit_counter : Z;
  message : pystr
}.

(** One iteration of the loop of [bin_list_to_message]: append
    [bin_list[value]] to [list_tmp]; on the eighth bit, append the
    character to the message and restart the group. *)
Definition bin_list_to_message_body (bin_list : list Z) (value : nat)
    : PyM b2m_locals unit :=
  b ← lift (py_get bin_list value);
  modify (λ st, B2M (list_tmp st ++ [b]) (bit_counter st) (message st)) ;;
  st ← get;
  (if decide (bit_counter st = 7%Z) then
     c ← lift (bin_list_to_char (list_tmp st));
     put (B2M [] (-1) (message st ++ [c]))
   else mret ()) ;;
  modify (λ st, B2M (list_tmp st) (bit_counter st + 1) (message st)).

(** [bin_list_to_message(bin_list)]: rejects a length that is not a
    multiple of 8, then runs the loop over every index. *)
Definition bin_list_to_message (bin_list : list Z) : outcome pystr :=
  if decide (length bin_list mod 8 ≠ 0) then Raised (ValueError NotDivisibleBy8)
  else eval (for_range 0 (length bin_list) (bin_list_to_message_body bin_list) ;;
             st ← get; mret (message st))
            (B2M [] 0 []).

(** [set_bit(v, index, x)]: clear bit [index] of [v], then set it when
    [x] is true (non-zero).  The index is a shift count, hence [nat]. *)
Definition set_bit (v : Z) (index : nat) (x : Z) : Z :=
  let mask := Z.shiftl 1 (Z.of_nat index) in
  let v := Z.land v (Z.lnot mask) in
  if decide (x ≠ 0%Z) then Z.lor v mask else v.

(** ** Concrete runs *)

Example int_to_bin_list_1 :
  int_to_bin_list 1 = repeat 0%Z 31 ++ [1%Z].
Proof. reflexivity. Qed.

Example char_to_bin_list_A : char_to_bin_list 65 = [0; 1; 0; 0; 0; 0; 0; 1]%Z.
Proof. reflexivity. Qed.

Example bin_list_to_message_AB :
  bin_list_to_message (message_to_bin_list [65; 66]%Z) = Normal [65; 66]%Z.
Proof. reflexivity. Qed.

Example bin_list_to_message_bad_length :
  bin_list_to_message [1; 0; 1]%Z = Raised (ValueError NotDivisibleBy8).
Proof. reflexivity. Qed.

Example set_bit_examples :
  set_bit 200 0 1 = 201%Z ∧ set_bit 201 0 0 = 200%Z ∧ set_bit 201 0 1 = 201%Z.
Proof. repeat split. Qed.


(** ** Bits of an integer *)

Lemma land_pow2 (n k : Z) :
  (0 ≤ k)%Z → Z.land (2 ^ k) n = if Z.testbit n k then (2 ^ k)%Z else 0%Z.
Proof.
  intros Hk. apply Z.bits_inj'. intros m Hm.
  rewrite Z.land_spec, Z.pow2_bits_eqb by lia.
  destruct (Z.testbit n k) eqn:E; rewrite ?Z.pow2_bits_eqb, ?Z.bits_0 by lia;
    destruct (Z.eqb_spec k m) as [<-|]; simpl; rewrite ?E; done.
Qed.

(** One step of the loop of [int_to_bin_list]: [((1 << i) & n) >> i] is
    bit [i] of [n]. *)
Lemma extract_bit (n : Z) (k : nat) :
  Z.shiftr (Z.land (Z.shiftl 1 (Z.of_nat k)) n) (Z.of_nat k)
  = Z.b2z (Z.testbit n (Z.of_nat k)).
Proof.
  rewrite Z.shiftl_1_l, land_pow2 by lia.
  destruct (Z.testbit n _); simpl.
  - rewrite Z.shiftr_div_pow2, Z.div_same by (try apply Z.pow_nonzero; lia). done.
  - apply Z.shiftr_0_l.
Qed.

Lemma length_msb_bits w n : length (msb_bits w n) = w.
Proof. unfold msb_bits. by rewrite length_fmap, length_reverse, length_seq. Qed.

Lemma msb_bits_lookup w n i :
  i < w → msb_bits w n !! i = Some (Z.b2z (Z.testbit n (Z.of_nat (w - 1 - i)))).
Proof.
  intros Hi. unfold msb_bits.
  rewrite list_lookup_fmap, reverse_lookup, length_seq, lookup_seq_lt by
    (rewrite ?length_seq; lia).
  simpl. rewrite extract_bit. do 3 f_equal. lia.
Qed.

Lemma b2z_is_bit b : is_bit (Z.b2z b).
Proof. destruct b; [right|left]; done. Qed.

Lemma msb_bits_are_bits w n : Forall is_bit (msb_bits w n).
Proof.
  apply Forall_lookup. intros i x Hx.
  assert (i < w) by (rewrite <- (length_msb_bits w n); eapply lookup_lt_Some; done).
  rewrite msb_bits_lookup in Hx by done. injection Hx as <-. apply b2z_is_bit.
Qed.

(** Only the low [w] bits of [n] are kept. *)
Lemma msb_bits_mod w n : msb_bits w n = msb_bits w (n mod 2 ^ Z.of_nat w).
Proof.
  apply list_eq. intros i.
  destruct (decide (i < w)).
  - rewrite !msb_bits_lookup by done. rewrite Z.mod_pow2_bits_low by lia. done.
  - rewrite !lookup_ge_None_2 by (rewrite length_msb_bits; lia). done.
Qed.

(** Appending bit [i] to the low [i] bits of [n]. *)
Lemma mod_pow2_succ (n : Z) (i : nat) :
  (n mod 2 ^ Z.of_nat (S i) = n mod 2 ^ Z.of_nat i
                              + Z.shiftl (Z.b2z (Z.testbit n (Z.of_nat i))) (Z.of_nat i))%Z.
Proof.
  rewrite Nat2Z.inj_succ, Z.pow_succ_r, (Z.mul_comm 2) by lia.
  rewrite Z.rem_mul_r by (try apply Z.pow_nonzero; lia).
  rewrite Z.shiftl_mul_pow2, Z.testbit_spec' by lia. lia.
Qed.

(** ** The assembling loop *)

(** [assemble w] inverts [msb_bits w]: the loop rebuilds the low [w] bits. *)
Lemma assemble_msb_bits w n :
  assemble w (msb_bits w n) = Normal (n mod 2 ^ Z.of_nat w)%Z.
Proof.
  unfold assemble, eval, for_range.
  erewrite bind_normal.
  2:{ apply (for_each_complete _ _ (λ i, n mod 2 ^ Z.of_nat i)%Z).
      - simpl. apply Z.mod_1_r.
      - intros i x Hx. apply lookup_seq in Hx as [-> Hi]. simpl.
        pym_unfold. unfold py_get.
        rewrite msb_bits_lookup by lia. simpl.
        rewrite mod_pow2_succ. by replace (w - 1 - (w - 1 - i)) with i by lia. }
  by rewrite length_seq.
Qed.

(** A list shorter than [w] makes the first read, [bin_list[w - 1]], raise. *)
Lemma assemble_short w bin_list :
  0 < w → length bin_list < w → assemble w bin_list = Raised IndexError.
Proof.
  intros Hw Hlen. destruct w as [|w]; [lia|].
  unfold assemble, eval, for_range. simpl. pym_unfold. unfold py_get.
  rewrite lookup_ge_None_2 by lia. done.
Qed.

(** ** Round trips and error cases *)

(** C11: [bin_list_to_int] inverts [int_to_bin_list] up to the 32-bit
    truncation: the length field of a frame decodes to the message length
    modulo 2^32. *)
Theorem bin_list_to_int_roundtrip (n : Z) :
  bin_list_to_int (int_to_bin_list n) = Normal (n mod 2 ^ 32)%Z.
Proof. apply assemble_msb_bits. Qed.

Lemma int_to_bin_list_length n : length (int_to_bin_list n) = 32.
Proof. apply length_msb_bits. Qed.

Lemma char_to_bin_list_length c : length (char_to_bin_list c) = 8.
Proof. apply length_msb_bits. Qed.

(** C20: [bin_list_to_int] reads [bin_list[31]] first: a list shorter than 32
    raises [IndexError]. *)
Theorem bin_list_to_int_short (bin_list : list Z) :
  length bin_list < 32 → bin_list_to_int bin_list = Raised IndexError.
Proof. intros. apply assemble_short; lia. Qed.

Lemma bin_list_to_char_char_to_bin_list (c : Z) :
  bin_list_to_char (char_to_bin_list c) = py_chr (c mod 256)%Z.
Proof. unfold bin_list_to_char, char_to_bin_list. by rewrite assemble_msb_bits. Qed.

(** A character of code point below 256 survives the 8-bit round trip. *)
Lemma char_roundtrip (c : Z) :
  fits 8 c → bin_list_to_char (char_to_bin_list c) = Normal c.
Proof.
  intros Hc. unfold fits in Hc. rewrite bin_list_to_char_char_to_bin_list.
  rewrite Z.mod_small by lia. unfold py_chr. rewrite decide_True by lia. done.
Qed.

Lemma message_to_bin_list_concat (m : pystr) :
  message_to_bin_list m = concat (char_to_bin_list <$> m).
Proof.
  unfold message_to_bin_list.
  enough (∀ acc, foldl (λ lv ch, lv ++ char_to_bin_list ch) acc m
                 = acc ++ concat (char_to_bin_list <$> m)) as H by apply H.
  induction m as [|c m IH]; intros acc; [by rewrite app_nil_r|].
  cbn [foldl]. rewrite IH, fmap_cons. cbn [concat]. by rewrite app_assoc.
Qed.

Lemma message_to_bin_list_length (m : pystr) :
  length (message_to_bin_list m) = 8 * length m.
Proof.
  rewrite message_to_bin_list_concat.
  induction m as [|c m IH]; [done|].
  rewrite fmap_cons. cbn [concat length]. rewrite length_app, char_to_bin_list_length. lia.
Qed.

(** Bit [i] of a concatenation of bytes is bit [i mod 8] of byte [i / 8]. *)
Lemma lookup_concat_bytes (gs : list (list Z)) (i : nat) :
  Forall (λ g, length g = 8) gs → concat gs !! i = (gs !!! (i / 8)) !! (i mod 8).
Proof.
  intros Hgs. revert i. induction Hgs as [|g gs Hg Hgs IH]; intros i; cbn [concat].
  - by rewrite lookup_total_nil.
  - destruct (decide (i < 8)).
    + rewrite lookup_app_l by lia. rewrite Nat.div_small, Nat.mod_small by lia. done.
    + rewrite lookup_app_r, IH by lia. rewrite Hg.
      replace i with ((i - 8) + 1 * 8) at 3 4 by lia.
      rewrite Nat.div_add, Nat.Div0.mod_add, Nat.add_1_r by lia. done.
Qed.

(** The state of the loop of [bin_list_to_message] after [i] bits of the
    encoding of [m]: the bits of the current byte, their count, and the
    characters decoded so far. *)
#[local] Arguments Nat.div : simpl never.
#[local] Arguments Nat.modulo : simpl never.

Definition b2m_after (m : pystr) (i : nat) : b2m_locals :=
  B2M (take (i mod 8) (char_to_bin_list (m !!! (i / 8))))
      (Z.of_nat (i mod 8)) (take (i / 8) m).

Lemma bin_list_to_message_step (m : pystr) (i : nat) :
  Forall (fits 8) m → i < 8 * length m →
  bin_list_to_message_body (message_to_bin_list m) i (b2m_after m i)
  = (Normal (), b2m_after m (S i)).
Proof.
  intros Hm Hi.
  div_mod_facts i 8. div_mod_facts (S i) 8.
  assert (Hq : i / 8 < length m) by lia.
  set (g := char_to_bin_list (m !!! (i / 8))).
  assert (Hlen : length g = 8) by apply char_to_bin_list_length.
  destruct (lookup_lt_is_Some_2 g (i mod 8)) as [b Hb]; [lia|].
  assert (Hbit : message_to_bin_list m !! i = Some b).
  { rewrite message_to_bin_list_concat, lookup_concat_bytes.
    - rewrite (list_lookup_total_fmap char_to_bin_list m (i / 8)) by lia. exact Hb.
    - apply Forall_fmap, Forall_true. intros. apply char_to_bin_list_length. }
  unfold bin_list_to_message_body, b2m_after. pym_unfold. unfold py_get.
  rewrite Hbit. simpl. fold g.
  destruct (decide (Z.of_nat (i mod 8) = 7%Z)) as [H7|H7]; simpl.
  - assert (Hr : i mod 8 = 7) by lia.
    rewrite <- (take_S_r _ _ _ Hb), Hr, take_ge by lia.
    subst g. rewrite char_roundtrip.
    2:{ eapply Forall_lookup_1; [done|]. by apply list_lookup_lookup_total_lt. }
    simpl. replace (S i mod 8) with 0 by lia. replace (S i / 8) with (S (i / 8)) by lia.
    by rewrite (take_S_r m (i / 8) (m !!! (i / 8))) by
      (by apply list_lookup_lookup_total_lt).
  - replace (S i mod 8) with (S (i mod 8)) by lia.
    replace (S i / 8) with (i / 8) by lia.
    fold g. rewrite (take_S_r g _ _ Hb). do 2 f_equal. lia.
Qed.

(** Decoding the bits of a message whose characters are all below 256
    gives the message back. *)
Lemma bin_list_to_message_bytes (m : pystr) :
  Forall (fits 8) m → bin_list_to_message (message_to_bin_list m) = Normal m.
Proof.
  intros Hm. unfold bin_list_to_message.
  rewrite message_to_bin_list_length, decide_False by (rewrite Nat.mul_comm, Nat.Div0.mod_mul; lia).
  unfold eval, for_range. erewrite bind_normal.
  2:{ apply (for_each_complete _ _ (b2m_after m)); [done|].
      intros i x Hx. apply lookup_seq in Hx as [-> Hi].
      apply bin_list_to_message_step; [done|lia]. }
  rewrite length_seq. unfold b2m_after.
  replace (8 * length m / 8) with (length m) by (rewrite Nat.mul_comm, Nat.div_mul; lia).
  rewrite (take_ge m) by lia. done.
Qed.

Lemma message_to_bin_list_mod (m : pystr) :
  message_to_bin_list m = message_to_bin_list ((λ c, c mod 256)%Z <$> m).
Proof.
  rewrite !message_to_bin_list_concat, <- list_fmap_compose.
  f_equal. apply list_fmap_ext. intros _ c _. apply msb_bits_mod.
Qed.

(** C10: Decoding the bits of any message gives back the message with
    every character reduced to its low byte; a message of bytes comes
    back unchanged. *)
Theorem bin_list_to_message_roundtrip (m : pystr) :
  bin_list_to_message (message_to_bin_list m) = Normal ((λ c, c mod 256)%Z <$> m).
Proof.
  rewrite message_to_bin_list_mod. apply bin_list_to_message_bytes.
  apply Forall_fmap, Forall_true. intros c. unfold fits. simpl.
  pose proof (Z.mod_pos_bound c 256). lia.
Qed.

(** C21: A bit list whose length is not a multiple of 8 is rejected. *)
Theorem bin_list_to_message_bad_length_error (bin_list : list Z) :
  length bin_list mod 8 ≠ 0 →
  bin_list_to_message bin_list = Raised (ValueError NotDivisibleBy8).
Proof. intros H. unfold bin_list_to_message. by rewrite decide_True. Qed.

(** C22: Characters of code point 256 or above are truncated to their low
    byte: [ord] is masked by the 8-bit loop. *)
Theorem char_to_bin_list_truncates (c : Z) :
  char_to_bin_list c = char_to_bin_list (c mod 256)%Z.
Proof. apply msb_bits_mod. Qed.

(** ** [set_bit] *)

(** [set_bit v index x] gives bit [index] the truth value of [x] and
    keeps every other bit of [v]. *)
Theorem set_bit_testbit (v : Z) (index : nat) (x j : Z) :
  (0 ≤ j)%Z →
  Z.testbit (set_bit v index x) j
  = if decide (j = Z.of_nat index) then bool_decide (x ≠ 0%Z) else Z.testbit v j.
Proof.
  intros Hj. unfold set_bit. rewrite Z.shiftl_1_l.
  destruct (decide (x ≠ 0%Z)) as [Hx|Hx];
    rewrite ?Z.lor_spec, Z.land_spec, Z.lnot_spec, Z.pow2_bits_eqb by lia;
    destruct (decide (j = Z.of_nat index)) as [->|Hne];
    rewrite ?Z.eqb_refl, ?(proj2 (Z.eqb_neq _ _) (not_eq_sym Hne)), ?bool_decide_true,
      ?bool_decide_false by done; simpl;
    rewrite ?andb_false_r, ?andb_true_r, ?orb_true_r, ?orb_false_r; done.
Qed.

(** The least significant bit written by [set_bit v 0 b] is [b]. *)
Lemma set_bit_lsb (v b : Z) : is_bit b → Z.land (set_bit v 0 b) 1 = b.
Proof.
  intros Hb. apply Z.bits_inj'. intros j Hj.
  rewrite Z.land_spec, set_bit_testbit by lia. simpl Z.of_nat.
  case_decide as Hj0.
  - subst j. destruct Hb as [-> | ->];
      rewrite ?bool_decide_false, ?bool_decide_true by lia; done.
  - rewrite (Z.bits_above_log2 1 j) by (simpl; lia). rewrite andb_false_r.
    destruct Hb as [-> | ->]; [by rewrite Z.bits_0|].
    symmetry. apply Z.bits_above_log2; simpl; lia.
Qed.

(** The bits above bit 0 are those of [v]. *)
Lemma set_bit_high (v x : Z) : Z.shiftr (set_bit v 0 x) 1 = Z.shiftr v 1.
Proof.
  apply Z.bits_inj'. intros j Hj.
  rewrite !Z.shiftr_spec, set_bit_testbit by lia.
  rewrite decide_False by lia. done.
Qed.

(** C19: On a bit [b], [set_bit v 0 b] replaces the parity of [v] by [b]:
    the result is [2 * (v / 2) + b]. *)
Theorem set_bit_parity (v b : Z) : is_bit b → set_bit v 0 b = (2 * (v / 2) + b)%Z.
Proof.
  intros Hb.
  pose proof (set_bit_lsb v b Hb) as Hl. pose proof (set_bit_high v b) as Hh.
  rewrite !Z.shiftr_div_pow2 in Hh by lia. change (2 ^ 1)%Z with 2%Z in Hh.
  rewrite (Z.land_ones _ 1) in Hl by lia. change (2 ^ 1)%Z with 2%Z in Hl.
  rewrite (Z.div_mod (set_bit v 0 b) 2), Hh, Hl by lia. done.
Qed.

(** A byte stays a byte: numpy's uint8 store keeps the value. *)
Lemma set_bit_fits (v x : Z) : fits 8 v → fits 8 (set_bit v 0 x).
Proof.
  unfold fits. intros Hv.
  pose proof (set_bit_high v x) as H. rewrite !Z.shiftr_div_pow2 in H by lia.
  pose proof (Z.div_mod (set_bit v 0 x) (2 ^ 1) ltac:(lia)).
  pose proof (Z.mod_pos_bound (set_bit v 0 x) (2 ^ 1) ltac:(lia)).
  change (2 ^ 1)%Z with 2%Z in *. change (2 ^ Z.of_nat 8)%Z with 256%Z in *.
  Z.div_mod_to_equations. lia.
Qed.

End BitCodec.
