(* ===== verification/CodecSpec.v ===== *)
(** * [bin_list_to_message] against a reference decoder

    [bin_list_to_message] (lines 133-156 of [src/steganographer.py])
    decodes with one loop over the bits, a group buffer [list_tmp] and a
    counter [bit_counter] that is reset to -1 and incremented on every
    eighth bit.  The reference [bin_list_to_message_ref] cuts the list
    into groups of eight and converts each group with [bin_list_to_char]
    ([mapM] in the error monad).  The theorem: the two agree on every
    list of integers, errors included. *)

From S2P Require Import Prelude BitCodec.
Import BitCodec.

Module CodecSpec.

(** The first [n] groups of eight elements of [l]. *)
Fixpoint bytes_of (n : nat) (l : list Z) : list (list Z) :=
  match n with
  | 0 => []
  | S n' => take 8 l :: bytes_of n' (drop 8 l)
  end.

(** The reference decoder. *)
Definition bin_list_to_message_ref (bin_list : list Z) : outcome pystr :=
  if decide (length bin_list mod 8 ≠ 0) then Raised (ValueError NotDivisibleBy8)
  else mapM bin_list_to_char (bytes_of (length bin_list / 8) bin_list).

(** ** Properties *)

#[local] Arguments Nat.div : simpl never.
#[local] Arguments Nat.modulo : simpl never.

(** One iteration of the loop on bit [v], from a group of [k] bits. *)
Lemma b2m_bit (bl : list Z) (v : nat) (b : Z) (tmp : list Z) (k : Z) (msg : pystr) :
  bl !! v = Some b →
  bin_list_to_message_body bl v (B2M tmp k msg) =
    if decide (k = 7%Z) then
      match bin_list_to_char (tmp ++ [b]) with
      | Normal c => (Normal (), B2M [] 0 (msg ++ [c]))
      | Raised e => (Raised e, B2M (tmp ++ [b]) k msg)
      end
    else (Normal (), B2M (tmp ++ [b]) (k + 1) msg).
Proof.
  intros Hb. unfold bin_list_to_message_body, py_get. pym_unfold. rewrite Hb. cbn.
  case_decide; [|done]. by destruct (bin_list_to_char (tmp ++ [b])).
Qed.

(** Eight iterations from an empty group: one character, or the error
    of [bin_list_to_char]. *)
Lemma b2m_byte (bl : list Z) (j : nat) (msg : pystr) :
  j + 8 ≤ length bl →
  match bin_list_to_char (take 8 (drop j bl)) with
  | Normal c =>
      for_each (seq j 8) (bin_list_to_message_body bl) (B2M [] 0 msg)
      = (Normal (), B2M [] 0 (msg ++ [c]))
  | Raised e => (for_each (seq j 8) (bin_list_to_message_body bl) (B2M [] 0 msg)).1 = Raised e
  end.
Proof.
  intros Hlen.
  assert (Hget : ∀ i, i < 8 → bl !! (j + i) = Some (bl !!! (j + i)))
    by (intros; apply list_lookup_lookup_total_lt; lia).
  assert (Hfirst : for_each (seq j 7) (bin_list_to_message_body bl) (B2M [] 0 msg)
                   = (Normal (), B2M (take 7 (drop j bl)) 7 msg)).
  { rewrite (for_each_complete _ _ (λ i, B2M (take i (drop j bl)) (Z.of_nat i) msg)
               _ eq_refl); [by rewrite length_seq|].
    intros i x Hx. apply lookup_seq in Hx as [-> Hi].
    rewrite (b2m_bit _ _ _ _ _ _ (Hget i ltac:(lia))), decide_False by lia.
    rewrite (take_S_r _ _ (bl !!! (j + i))) by (rewrite lookup_drop; apply Hget; lia).
    do 2 f_equal. lia. }
  destruct (bin_list_to_char (take 8 (drop j bl))) as [c|e] eqn:Hc;
    rewrite seq_S, (for_each_app _ _ _ (B2M [] 0 msg));
    unfold mbind at 1, pym_bind at 1; rewrite Hfirst; cbn [for_each];
    unfold mbind at 1, pym_bind at 1;
    rewrite (b2m_bit _ _ _ _ _ _ (Hget 7 ltac:(lia))), decide_True by done;
    rewrite <- (take_S_r _ _ (bl !!! (j + 7))) by (rewrite lookup_drop; apply Hget; lia);
    by rewrite Hc.
Qed.

Lemma mapM_cons_outcome {A B} (f : A → outcome B) (x : A) (l : list A) :
  mapM f (x :: l) = (y ← f x; k ← mapM f l; mret (y :: k)).
Proof. done. Qed.

(** [n] groups of eight, from index [j]. *)
Lemma b2m_bytes (bl : list Z) (n j : nat) (msg : pystr) :
  j + 8 * n ≤ length bl →
  match mapM bin_list_to_char (bytes_of n (drop j bl)) with
  | Normal cs =>
      for_each (seq j (8 * n)) (bin_list_to_message_body bl) (B2M [] 0 msg)
      = (Normal (), B2M [] 0 (msg ++ cs))
  | Raised e =>
      (for_each (seq j (8 * n)) (bin_list_to_message_body bl) (B2M [] 0 msg)).1 = Raised e
  end.
Proof.
  revert j msg. induction n as [|n IH]; intros j msg Hlen.
  { cbn. by rewrite app_nil_r. }
  replace (8 * S n) with (8 + 8 * n) by lia.
  rewrite seq_app, (for_each_app _ _ _ (B2M [] 0 msg)). cbn [bytes_of].
  rewrite mapM_cons_outcome. pose proof (b2m_byte bl j msg ltac:(lia)) as Hbyte.
  destruct (bin_list_to_char (take 8 (drop j bl))) as [c|e]; cbn [mbind outcome_bind].
  - rewrite (bind_normal _ _ _ () (B2M [] 0 (msg ++ [c]))) by exact Hbyte.
    pose proof (IH (j + 8) (msg ++ [c]) ltac:(lia)) as Hrest. rewrite drop_drop.
    destruct (mapM bin_list_to_char (bytes_of n (drop (j + 8) bl))) as [cs|e];
      cbn [mbind outcome_bind mret outcome_ret]; [by rewrite Hrest, <- app_assoc | done].
  - destruct (for_each (seq j 8) _ _) as [r s'] eqn:E. cbn in Hbyte. subst r.
    by rewrite (bind_raised _ _ _ e s').
Qed.

(** C32: the loop of [bin_list_to_message] is the reference decoder:
    for every list of integers both reject a length that is not a
    multiple of 8, and otherwise both convert the groups of eight in
    order, failing with the first failure of [bin_list_to_char]. *)
Theorem bin_list_to_message_equiv (bin_list : list Z) :
  bin_list_to_message bin_list = bin_list_to_message_ref bin_list.
Proof.
  unfold bin_list_to_message, bin_list_to_message_ref. case_decide as Hmod; [done|].
  set (n := length bin_list / 8).
  assert (Hn : length bin_list = 8 * n) by (div_mod_facts (length bin_list) 8; lia).
  pose proof (b2m_bytes bin_list n 0 [] ltac:(lia)) as Hb.
  unfold eval, for_range. rewrite Hn. rewrite drop_0 in Hb.
  revert Hb. destruct (mapM bin_list_to_char (bytes_of n bin_list)) as [cs|e]; intros Hb.
  - by erewrite bind_normal by exact Hb.
  - destruct (for_each (seq 0 (8 * n)) _ _) as [r s'] eqn:E. cbn in Hb. subst r.
    by erewrite bind_raised by exact E.
Qed.

End CodecSpec.
