(* ===== verification/PixelBuffer.v ===== *)
(** * The pixel buffer: the numpy array of [Steganographer]

    [self.__image_data] is [numpy.copy(numpy.asarray(image))], indexed
    [data[row][col][channel]], of dtype uint8.  This file models its
    reads ([channel_at]), the per-pixel store [data[y][x] = bitList] of
    [encode_image] ([store_pixel], numpy's shape check and uint8 cast),
    the [(1, 1, 1)] shape test that marks an uninitialised object, and
    the order in which the nested loops of [encode_image] and
    [decode_image] visit the channels ([scan_pixels], [scan_slots]).

    It also holds the flat specification of the embedding, [embed]: the
    frame is cut into groups of one bit per channel and each group is
    written into the least significant bits of the next pixel in scan
    order.  [WriteLoop] proves that the nested loops of [encode_image]
    implement it. *)

From S2P Require Import Prelude BitCodec.
Import BitCodec.

Module PixelBuffer.

Abbreviation pixel := (list Z).
Abbreviation image := (list (list pixel)).

(** ** The numpy operations *)

(** [data[y][x][c]] *)
Definition channel_at (data : image) (y x c : nat) : outcome Z :=
  row ← py_get data y; px ← py_get row x; py_get px c.

(** Storing a Python int into a uint8 array keeps its low byte. *)
Definition to_uint8 (v : Z) : Z := (v mod 256)%Z.

(** [data[y][x] = value] for a Python list [value]: numpy broadcasts a
    list of the pixel's length, or of length 1, and raises [ValueError]
    for any other length. *)
Definition store_pixel (data : image) (y x : nat) (value : list Z) : outcome image :=
  row ← py_get data y;
  px ← py_get row x;
  p ← (if decide (length value = length px) then Normal (to_uint8 <$> value)
       else if decide (length value = 1) then
         Normal (replicate (length px) (to_uint8 (value !!! 0)))
       else Raised (ValueError BroadcastShape));
  Normal (<[y := <[x := p]> row]> data).

(** [data.shape == (1, 1, 1)] *)
Definition shape_is_111 (data : image) : bool :=
  match data with [[[_]]] => true | _ => false end.

(** ** Scan order *)

(** The two outer loops of [encode_image] and [decode_image]:
    [for heightIndex in range(size[0]): for widthIndex in range(size[1])],
    visiting the pixel [data[widthIndex][heightIndex]].  PIL's
    [size] is [(width, height)], so the scan runs down each column. *)
Definition scan_pixels (size0 size1 : nat) : list (nat * nat) :=
  seq 0 size0 ≫= λ heightIndex, pair heightIndex <$> seq 0 size1.

(** With the innermost loop [for colorIndex in range(color_size)]. *)
Definition scan_slots (size0 size1 color_size : nat) : list ((nat * nat) * nat) :=
  scan_pixels size0 size1 ≫= λ p, pair p <$> seq 0 color_size.

(** ** Pure reads *)

(** The pixel [data[y][x]], if in range. *)
Definition pixel_at (data : image) (y x : nat) : option pixel :=
  data !! y ≫= λ row, row !! x.

(** The value at [data[y][x][c]], 0 out of range. *)
Definition chan (data : image) (y x c : nat) : Z :=
  default 0%Z (pixel_at data y x ≫= λ px, px !! c).

(** The least significant bits of the first [cs] channels of the pixels
    [pxs], in order: what the loops of [decode_image] read. *)
Definition lsbs_of (data : image) (pxs : list (nat * nat)) (cs : nat) : list Z :=
  pxs ≫= λ '(heightIndex, widthIndex),
    (λ c, Z.land (chan data widthIndex heightIndex c) 1) <$> seq 0 cs.

(** [size1] rows of [size0] pixels of [nch] byte channels. *)
Definition well_formed (data : image) (size0 size1 nch : nat) : Prop :=
  length data = size1 ∧
  Forall (λ row, length row = size0 ∧
    Forall (λ px, length px = nch ∧ Forall (fits 8) px) row) data.

#[export] Instance well_formed_dec data size0 size1 nch :
  Decision (well_formed data size0 size1 nch).
Proof. unfold well_formed. solve_decision. Defined.

(** ** The flat specification of the embedding *)

(** The least significant bit of channel [c] of [px] set to [bits[c]]
    where the frame has a bit for it, through numpy's uint8 store. *)
Definition lsb_merge (px : pixel) (bits : list Z) : pixel :=
  imap (λ c v, match bits !! c with
               | Some b => to_uint8 (set_bit v 0 b)
               | None => v
               end) px.

(** Write the bits [bits] into the least significant bits of the
    channels of pixel [data[y][x]], one bit per channel from the first. *)
Definition embed_pixel (data : image) (y x : nat) (bits : list Z) : image :=
  match pixel_at data y x with
  | Some px => <[y := <[x := lsb_merge px bits]> (data !!! y)]> data
  | None => data
  end.

(** Write the frame [bits] [cs] bits per pixel into the pixels [pxs],
    in order, until the frame is exhausted. *)
Fixpoint embed (cs : nat) (data : image) (pxs : list (nat * nat)) (bits : list Z) : image :=
  match pxs, bits with
  | [], _ | _, [] => data
  | (heightIndex, widthIndex) :: pxs', _ =>
      embed cs (embed_pixel data widthIndex heightIndex (take cs bits)) pxs' (drop cs bits)
  end.

(** ** Reads after a write *)

Lemma pixel_at_insert (data : image) (y x y' x' : nat) (row : list pixel) (p : pixel) :
  data !! y = Some row → x < length row →
  pixel_at (<[y := <[x := p]> row]> data) y' x'
  = if decide ((y', x') = (y, x)) then Some p else pixel_at data y' x'.
Proof.
  intros Hrow Hx. unfold pixel_at.
  destruct (decide (y' = y)) as [->|Hy].
  - rewrite list_lookup_insert_eq by (eapply lookup_lt_Some; done). simpl.
    rewrite Hrow. simpl. destruct (decide (x' = x)) as [->|Hx'].
    + rewrite decide_True by done. by rewrite list_lookup_insert_eq.
    + rewrite decide_False by congruence. by rewrite list_lookup_insert_ne.
  - rewrite decide_False by congruence. by rewrite list_lookup_insert_ne.
Qed.

Lemma pixel_at_embed_pixel (data : image) (y x : nat) (bits : list Z) (y' x' : nat) :
  pixel_at (embed_pixel data y x bits) y' x'
  = if decide ((y', x') = (y, x)) then (λ px, lsb_merge px bits) <$> pixel_at data y x
    else pixel_at data y' x'.
Proof.
  unfold embed_pixel. destruct (pixel_at data y x) as [px|] eqn:Hpx.
  - pose proof Hpx as Hpx'. unfold pixel_at in Hpx'.
    destruct (data !! y) as [row|] eqn:Hrow; [|done]. simpl in Hpx'.
    rewrite (list_lookup_total_correct _ _ _ Hrow).
    rewrite pixel_at_insert by (done || (eapply lookup_lt_Some; done)). done.
  - case_decide as E; [|done]. injection E as -> ->. by rewrite Hpx.
Qed.

Lemma length_lsb_merge (px : pixel) (bits : list Z) : length (lsb_merge px bits) = length px.
Proof. apply length_imap. Qed.

Lemma lookup_lsb_merge (px : pixel) (bits : list Z) (c : nat) :
  lsb_merge px bits !! c
  = (λ v, match bits !! c with Some b => to_uint8 (set_bit v 0 b) | None => v end)
      <$> px !! c.
Proof. apply list_lookup_imap. Qed.

Lemma to_uint8_fits (v : Z) : fits 8 (to_uint8 v).
Proof. unfold fits, to_uint8. apply Z.mod_pos_bound. done. Qed.

Lemma to_uint8_id (v : Z) : fits 8 v → to_uint8 v = v.
Proof. unfold fits, to_uint8. intros. apply Z.mod_small. done. Qed.

(** The uint8 cast keeps bit 0. *)
Lemma to_uint8_land1 (v : Z) : Z.land (to_uint8 v) 1 = Z.land v 1.
Proof.
  unfold to_uint8. change 256%Z with (2 ^ 8)%Z.
  rewrite <- Z.land_ones, <- Z.land_assoc by lia. done.
Qed.

Lemma lsb_merge_fits (px : pixel) (bits : list Z) :
  Forall (fits 8) px → Forall (fits 8) (lsb_merge px bits).
Proof.
  intros Hpx. apply Forall_lookup. intros c v Hv.
  rewrite lookup_lsb_merge in Hv.
  destruct (px !! c) as [w|] eqn:Hw; [|done]. injection Hv as <-.
  destruct (bits !! c); [apply to_uint8_fits|]. by eapply Forall_lookup_1.
Qed.

(** ** Shape *)

Lemma well_formed_pixel (data : image) (size0 size1 nch y x : nat) :
  well_formed data size0 size1 nch → y < size1 → x < size0 →
  ∃ px, pixel_at data y x = Some px ∧ length px = nch ∧ Forall (fits 8) px.
Proof.
  intros [Hlen Hrows] Hy Hx.
  destruct (lookup_lt_is_Some_2 data y) as [row Hrow]; [lia|].
  destruct (Forall_lookup_1 _ _ _ _ Hrows Hrow) as [Hrlen Hpxs].
  destruct (lookup_lt_is_Some_2 row x) as [px Hpx]; [lia|].
  exists px. unfold pixel_at. rewrite Hrow. simpl. rewrite Hpx.
  split; [done|]. exact (Forall_lookup_1 _ _ _ _ Hpxs Hpx).
Qed.

(** A pixel of a well-formed image has its shape and byte values. *)
Lemma well_formed_pixel_at (data : image) (size0 size1 nch y x : nat) (px : pixel) :
  well_formed data size0 size1 nch → pixel_at data y x = Some px →
  length px = nch ∧ Forall (fits 8) px.
Proof.
  intros [_ Hrows] Hpx. unfold pixel_at in Hpx.
  destruct (data !! y) as [row|] eqn:Hrow; [|done]. simpl in Hpx.
  destruct (Forall_lookup_1 _ _ _ _ Hrows Hrow) as [_ Hpxs].
  exact (Forall_lookup_1 _ _ _ _ Hpxs Hpx).
Qed.

Lemma embed_pixel_well_formed (data : image) (size0 size1 nch y x : nat) (bits : list Z) :
  well_formed data size0 size1 nch → well_formed (embed_pixel data y x bits) size0 size1 nch.
Proof.
  intros Hwf. unfold embed_pixel.
  destruct (pixel_at data y x) as [px|] eqn:Hpx; [|done].
  destruct (well_formed_pixel_at _ _ _ _ _ _ _ Hwf Hpx) as [Hlen Hfits].
  unfold pixel_at in Hpx. destruct (data !! y) as [row|] eqn:Hrow; [|done].
  simpl in Hpx. rewrite (list_lookup_total_correct _ _ _ Hrow).
  destruct Hwf as [Hdl Hrows]. split; [by rewrite length_insert|].
  destruct (Forall_lookup_1 _ _ _ _ Hrows Hrow) as [Hrl Hpxs].
  apply Forall_insert; [done|]. split; [by rewrite length_insert|].
  apply Forall_insert; [done|]. split.
  - by rewrite length_lsb_merge.
  - by apply lsb_merge_fits.
Qed.

Lemma embed_well_formed (cs : nat) (data : image) (pxs : list (nat * nat))
    (bits : list Z) (size0 size1 nch : nat) :
  well_formed data size0 size1 nch → well_formed (embed cs data pxs bits) size0 size1 nch.
Proof.
  revert data bits. induction pxs as [|[h w] pxs IH]; intros data bits Hwf;
    destruct bits; simpl; try done.
  apply IH. by apply embed_pixel_well_formed.
Qed.

(** ** What [embed] writes *)

(** A pixel outside the scanned list is not written. *)
Lemma pixel_at_embed_notin (cs : nat) (data : image) (pxs : list (nat * nat))
    (bits : list Z) (y x : nat) :
  (x, y) ∉ pxs → pixel_at (embed cs data pxs bits) y x = pixel_at data y x.
Proof.
  revert data bits. induction pxs as [|[h w] pxs IH]; intros data bits Hnot;
    destruct bits; simpl; try done.
  rewrite IH by set_solver. rewrite pixel_at_embed_pixel, decide_False by set_solver.
  done.
Qed.

Lemma embed_cons (cs : nat) (data : image) (x y : nat) (pxs : list (nat * nat))
    (bits : list Z) :
  bits ≠ [] →
  embed cs data ((x, y) :: pxs) bits
  = embed cs (embed_pixel data y x (take cs bits)) pxs (drop cs bits).
Proof. destruct bits; done. Qed.

(** Pixels of the scan after the ones the frame fills are not written. *)
Lemma pixel_at_embed_beyond (cs : nat) (data : image) (pxs : list (nat * nat))
    (bits : list Z) (k y x : nat) :
  length bits ≤ cs * k → (x, y) ∉ take k pxs →
  pixel_at (embed cs data pxs bits) y x = pixel_at data y x.
Proof.
  revert data bits k. induction pxs as [|[h w] pxs IH]; intros data bits k Hk Hnot;
    [done|].
  destruct (decide (bits = [])) as [->|Hb]; [done|].
  destruct k as [|k]; [destruct bits; simpl in *; [done|lia]|].
  rewrite embed_cons by done. simpl in Hnot.
  rewrite (IH _ _ k); [|rewrite length_drop; lia|set_solver].
  rewrite pixel_at_embed_pixel, decide_False by set_solver. done.
Qed.

Lemma lsbs_of_cons (data : image) (x y : nat) (pxs : list (nat * nat)) (cs : nat) :
  lsbs_of data ((x, y) :: pxs) cs
  = ((λ c, Z.land (chan data y x c) 1) <$> seq 0 cs) ++ lsbs_of data pxs cs.
Proof. unfold lsbs_of. by rewrite bind_cons. Qed.

(** Every pixel of the scan exists and has [cs] channels. *)
Definition pixels_fit (data : image) (pxs : list (nat * nat)) (cs : nat) : Prop :=
  ∀ x y, (x, y) ∈ pxs → ∃ px, pixel_at data y x = Some px ∧ length px = cs.

Lemma embed_pixel_pixels_fit (data : image) (pxs : list (nat * nat)) (cs y x : nat)
    (bits : list Z) :
  pixels_fit data pxs cs → pixels_fit (embed_pixel data y x bits) pxs cs.
Proof.
  intros Hfit x' y' Hin. destruct (Hfit x' y' Hin) as (px & Hpx & Hlen).
  rewrite pixel_at_embed_pixel. case_decide as E.
  - injection E as -> ->. rewrite Hpx. simpl. eexists; split; [done|].
    by rewrite length_lsb_merge.
  - eauto.
Qed.

(** The bit [embed_pixel] leaves in channel [c] of the pixel it writes. *)
Lemma chan_embed_pixel_lsb (data : image) (y x c : nat) (px : pixel) (bits : list Z)
    (b : Z) :
  pixel_at data y x = Some px → c < length px → bits !! c = Some b → is_bit b →
  Z.land (chan (embed_pixel data y x bits) y x c) 1 = b.
Proof.
  intros Hpx Hc Hb Hbit. unfold chan.
  rewrite pixel_at_embed_pixel, decide_True, Hpx by done. simpl.
  rewrite lookup_lsb_merge, Hb.
  destruct (lookup_lt_is_Some_2 px c Hc) as [v Hv]. rewrite Hv. simpl.
  rewrite to_uint8_land1. by apply set_bit_lsb.
Qed.

(** Reading the least significant bits of the
    scanned pixels after [embed] gives the frame back, bit for bit. *)
Theorem lsbs_embed_lookup (cs : nat) (data : image) (pxs : list (nat * nat))
    (bits : list Z) (i : nat) :
  NoDup pxs → pixels_fit data pxs cs → Forall is_bit bits →
  length bits ≤ cs * length pxs → i < length bits →
  lsbs_of (embed cs data pxs bits) pxs cs !! i = bits !! i.
Proof.
  revert data bits i. induction pxs as [|[x y] pxs IH];
    intros data bits i Hnd Hfit Hbits Hlen Hi; simpl in Hlen; [lia|].
  assert (Hb : bits ≠ []) by (destruct bits; simpl in *; [lia|done]).
  apply NoDup_cons in Hnd as [Hxy Hnd].
  rewrite embed_cons, lsbs_of_cons by done.
  set (D := embed cs _ pxs _).
  destruct (decide (i < cs)).
  - rewrite lookup_app_l by (rewrite length_fmap, length_seq; lia).
    rewrite list_lookup_fmap, lookup_seq_lt by done. simpl.
    destruct (Hfit x y) as (px & Hpx & Hpxlen); [set_solver|].
    destruct (lookup_lt_is_Some_2 bits i) as [b Hbi]; [lia|].
    unfold D, chan. rewrite pixel_at_embed_notin by done. fold (chan (embed_pixel data y x (take cs bits)) y x i).
    rewrite (chan_embed_pixel_lsb _ _ _ _ px _ b); [done|done|lia| |].
    + by rewrite lookup_take_lt by lia.
    + by eapply Forall_lookup_1.
  - rewrite lookup_app_r by (rewrite length_fmap, length_seq; lia).
    rewrite length_fmap, length_seq. unfold D. rewrite IH.
    + rewrite lookup_drop. f_equal. lia.
    + done.
    + apply embed_pixel_pixels_fit. intros x' y' Hin. apply Hfit. set_solver.
    + by apply Forall_drop.
    + rewrite length_drop. lia.
    + rewrite length_drop. lia.
Qed.

(** [embed_pixel] keeps every bit above bit 0 of a well-formed image. *)
Lemma embed_pixel_high_bits (data : image) (size0 size1 nch y' x' : nat) (bits : list Z)
    (y x c : nat) :
  well_formed data size0 size1 nch →
  Z.shiftr (chan (embed_pixel data y' x' bits) y x c) 1 = Z.shiftr (chan data y x c) 1.
Proof.
  intros Hwf. unfold chan. rewrite pixel_at_embed_pixel. case_decide as E; [|done].
  injection E as -> ->.
  destruct (pixel_at data y' x') as [px|] eqn:Hpx; [|done]. simpl.
  destruct (well_formed_pixel_at _ _ _ _ _ _ _ Hwf Hpx) as [_ Hfits].
  rewrite lookup_lsb_merge. destruct (px !! c) as [v|] eqn:Hv; [|done]. simpl.
  destruct (bits !! c) as [b|]; [|done].
  rewrite to_uint8_id by (apply set_bit_fits; by eapply Forall_lookup_1).
  apply set_bit_high.
Qed.

(** [embed] changes no bit above bit 0 of any
    channel of a well-formed image. *)
Theorem embed_high_bits (cs : nat) (data : image) (pxs : list (nat * nat)) (bits : list Z)
    (size0 size1 nch y x c : nat) :
  well_formed data size0 size1 nch →
  Z.shiftr (chan (embed cs data pxs bits) y x c) 1 = Z.shiftr (chan data y x c) 1.
Proof.
  revert data bits. induction pxs as [|[h w] pxs IH]; intros data bits Hwf;
    destruct bits; simpl; try done.
  rewrite IH by (by apply embed_pixel_well_formed).
  by eapply embed_pixel_high_bits.
Qed.

(** The numpy read of a channel that exists is the pure read. *)
Lemma channel_at_chan (data : image) (y x c : nat) (px : pixel) :
  pixel_at data y x = Some px → c < length px →
  channel_at data y x c = Normal (chan data y x c).
Proof.
  intros Hpx Hc. unfold chan. rewrite Hpx. simpl.
  unfold pixel_at in Hpx. destruct (data !! y) as [row|] eqn:Hrow; [|done]. simpl in Hpx.
  destruct (lookup_lt_is_Some_2 px c Hc) as [v Hv].
  unfold channel_at, py_get. rewrite Hrow. simpl. rewrite Hpx. simpl. by rewrite Hv.
Qed.

End PixelBuffer.
