(* ===== verification/Engine.v ===== *)
(** * The engine: the [Steganographer] object and its initialisation

    [src/steganographer.py] lines 18-40 and 247-281, and the lazy
    initialisation of lines 311-316 and 369-373.  The object's fields
    are the record [stego]; the files PIL reads and writes are a map from
    file names to images ([files]); each method is a computation of
    [PyM world] over the pair of the two.  The constructor reads the
    keyword arguments [inputFile] and [outputFile];
    [initialize_image_data] loads the image, its mode and size, then the
    colour table and the capacity.  The theorems give the constructor and
    [initialize_image_data] on every branch; [Encoder] and [Decoder]
    build the two handlers on top of them. *)

From S2P Require Import Prelude BitCodec PixelBuffer.
Import BitCodec PixelBuffer.

Module Steganographer.

(** ** State *)

(** An image as PIL hands it over: the numpy array of [numpy.asarray],
    the mode string and [size = (width, height)]. *)
Record image_file := ImageFile {
  file_data : image;
  file_mode : string;
  file_size : nat * nat
}.

(** The fields of a [Steganographer] object. *)
Record stego := Stego {
  input_file : string;
  output_file : string;
  image_data : image;
  color_mode : string;
  color_size : nat;
  image_size : nat * nat;
  max_bits_storable : nat
}.

(** The object and the files it reads and writes. *)
Abbreviation files := (gmap string image_file).
Abbreviation world := (stego * files)%type.

Definition get_obj : PyM world stego := w ← get; mret w.1.
Definition modify_obj (f : stego → stego) : PyM world unit :=
  modify (λ w, (f w.1, w.2)).

Definition set_input_file (v : string) (st : stego) : stego :=
  Stego v (output_file st) (image_data st) (color_mode st) (color_size st)
    (image_size st) (max_bits_storable st).
Definition set_output_file (v : string) (st : stego) : stego :=
  Stego (input_file st) v (image_data st) (color_mode st) (color_size st)
    (image_size st) (max_bits_storable st).
Definition set_image_data (v : image) (st : stego) : stego :=
  Stego (input_file st) (output_file st) v (color_mode st) (color_size st)
    (image_size st) (max_bits_storable st).
Definition set_color_size (v : nat) (st : stego) : stego :=
  Stego (input_file st) (output_file st) (image_data st) (color_mode st) v
    (image_size st) (max_bits_storable st).
Definition set_max_bits (v : nat) (st : stego) : stego :=
  Stego (input_file st) (output_file st) (image_data st) (color_mode st)
    (color_size st) (image_size st) v.

(** ** The constructor *)

(** The constructor [Steganographer(...)]: the keyword arguments [inputFile] and
    [outputFile] are read (compared with [is], which holds for the
    interned keyword names), the others ignored.  [numpy.empty((1,1,1))]
    leaves its one value unspecified: it is the parameter [junk]. *)
Definition init_kwarg (st : stego) (kw : string * string) : stego :=
  let '(arg, v) := kw in
  if decide (arg = "inputFile") then set_input_file v st
  else if decide (arg = "outputFile") then set_output_file v st
  else st.

Definition steganographer_init (junk : Z) (kwargs : list (string * string)) : stego :=
  foldl init_kwarg (Stego "" "" [[[junk]]] "" 0 (0, 0) 0) kwargs.

(** ** [initialize_image_data] *)

(** [Image.open(name)]: [IOError] when there is no such file. *)
Definition open_image (fs : files) (name : string) : outcome image_file :=
  match fs !! name with Some img => Normal img | None => Raised IOError end.

(** The colour table: the number of leading channels used per pixel. *)
Definition color_size_of (mode : string) : outcome nat :=
  if decide (mode = "RGB") then Normal 3
  else if decide (mode = "RGBA") then Normal 3
  else if decide (mode = "CMYK") then Normal 4
  else if decide (mode = "YCbCr") then Normal 4
  else Raised (ValueError UnsupportedColorModel).

Definition load_image (img : image_file) (st : stego) : stego :=
  Stego (input_file st) (output_file st) (file_data img) (file_mode img)
    (color_size st) (file_size img) (max_bits_storable st).

(** The image is stored in the object before the colour mode is checked:
    an unsupported mode leaves the new pixels with the old [color_size]. *)
Definition initialize_image_data : PyM world unit :=
  st ← get_obj;
  if decide (input_file st = "") then raise (ValueError NoInputFile) else
  w ← get;
  img ← lift (open_image w.2 (input_file st));
  modify_obj (load_image img) ;;
  cs ← lift (color_size_of (file_mode img));
  modify_obj (set_color_size cs) ;;
  st ← get_obj;
  modify_obj (set_max_bits ((image_size st).1 * (image_size st).2)) ;;
  st ← get_obj;
  modify_obj (set_max_bits (max_bits_storable st * color_size st)).

(** The placeholder [(1, 1, 1)] array marks an object whose image is not
    loaded yet. *)
Definition ensure_initialized : PyM world unit :=
  st ← get_obj;
  if shape_is_111 (image_data st) then initialize_image_data else mret ().

(** ** Properties *)

Arguments initialize_image_data : simpl never.

(** The loop over the keyword arguments, from any object. *)
Lemma init_kwargs_fold (st : stego) (kwargs : list (string * string)) :
  NoDup kwargs.*1 →
  foldl init_kwarg st kwargs
  = Stego (default (input_file st) ((list_to_map kwargs : gmap string string) !! "inputFile"))
          (default (output_file st) ((list_to_map kwargs : gmap string string) !! "outputFile"))
          (image_data st) (color_mode st) (color_size st) (image_size st)
          (max_bits_storable st).
Proof.
  revert st. induction kwargs as [|[arg v] kwargs IH]; intros st Hnd; [by destruct st|].
  cbn [foldl fmap list_fmap fst list_to_map foldr] in *.
  apply NoDup_cons in Hnd as [Hnot Hnd]. rewrite IH by done.
  assert (Hnone : (list_to_map kwargs : gmap string string) !! arg = None)
    by (by apply not_elem_of_list_to_map_1).
  unfold init_kwarg.
  destruct (decide (arg = "inputFile")) as [->|Hi];
    [|destruct (decide (arg = "outputFile")) as [->|Ho]]; cbn;
    rewrite ?lookup_insert_eq, ?Hnone, ?lookup_insert_ne by done; done.
Qed.

(** C15: The constructor: for keyword arguments with distinct names, the
    object holds the value given for [inputFile] and for [outputFile]
    (the empty string when absent), ignores every other keyword, and
    starts with the [(1, 1, 1)] placeholder array, no mode, colour size
    0, size [(0, 0)] and capacity 0. *)
Theorem steganographer_init_spec (junk : Z) (kwargs : list (string * string)) :
  NoDup kwargs.*1 →
  steganographer_init junk kwargs
  = Stego (default "" ((list_to_map kwargs : gmap string string) !! "inputFile"))
          (default "" ((list_to_map kwargs : gmap string string) !! "outputFile"))
          [[[junk]]] "" 0 (0, 0) 0.
Proof.
  intros Hnd. unfold steganographer_init. rewrite init_kwargs_fold by done. done.
Qed.

(** C14: The colour table: exactly the modes [RGB], [RGBA], [CMYK] and
    [YCbCr] are accepted, with 3, 3, 4 and 4 embeddable channels; any
    other mode is rejected with [ValueError]. *)
Theorem color_size_of_spec (mode : string) :
  color_size_of mode =
    if decide (mode = "RGB" ∨ mode = "RGBA") then Normal 3
    else if decide (mode = "CMYK" ∨ mode = "YCbCr") then Normal 4
    else Raised (ValueError UnsupportedColorModel).
Proof.
  unfold color_size_of.
  destruct (decide (mode = "RGB")) as [->|H1]; [done|].
  destruct (decide (mode = "RGBA")) as [->|H2]; [done|].
  destruct (decide (mode = "CMYK")) as [->|H3]; [done|].
  destruct (decide (mode = "YCbCr")) as [->|H4]; [done|].
  rewrite !decide_False by (intros [?|?]; congruence). done.
Qed.

(** [initialize_image_data] on a named input file that exists. *)
Lemma initialize_image_data_eq (st : stego) (fs : files) (img : image_file) :
  input_file st ≠ "" → fs !! input_file st = Some img →
  initialize_image_data (st, fs) =
    match color_size_of (file_mode img) with
    | Normal cs =>
        (Normal (), (set_max_bits ((file_size img).1 * (file_size img).2 * cs)
                       (set_color_size cs (load_image img st)), fs))
    | Raised e => (Raised e, (load_image img st, fs))
    end.
Proof.
  intros Hin Himg. unfold initialize_image_data, get_obj, modify_obj, open_image.
  pym_unfold. cbn [fst snd]. rewrite decide_False by done. cbn [fst snd].
  rewrite Himg.
  destruct (color_size_of (file_mode img)); done.
Qed.

(** C13: [initialize_image_data] on every branch: no input file name
    raises [ValueError]; a missing file raises [IOError]; otherwise the
    image, mode and size are stored, and for a supported mode the colour
    size and the capacity [width * height * color_size] follow, while an
    unsupported mode raises after the image was stored, leaving the old
    colour size and capacity.  The file system is never changed. *)
Theorem initialize_image_data_spec (st : stego) (fs : files) :
  initialize_image_data (st, fs) =
    if decide (input_file st = "") then (Raised (ValueError NoInputFile), (st, fs)) else
    match fs !! input_file st with
    | None => (Raised IOError, (st, fs))
    | Some img =>
        match color_size_of (file_mode img) with
        | Normal cs =>
            (Normal (), (set_max_bits ((file_size img).1 * (file_size img).2 * cs)
                           (set_color_size cs (load_image img st)), fs))
        | Raised e => (Raised e, (load_image img st, fs))
        end
    end.
Proof.
  case_decide as Hin.
  - unfold initialize_image_data, get_obj. pym_unfold. cbn [fst snd]. by rewrite decide_True.
  - destruct (fs !! input_file st) as [img|] eqn:Himg; [by apply initialize_image_data_eq|].
    unfold initialize_image_data, get_obj, open_image. pym_unfold. cbn [fst snd].
    rewrite decide_False by done. cbn [fst snd]. by rewrite Himg.
Qed.

(** An object whose pixel array is not the [(1, 1, 1)] placeholder. *)
Definition initialized (st : stego) : Prop := shape_is_111 (image_data st) = false.

Lemma ensure_initialized_skip (st : stego) (fs : files) :
  initialized st → ensure_initialized (st, fs) = (Normal (), (st, fs)).
Proof.
  intros H. unfold initialized in H. unfold ensure_initialized, get_obj. pym_unfold.
  simpl. by rewrite H.
Qed.

Lemma ensure_initialized_load (st : stego) (fs : files) :
  shape_is_111 (image_data st) = true →
  ensure_initialized (st, fs) = initialize_image_data (st, fs).
Proof.
  intros H. unfold ensure_initialized, get_obj. pym_unfold. simpl. by rewrite H.
Qed.

End Steganographer.
