(* ===== verification/WriteLoop.v ===== *)
(** * The writing loop of [encode_image]

    The three nested loops of [encode_image] (lines 340-361 of
    [src/steganographer.py]) with their loop variables, and their
    refinement: on an RGB image the loops compute [embed 3] over
    [scan_pixels]; on an image with an alpha channel, or with colour
    size 4, they raise at the first pixel and the exception is
    swallowed, so nothing is written. *)

From S2P Require Import Prelude BitCodec PixelBuffer Engine.
Import BitCodec PixelBuffer Steganographer.

Module WriteLoop.

(** ** [encode_image] *)

(** The local variables of the loops of [encode_image]: the pixel array
    being written, [__bitIndex] and [__bitList]. *)
Record enc_locals := EncL {
  el_data : image;
  bit_index : nat;
  bit_list : list Z
}.

(** The body of the innermost loop: stop when the frame is exhausted,
    otherwise set the least significant bit of channel [colorIndex] into
    [__bitList[colorIndex]]. *)
Definition encode_channel (bit_sequence : list Z) (widthIndex heightIndex colorIndex : nat)
    : PyM enc_locals unit :=
  st ← get;
  if decide (length bit_sequence ≤ bit_index st) then raise Done else
  v ← lift (channel_at (el_data st) widthIndex heightIndex colorIndex);
  b ← lift (py_get bit_sequence (bit_index st));
  bl ← lift (py_set (bit_list st) colorIndex (set_bit v 0 b));
  put (EncL (el_data st) (S (bit_index st)) bl).

(** One pixel: the channel loop, then [data[y][x] = __bitList] and the
    reset of [__bitList] to [[0, 0, 0]]. *)
Definition encode_pixel (bit_sequence : list Z) (color_size heightIndex widthIndex : nat)
    : PyM enc_locals unit :=
  for_range 0 color_size (encode_channel bit_sequence widthIndex heightIndex) ;;
  st ← get;
  d ← lift (store_pixel (el_data st) widthIndex heightIndex (bit_list st));
  put (EncL d (bit_index st) [0; 0; 0]%Z).

Definition encode_scan (size0 size1 color_size : nat) (bit_sequence : list Z)
    : PyM enc_locals unit :=
  for_range 0 size0 (λ heightIndex,
    for_range 0 size1 (λ widthIndex,
      encode_pixel bit_sequence color_size heightIndex widthIndex)).

Arguments encode_scan : simpl never.

(** ** Scan order *)

Lemma elem_of_scan_pixels (size0 size1 h w : nat) :
  (h, w) ∈ scan_pixels size0 size1 ↔ h < size0 ∧ w < size1.
Proof.
  unfold scan_pixels. rewrite list_elem_of_bind.
  setoid_rewrite list_elem_of_fmap. setoid_rewrite elem_of_seq.
  split; [intros (h' & (w' & [= <- <-] & Hw) & Hh); lia|].
  intros [Hh Hw]. exists h. split; [exists w|]; split; try done; lia.
Qed.

Lemma NoDup_scan_pixels (size0 size1 : nat) : NoDup (scan_pixels size0 size1).
Proof.
  unfold scan_pixels. apply NoDup_bind.
  - intros h1 h2 [h w] _ _ (? & [= -> ->] & _)%list_elem_of_fmap
      (? & [= -> ->] & _)%list_elem_of_fmap. done.
  - intros h _. apply NoDup_fmap_2; [intros ???; congruence|]. apply NoDup_seq.
  - apply NoDup_seq.
Qed.

Lemma length_scan_pixels (size0 size1 : nat) :
  length (scan_pixels size0 size1) = size0 * size1.
Proof.
  unfold scan_pixels. induction size0 as [|n IH]; [done|].
  rewrite seq_S, bind_app, length_app, IH. simpl.
  rewrite app_nil_r, length_fmap, length_seq. lia.
Qed.

(** The pixels of the scan of a well-formed image exist with [nch]
    channels. *)
Lemma well_formed_pixels_fit (data : image) (size0 size1 nch : nat) :
  well_formed data size0 size1 nch → pixels_fit data (scan_pixels size0 size1) nch.
Proof.
  intros Hwf x y Hin. apply elem_of_scan_pixels in Hin as [Hx Hy].
  destruct (well_formed_pixel _ _ _ _ y x Hwf) as (px & Hpx & Hlen & _); [lia|lia|].
  eauto.
Qed.

(** ** The writing loop *)

(** The two outer loops are one loop over [scan_pixels]. *)
Lemma encode_scan_flat (size0 size1 cs : nat) (bits : list Z) :
  encode_scan size0 size1 cs bits
  ≡ for_each (scan_pixels size0 size1) (λ p, encode_pixel bits cs p.1 p.2).
Proof. unfold encode_scan, for_range, scan_pixels. apply for_each_nested. Qed.

(** The channel loop never writes the pixel array and keeps the length
    of [__bitList]. *)
Lemma encode_channel_keeps (bits : list Z) (w h c : nat) (st : enc_locals) :
  el_data (encode_channel bits w h c st).2 = el_data st ∧
  length (bit_list (encode_channel bits w h c st).2) = length (bit_list st).
Proof.
  unfold encode_channel. pym_unfold. cbn [fst snd].
  case_decide; [done|].
  destruct (channel_at _ _ _ _) as [v|e]; [|done].
  destruct (py_get _ _) as [b|e]; [|done].
  unfold py_set. case_decide; [|done]. simpl. by rewrite length_insert.
Qed.

(** The channel loop over three channels of a pixel with at least three
    channels, with three frame bits left. *)
Lemma encode_channels_3 (bits : list Z) (data : image) (w h k : nat) (px : pixel) :
  pixel_at data w h = Some px → 3 ≤ length px → k + 3 ≤ length bits →
  for_range 0 3 (encode_channel bits w h) (EncL data k [0; 0; 0]%Z)
  = (Normal (), EncL data (k + 3)
       [set_bit (px !!! 0) 0 (bits !!! k); set_bit (px !!! 1) 0 (bits !!! (k + 1));
        set_bit (px !!! 2) 0 (bits !!! (k + 2))]).
Proof.
  intros Hpx Hlen Hk. unfold pixel_at in Hpx.
  destruct (data !! w) as [row|] eqn:Hrow; [|done]. simpl in Hpx.
  destruct px as [|v0 [|v1 [|v2 rest]]]; simpl in Hlen; [lia..|].
  destruct (lookup_lt_is_Some_2 bits k) as [b0 Hb0]; [lia|].
  destruct (lookup_lt_is_Some_2 bits (S k)) as [b1 Hb1]; [lia|].
  destruct (lookup_lt_is_Some_2 bits (S (S k))) as [b2 Hb2]; [lia|].
  unfold for_range, encode_channel, channel_at, py_get, py_set. simpl. pym_unfold.
  repeat first [rewrite decide_False by (simpl; lia) | rewrite Hrow | rewrite Hpx
               | rewrite Hb0 | rewrite Hb1 | rewrite Hb2 | progress simpl].
  replace (bits !!! k) with b0 by (symmetry; by apply list_lookup_total_correct).
  replace (bits !!! (k + 1)) with b1
    by (symmetry; apply list_lookup_total_correct; by rewrite Nat.add_1_r).
  replace (bits !!! (k + 2)) with b2
    by (symmetry; apply list_lookup_total_correct; by replace (k + 2) with (S (S k)) by lia).
  do 3 f_equal. lia.
Qed.

Lemma take_drop_3 (l : list Z) (k : nat) :
  k + 3 ≤ length l → take 3 (drop k l) = [l !!! k; l !!! (k + 1); l !!! (k + 2)].
Proof.
  intros Hk.
  rewrite (drop_S l (l !!! k) k), (drop_S l (l !!! (k + 1)) (S k)),
    (drop_S l (l !!! (k + 2)) (S (S k)));
    try (apply list_lookup_lookup_total_lt; lia);
    try (replace (S k) with (k + 1) by lia; apply list_lookup_lookup_total_lt; lia);
    try (replace (S (S k)) with (k + 2) by lia; apply list_lookup_lookup_total_lt; lia).
  done.
Qed.

(** One pixel of an RGB image: its three channels take the next three
    frame bits. *)
Lemma encode_pixel_rgb (bits : list Z) (data : image) (h w k : nat) (px : pixel) :
  pixel_at data w h = Some px → length px = 3 → k + 3 ≤ length bits →
  encode_pixel bits 3 h w (EncL data k [0; 0; 0]%Z)
  = (Normal (), EncL (embed_pixel data w h (take 3 (drop k bits))) (k + 3) [0; 0; 0]%Z).
Proof.
  intros Hpx Hlen Hk. unfold encode_pixel.
  erewrite bind_normal by (apply (encode_channels_3 _ _ _ _ _ px); [done|lia|done]).
  unfold embed_pixel. rewrite Hpx, take_drop_3 by done.
  unfold pixel_at in Hpx. destruct (data !! w) as [row|] eqn:Hrow; [|done]. simpl in Hpx.
  rewrite (list_lookup_total_correct _ _ _ Hrow).
  destruct px as [|v0 [|v1 [|v2 [|]]]]; simpl in Hlen; try lia.
  unfold store_pixel, py_get. pym_unfold. simpl. rewrite Hrow. simpl. rewrite Hpx. done.
Qed.

(** One pixel of an image with a fourth (alpha) channel and colour size
    3: the three-element [__bitList] cannot be stored into the pixel;
    nothing is written. *)
Lemma encode_pixel_alpha (bits : list Z) (data : image) (h w k : nat) (px : pixel) :
  pixel_at data w h = Some px → length px = 4 → k + 3 ≤ length bits →
  ∃ e st', encode_pixel bits 3 h w (EncL data k [0; 0; 0]%Z) = (Raised e, st') ∧
           el_data st' = data.
Proof.
  intros Hpx Hlen Hk. unfold encode_pixel.
  erewrite bind_normal by (apply (encode_channels_3 _ _ _ _ _ px); [done|lia|done]).
  unfold pixel_at in Hpx. destruct (data !! w) as [row|] eqn:Hrow; [|done]. simpl in Hpx.
  unfold store_pixel, py_get. pym_unfold. simpl. rewrite Hrow. simpl. rewrite Hpx.
  rewrite !decide_False by (simpl; lia). simpl. eauto.
Qed.

(** With colour size 4, [__bitList[3]] is out of range (or the pixel has
    no fourth channel): the pixel raises before it is stored. *)
Lemma encode_pixel_cs4 (bits : list Z) (data : image) (h w : nat) (st : enc_locals) :
  el_data st = data → length (bit_list st) = 3 →
  ∃ e st', encode_pixel bits 4 h w st = (Raised e, st') ∧ el_data st' = data.
Proof.
  intros Hd Hbl. set (P := λ st : enc_locals, el_data st = data ∧ length (bit_list st) = 3).
  assert (Hkeep : ∀ c st, P st → P (encode_channel bits w h c st).2).
  { intros c st' [Hd' Hbl']. destruct (encode_channel_keeps bits w h c st') as [E1 E2].
    split; congruence. }
  destruct (for_each_snoc_raises P [0; 1; 2] 3 (encode_channel bits w h) st) as [e He];
    [intros; by apply Hkeep| |done|].
  { intros st' [Hd' Hbl']. unfold encode_channel. pym_unfold. cbn [fst snd].
    case_decide; [by eexists|].
    destruct (channel_at _ _ _ _); [|by eexists]. destruct (py_get _ _); [|by eexists].
    unfold py_set. rewrite decide_False by lia. by eexists. }
  pose proof (for_each_invariant P ([0; 1; 2] ++ [3]) (encode_channel bits w h) st)
    as [Hinv _]; [intros; by apply Hkeep|done|].
  unfold encode_pixel, for_range. simpl seq. unfold mbind, pym_bind.
  destruct (for_each _ _ st) as [o st'] eqn:E. simpl in He. subst o.
  exists e, st'. split; [done|]. exact Hinv.
Qed.

(** A pixel reached when the frame is exhausted raises [Done] at once. *)
Lemma encode_pixel_done (bits : list Z) (cs h w k : nat) (data : image) (bl : list Z) :
  0 < cs → length bits ≤ k →
  encode_pixel bits cs h w (EncL data k bl) = (Raised Done, EncL data k bl).
Proof.
  intros Hcs Hk. destruct cs as [|cs]; [lia|].
  unfold encode_pixel, for_range, encode_channel. simpl. pym_unfold. simpl.
  by rewrite decide_True.
Qed.

(** The loop over the pixels [pxs] of an RGB image, from bit [k] of a
    frame whose remaining length is a multiple of 3, leaves the array
    [embed 3] of the remaining bits. *)
Lemma encode_pixels_embed (bits : list Z) (data : image) (pxs : list (nat * nat)) (k : nat) :
  pixels_fit data pxs 3 → k ≤ length bits → (length bits - k) mod 3 = 0 →
  ∃ r k', for_each pxs (λ p, encode_pixel bits 3 p.1 p.2) (EncL data k [0; 0; 0]%Z)
          = (r, EncL (embed 3 data pxs (drop k bits)) k' [0; 0; 0]%Z).
Proof.
  revert data k. induction pxs as [|[x y] pxs IH]; intros data k Hfit Hk Hmod;
    [by exists (Normal ()), k|].
  destruct (decide (length bits ≤ k)).
  - exists (Raised Done), k. simpl.
    erewrite bind_raised by (apply encode_pixel_done; lia).
    by rewrite drop_ge by done.
  - destruct (Hfit x y) as (px & Hpx & Hlen); [set_solver|].
    div_mod_facts (length bits - k) 3.
    cbn [for_each]. erewrite bind_normal by (apply (encode_pixel_rgb _ _ _ _ _ px); [done|done|lia]).
    destruct (IH (embed_pixel data y x (take 3 (drop k bits))) (k + 3)) as (r & k' & E).
    + apply embed_pixel_pixels_fit. intros x' y' Hin. apply Hfit. set_solver.
    + lia.
    + replace (length bits - (k + 3)) with (((length bits - k) / 3 - 1) * 3) by lia.
      apply Nat.Div0.mod_mul.
    + exists r, k'. cbn [fst snd]. rewrite E, embed_cons, drop_drop; [done|].
      intros Hnil. apply (f_equal length) in Hnil. rewrite length_drop in Hnil. simpl in Hnil. lia.
Qed.

(** Refinement of the writing loop: on a well-formed RGB image and a
    frame whose length is a multiple of 3, the nested loops of
    [encode_image], with their [except: pass], leave exactly the array
    [embed 3 data (scan_pixels width height) frame]. *)
Theorem encode_scan_embed (size0 size1 : nat) (data : image) (bits : list Z) :
  well_formed data size0 size1 3 → length bits mod 3 = 0 →
  el_data (try_pass (encode_scan size0 size1 3 bits) (EncL data 0 [0; 0; 0]%Z)).2
  = embed 3 data (scan_pixels size0 size1) bits.
Proof.
  intros Hwf Hmod. rewrite try_pass_state. simpl.
  rewrite (encode_scan_flat size0 size1 3 bits (EncL data 0 [0; 0; 0]%Z)).
  destruct (encode_pixels_embed bits data (scan_pixels size0 size1) 0) as (r & k' & ->).
  - by apply well_formed_pixels_fit.
  - lia.
  - by rewrite Nat.sub_0_r.
  - done.
Qed.

Lemma scan_pixels_first (size0 size1 : nat) :
  0 < size0 → 0 < size1 → ∃ rest, scan_pixels size0 size1 = (0, 0) :: rest.
Proof.
  intros H0 H1. destruct size0 as [|s0]; [lia|]. destruct size1 as [|s1]; [lia|].
  by eexists.
Qed.

(** The first pixel of a non-empty scan raises without writing: the
    whole loop ends with the array unchanged. *)
Lemma encode_scan_first_raises (size0 size1 cs : nat) (bits : list Z) (data : image) :
  0 < size0 → 0 < size1 →
  (∃ e st', encode_pixel bits cs 0 0 (EncL data 0 [0; 0; 0]%Z) = (Raised e, st') ∧
            el_data st' = data) →
  el_data (try_pass (encode_scan size0 size1 cs bits) (EncL data 0 [0; 0; 0]%Z)).2 = data.
Proof.
  intros H0 H1 (e & st' & Hpx & Hd). rewrite try_pass_state. simpl.
  rewrite (encode_scan_flat size0 size1 cs bits (EncL data 0 [0; 0; 0]%Z)).
  destruct (scan_pixels_first size0 size1 H0 H1) as [rest ->]. simpl.
  by erewrite bind_raised.
Qed.

(** On an RGBA image (colour size 3, four channels per pixel) the
    writing loop stores nothing: numpy cannot broadcast the
    three-element [__bitList] into the first pixel, and the [ValueError]
    is swallowed by the loop's [except Exception: pass]. *)
Theorem encode_scan_alpha_writes_nothing (size0 size1 : nat) (data : image) (bits : list Z) :
  well_formed data size0 size1 4 → 0 < size0 → 0 < size1 → 3 ≤ length bits →
  el_data (try_pass (encode_scan size0 size1 3 bits) (EncL data 0 [0; 0; 0]%Z)).2 = data.
Proof.
  intros Hwf H0 H1 Hbits. apply encode_scan_first_raises; [done|done|].
  destruct (well_formed_pixel _ _ _ _ 0 0 Hwf) as (px & Hpx & Hlen & _); [lia|lia|].
  apply (encode_pixel_alpha _ _ _ _ _ px); [done|done|lia].
Qed.

(** With colour size 4 ([CMYK], [YCbCr]) the writing loop stores
    nothing, whatever the pixels: [__bitList[3]] (or the fourth channel)
    is out of range at the first pixel. *)
Theorem encode_scan_cs4_writes_nothing (size0 size1 : nat) (data : image) (bits : list Z) :
  0 < size0 → 0 < size1 →
  el_data (try_pass (encode_scan size0 size1 4 bits) (EncL data 0 [0; 0; 0]%Z)).2 = data.
Proof.
  intros H0 H1. apply encode_scan_first_raises; [done|done|].
  by apply encode_pixel_cs4.
Qed.

End WriteLoop.
