(* ===== verification/Encoder.v ===== *)
(** * [encode_image] and [save_output_image]

    The frame ([build_frame]), [Image.fromarray] and the save, and
    [encode_image] itself (lines 283-365 of [src/steganographer.py]):
    the output-file guard, the lazy initialisation, the empty-message
    guard, the frame and its padding, the capacity check, the writing
    loop of [WriteLoop] and the save.  [encode_spec] is the loop-free
    contract of the handler on a loaded RGB object.  The theorems are the
    handler's error paths, its capacity bound, what it changes in the
    pixel array, and its refinement of [encode_spec]. *)

From S2P Require Import Prelude BitCodec PixelBuffer Engine WriteLoop.
Import BitCodec PixelBuffer Steganographer WriteLoop.

Module Encoder.

(** The frame: the 32-bit length, the message bits, and
    [color_size - len % color_size] zero bits. *)
Definition build_frame (message : pystr) (color_size : nat) : outcome (list Z) :=
  let bit_sequence :=
    int_to_bin_list (Z.of_nat (length message)) ++ message_to_bin_list message in
  r ← py_mod (length bit_sequence) color_size;
  let padSize := color_size - r in
  mret (bit_sequence ++ replicate padSize 0%Z).

(** [Image.fromarray(data)]: the mode follows the number of channels of
    a uint8 array (2: [LA], 3: [RGB], 4: [RGBA]); PIL raises [TypeError]
    for the others.  An array without a pixel has no channel count here
    and raises as well. *)
Definition fromarray (data : image) : outcome image_file :=
  match data with
  | (px :: _) as row :: _ =>
      let size := (length row, length data) in
      if decide (length px = 2) then Normal (ImageFile data "LA" size)
      else if decide (length px = 3) then Normal (ImageFile data "RGB" size)
      else if decide (length px = 4) then Normal (ImageFile data "RGBA" size)
      else Raised TypeError
  | _ => Raised TypeError
  end.

(** [save_output_image]: the array saved as an uncompressed PNG, which
    stores it without loss. *)
Definition save_output_image : PyM world unit :=
  st ← get_obj;
  img ← lift (fromarray (image_data st));
  modify (λ w, (w.1, <[output_file st := img]> w.2)).

(** [encode_image] after its lazy initialisation: the empty-message
    check, the frame, the capacity check, the writing loop (ended by
    [except Exception: pass]) and the save. *)
Definition encode_initialized (message : pystr) : PyM world unit :=
  if decide (message = []) then raise (ValueError MessageNotSet) else
  st ← get_obj;
  bit_sequence ← lift (build_frame message (color_size st));
  if decide (max_bits_storable st ≤ length bit_sequence)
  then raise (ValueError MessageTooLarge) else
  let locals := (try_pass (encode_scan (image_size st).1 (image_size st).2
                             (color_size st) bit_sequence)
                          (EncL (image_data st) 0 [0; 0; 0]%Z)).2 in
  modify_obj (set_image_data (el_data locals)) ;;
  save_output_image.

Definition encode_image (message : pystr) : PyM world unit :=
  st ← get_obj;
  if decide (output_file st = "") then raise (ValueError NoOutputFile) else
  ensure_initialized ;;
  encode_initialized message.

(** ** The contract *)

(** The frame of a message for a colour size: the 32-bit length, the
    bits of the characters, and the zero padding of [encode_image]. *)
Definition frame (m : pystr) (cs : nat) : list Z :=
  int_to_bin_list (Z.of_nat (length m)) ++ message_to_bin_list m
  ++ replicate (cs - (32 + 8 * length m) mod cs) 0%Z.

(** [encode_image] on a loaded RGB object, without its loops. *)
Definition encode_spec (m : pystr) (w : world) : outcome unit * world :=
  let '(st, fs) := w in
  if decide (output_file st = "") then (Raised (ValueError NoOutputFile), w)
  else if decide (m = []) then (Raised (ValueError MessageNotSet), w)
  else if decide (max_bits_storable st ≤ length (frame m 3))
  then (Raised (ValueError MessageTooLarge), w)
  else save_output_image
         (set_image_data (embed 3 (image_data st)
                            (scan_pixels (image_size st).1 (image_size st).2)
                            (frame m 3)) st, fs).

(** ** Properties *)

Arguments build_frame : simpl never.
Arguments save_output_image : simpl never.

Lemma encode_image_output (m : pystr) (st : stego) (fs : files) :
  output_file st ≠ "" →
  encode_image m (st, fs) = (ensure_initialized ;; encode_initialized m) (st, fs).
Proof.
  intros H.
  change (encode_image m (st, fs)) with
    ((if decide (output_file st = "") then raise (ValueError NoOutputFile)
      else (ensure_initialized ;; encode_initialized m)) (st, fs)).
  by rewrite decide_False.
Qed.

(** [encode_image] past its guards: the frame is built (which raises for
    a zero colour size), compared with the capacity, then written and
    saved. *)
Lemma encode_initialized_unfold (m : pystr) (st : stego) (fs : files) :
  m ≠ [] →
  encode_initialized m (st, fs) =
    match build_frame m (color_size st) with
    | Raised e => (Raised e, (st, fs))
    | Normal frame =>
      if decide (max_bits_storable st ≤ length frame)
      then (Raised (ValueError MessageTooLarge), (st, fs))
      else save_output_image
             (set_image_data
                (el_data (try_pass (encode_scan (image_size st).1 (image_size st).2
                                      (color_size st) frame)
                                   (EncL (image_data st) 0 [0; 0; 0]%Z)).2) st, fs)
    end.
Proof.
  intros Hm. unfold encode_initialized. rewrite decide_False by done.
  unfold get_obj, modify_obj. pym_unfold. cbn [fst snd].
  destruct (build_frame m (color_size st)) as [frame|e]; cbn [fst snd]; [|done].
  case_decide; done.
Qed.

Lemma encode_image_unfold (m : pystr) (st : stego) (fs : files) :
  output_file st ≠ "" → initialized st → m ≠ [] →
  encode_image m (st, fs) = encode_initialized m (st, fs).
Proof.
  intros Hout Hinit Hm. rewrite encode_image_output by done.
  by erewrite bind_normal by (by apply ensure_initialized_skip).
Qed.

(** The frame of a message, for a positive colour size. *)
Lemma build_frame_spec (m : pystr) (cs : nat) :
  0 < cs →
  build_frame m cs
  = Normal (int_to_bin_list (Z.of_nat (length m)) ++ message_to_bin_list m
            ++ replicate (cs - (32 + 8 * length m) mod cs) 0%Z).
Proof.
  intros Hcs. unfold build_frame, py_mod.
  rewrite decide_False by lia. unfold mbind, outcome_bind, mret, outcome_ret.
  cbv beta iota. rewrite length_app, int_to_bin_list_length, message_to_bin_list_length.
  by rewrite app_assoc.
Qed.

(** The padding of [encode_image]: [cs - L mod cs] more bits make [L] a
    multiple of [cs], adding between 1 and [cs] bits. *)
Lemma padding_facts (L cs : nat) :
  0 < cs → (L + (cs - L mod cs)) mod cs = 0 ∧ L < L + (cs - L mod cs) ≤ L + cs.
Proof.
  intros Hcs. div_mod_facts L cs.
  replace (L + (cs - L mod cs)) with ((L / cs + 1) * cs) by lia.
  rewrite Nat.Div0.mod_mul. lia.
Qed.

(** What a built frame is. *)
Lemma build_frame_normal (m : pystr) (cs : nat) (F : list Z) :
  0 < cs → build_frame m cs = Normal F →
  F = int_to_bin_list (Z.of_nat (length m)) ++ message_to_bin_list m
      ++ replicate (cs - (32 + 8 * length m) mod cs) 0%Z ∧
  length F = 32 + 8 * length m + (cs - (32 + 8 * length m) mod cs) ∧
  length F mod cs = 0.
Proof.
  intros Hcs HF. rewrite build_frame_spec in HF by done. apply normal_inj in HF as <-.
  rewrite !length_app, int_to_bin_list_length, message_to_bin_list_length,
    length_replicate, Nat.add_assoc.
  split; [done|]. split; [done|]. by apply padding_facts.
Qed.

(** C8: The frame is padded to a multiple of the colour size with
    between 1 and [color_size] zero bits: a frame that is already a
    multiple gets [color_size] more bits. *)
Theorem build_frame_length (m : pystr) (cs : nat) :
  0 < cs →
  ∃ frame, build_frame m cs = Normal frame ∧ length frame mod cs = 0 ∧
    32 + 8 * length m < length frame ≤ 32 + 8 * length m + cs.
Proof.
  intros Hcs. eexists. split; [by apply build_frame_spec|].
  rewrite !length_app, int_to_bin_list_length, message_to_bin_list_length,
    length_replicate, Nat.add_assoc.
  by apply padding_facts.
Qed.

Lemma save_output_image_outcome (w : world) :
  fst (save_output_image w) = Normal () ∨ fst (save_output_image w) = Raised TypeError.
Proof.
  unfold save_output_image, get_obj. pym_unfold. cbn [fst snd].
  destruct (fromarray (image_data w.1)) as [img|e] eqn:E; [by left|].
  right. cbn. unfold fromarray in E. repeat case_match; simplify_eq; done.
Qed.

(** C7: Capacity: on an initialised object with a colour size, a
    non-empty message is rejected as too large exactly when its padded
    frame has at least [max_bits_storable] bits; a frame that fills the
    image exactly is rejected too. *)
Theorem encode_image_capacity (m : pystr) (st : stego) (fs : files) :
  output_file st ≠ "" → initialized st → m ≠ [] → 0 < color_size st →
  fst (encode_image m (st, fs)) = Raised (ValueError MessageTooLarge) ↔
  max_bits_storable st ≤
    32 + 8 * length m + (color_size st - (32 + 8 * length m) mod color_size st).
Proof.
  intros Hout Hinit Hm Hcs.
  rewrite encode_image_unfold, encode_initialized_unfold, build_frame_spec by done.
  rewrite !length_app, int_to_bin_list_length, message_to_bin_list_length,
    length_replicate, Nat.add_assoc.
  case_decide; [done|]. split; [|lia].
  intros Hsave. exfalso.
  destruct (save_output_image_outcome
              (set_image_data (el_data (try_pass (encode_scan (image_size st).1
                 (image_size st).2 (color_size st)
                 (int_to_bin_list (Z.of_nat (length m)) ++ message_to_bin_list m
                  ++ replicate (color_size st - (32 + 8 * length m) mod color_size st) 0%Z))
                 (EncL (image_data st) 0 [0; 0; 0]%Z)).2) st, fs))
    as [E|E]; rewrite E in Hsave; done.
Qed.

(** An object with colour size 0 fails on [len % color_size]. *)
Lemma encode_image_zero_color_size (m : pystr) (st : stego) (fs : files) :
  output_file st ≠ "" → initialized st → m ≠ [] → color_size st = 0 →
  encode_image m (st, fs) = (Raised ZeroDivisionError, (st, fs)).
Proof.
  intros Hout Hinit Hm Hcs. rewrite encode_image_unfold, encode_initialized_unfold by done.
  unfold build_frame, py_mod. rewrite Hcs. done.
Qed.

(** C12: A first [encode_image] on an image of unsupported mode raises
    [ValueError] but keeps the loaded pixels; the object then counts as
    initialised with colour size 0, and the next [encode_image] raises
    [ZeroDivisionError] instead of the unsupported-mode error. *)
Theorem unsupported_mode_then_zero_division (junk : Z) (name out : string)
    (img : image_file) (fs : files) (m : pystr) :
  name ≠ "" → out ≠ "" → fs !! name = Some img →
  color_size_of (file_mode img) = Raised (ValueError UnsupportedColorModel) →
  shape_is_111 (file_data img) = false → m ≠ [] →
  ∃ w1,
    encode_image m (steganographer_init junk [("inputFile", name); ("outputFile", out)], fs)
      = (Raised (ValueError UnsupportedColorModel), w1) ∧
    encode_image m w1 = (Raised ZeroDivisionError, w1).
Proof.
  intros Hname Hout Himg Hmode Hshape Hm.
  set (st0 := steganographer_init junk _).
  assert (Hst0 : st0 = Stego name out [[[junk]]] "" 0 (0, 0) 0) by done.
  exists (load_image img st0, fs). split.
  - rewrite encode_image_output by (rewrite Hst0; done).
    erewrite bind_raised; [done|].
    rewrite ensure_initialized_load by (rewrite Hst0; done).
    rewrite (initialize_image_data_eq _ _ img), Hmode by (rewrite Hst0; done). done.
  - apply encode_image_zero_color_size; rewrite ?Hst0; done.
Qed.

(** C16: An object without an output file name rejects every message
    before it reads anything. *)
Theorem encode_image_no_output (m : pystr) (st : stego) (fs : files) :
  output_file st = "" →
  encode_image m (st, fs) = (Raised (ValueError NoOutputFile), (st, fs)).
Proof.
  intros H. unfold encode_image, ensure_initialized, encode_initialized, get_obj. pym_unfold. simpl.
  by rewrite decide_True.
Qed.

(** C17: An initialised object rejects the empty message. *)
Theorem encode_image_empty (st : stego) (fs : files) :
  output_file st ≠ "" → initialized st →
  encode_image [] (st, fs) = (Raised (ValueError MessageNotSet), (st, fs)).
Proof.
  intros Hout Hinit. rewrite encode_image_output by done.
  by erewrite bind_normal by (by apply ensure_initialized_skip).
Qed.

(** ** What [encode_image] changes in the pixel array *)

Lemma save_output_image_obj (w : world) : (save_output_image w).2.1 = w.1.
Proof.
  destruct w as [st fs]. unfold save_output_image, get_obj. pym_unfold. simpl.
  by destruct (fromarray (image_data st)).
Qed.

Lemma set_image_data_id (st : stego) : set_image_data (image_data st) st = st.
Proof. by destruct st. Qed.

(** [Image.fromarray] on a well-formed array: the mode of its channel
    count, and the size of the array. *)
Lemma fromarray_well_formed (data : image) (size0 size1 nch : nat) :
  well_formed data size0 size1 nch → 0 < size0 → 0 < size1 →
  fromarray data =
    if decide (nch = 2) then Normal (ImageFile data "LA" (size0, size1))
    else if decide (nch = 3) then Normal (ImageFile data "RGB" (size0, size1))
    else if decide (nch = 4) then Normal (ImageFile data "RGBA" (size0, size1))
    else Raised TypeError.
Proof.
  intros [Hlen Hrows] H0 H1.
  destruct data as [|row rows]; [simpl in Hlen; lia|].
  apply Forall_cons in Hrows as [[Hrl Hpxs] _].
  destruct row as [|px pxs]; [simpl in Hrl; lia|].
  apply Forall_cons in Hpxs as [[Hpl _] _].
  unfold fromarray. by rewrite Hpl, <- Hlen, <- Hrl.
Qed.

Lemma fromarray_rgb (data : image) (size0 size1 : nat) :
  well_formed data size0 size1 3 → 0 < size0 → 0 < size1 →
  fromarray data = Normal (ImageFile data "RGB" (size0, size1)).
Proof. intros Hwf H0 H1. by rewrite (fromarray_well_formed _ size0 size1 3). Qed.

Lemma save_output_image_spec (st : stego) (fs : files) (img : image_file) :
  fromarray (image_data st) = Normal img →
  save_output_image (st, fs) = (Normal (), (st, <[output_file st := img]> fs)).
Proof. intros H. unfold save_output_image, get_obj. pym_unfold. simpl. by rewrite H. Qed.

(** The object after [encode_image] on an initialised object with a
    positive colour size: unchanged when the frame does not fit,
    otherwise holding the array the writing loop left. *)
Lemma encode_image_obj (m : pystr) (st : stego) (fs : files) :
  output_file st ≠ "" → initialized st → m ≠ [] → 0 < color_size st →
  ∃ F, build_frame m (color_size st) = Normal F ∧
    (encode_image m (st, fs)).2.1 =
      if decide (max_bits_storable st ≤ length F) then st
      else set_image_data
             (el_data (try_pass (encode_scan (image_size st).1 (image_size st).2
                                   (color_size st) F)
                                (EncL (image_data st) 0 [0; 0; 0]%Z)).2) st.
Proof.
  intros Hout Hinit Hm Hcs.
  eexists. split; [by apply build_frame_spec|].
  rewrite encode_image_unfold, encode_initialized_unfold, build_frame_spec by done.
  case_decide; [done|]. by rewrite save_output_image_obj.
Qed.

Section RGB.
Context (m : pystr) (st : stego) (fs : files) (size0 size1 : nat).
Hypothesis Hout : output_file st ≠ "".
Hypothesis Hinit : initialized st.
Hypothesis Hm : m ≠ [].
Hypothesis Hcs : color_size st = 3.
Hypothesis Hsize : image_size st = (size0, size1).
Hypothesis Hwf : well_formed (image_data st) size0 size1 3.

(** The array after [encode_image] is the original or [embed] of the
    frame into it. *)
Lemma encode_image_data_embed :
  ∃ F, length F = 32 + 8 * length m + (3 - (32 + 8 * length m) mod 3) ∧
    (image_data (encode_image m (st, fs)).2.1 = image_data st ∨
     image_data (encode_image m (st, fs)).2.1
     = embed 3 (image_data st) (scan_pixels size0 size1) F).
Proof.
  destruct (encode_image_obj m st fs) as (F & HF & ->); [done|done|done|lia|].
  destruct (build_frame_normal m (color_size st) F ltac:(lia) HF) as (_ & HFlen & HFmod).
  rewrite Hcs in HFlen, HFmod |- *.
  exists F. split; [done|].
  case_decide; [by left|]. right. rewrite Hsize. simpl.
  by apply encode_scan_embed.
Qed.

(** C4: LSB-only mutation: after [encode_image] on an initialised RGB
    object, whatever the outcome, the array has its shape and every
    channel of every pixel keeps all its bits above bit 0. *)
Theorem encode_image_lsb_only :
  well_formed (image_data (encode_image m (st, fs)).2.1) size0 size1 3 ∧
  ∀ y x c, Z.shiftr (chan (image_data (encode_image m (st, fs)).2.1) y x c) 1
           = Z.shiftr (chan (image_data st) y x c) 1.
Proof.
  destruct encode_image_data_embed as (F & _ & [-> | ->]); [done|].
  split; [by apply embed_well_formed|]. intros y x c. by eapply embed_high_bits.
Qed.

(** C18: The pixels after the first [k] of the scan, when [3 k] bits
    hold the frame, are not touched: the loop stops at the end of the
    frame. *)
Theorem encode_image_untouched_beyond_frame (k y x : nat) :
  32 + 8 * length m + (3 - (32 + 8 * length m) mod 3) ≤ 3 * k →
  (x, y) ∉ take k (scan_pixels size0 size1) →
  pixel_at (image_data (encode_image m (st, fs)).2.1) y x = pixel_at (image_data st) y x.
Proof.
  intros Hk Hnot.
  destruct encode_image_data_embed as (F & HFlen & [-> | ->]); [done|].
  apply (pixel_at_embed_beyond _ _ _ _ k); [lia|done].
Qed.
End RGB.

(** C5: On an initialised object over an RGBA image (colour size 3,
    four channels per pixel), a message whose frame fits is not embedded
    at all, yet [encode_image] returns normally and saves: the store of
    the first pixel raises, the loop's [except Exception: pass] swallows
    it, and the untouched array is written to the output file as an RGBA
    image, the object left as it was. *)
Theorem encode_image_rgba_unchanged (m : pystr) (st : stego) (fs : files) (size0 size1 : nat) :
  output_file st ≠ "" → initialized st → m ≠ [] → color_size st = 3 →
  image_size st = (size0, size1) → well_formed (image_data st) size0 size1 4 →
  0 < size0 → 0 < size1 →
  32 + 8 * length m + (3 - (32 + 8 * length m) mod 3) < max_bits_storable st →
  encode_image m (st, fs)
  = (Normal (), (st, <[output_file st := ImageFile (image_data st) "RGBA" (size0, size1)]> fs)).
Proof.
  intros Hout Hinit Hm Hcs Hsize Hwf H0 H1 Hcap.
  destruct (build_frame_normal m 3 _ ltac:(lia) (build_frame_spec m 3 ltac:(lia)))
    as (_ & HFlen & _).
  rewrite encode_image_unfold, encode_initialized_unfold by done.
  rewrite Hcs, build_frame_spec by lia. rewrite decide_False by lia.
  rewrite Hsize. cbn [fst snd].
  rewrite encode_scan_alpha_writes_nothing by (done || lia).
  rewrite set_image_data_id.
  apply save_output_image_spec. by rewrite (fromarray_well_formed _ size0 size1 4).
Qed.

(** C6: On an initialised object of colour size 4 ([CMYK], [YCbCr])
    [encode_image] leaves the pixel array as it was. *)
Theorem encode_image_cs4_unchanged (m : pystr) (st : stego) (fs : files) (size0 size1 : nat) :
  output_file st ≠ "" → initialized st → m ≠ [] → color_size st = 4 →
  image_size st = (size0, size1) → 0 < size0 → 0 < size1 →
  image_data (encode_image m (st, fs)).2.1 = image_data st.
Proof.
  intros Hout Hinit Hm Hcs Hsize H0 H1.
  destruct (encode_image_obj m st fs) as (F & HF & ->); [done|done|done|lia|].
  case_decide; [done|]. rewrite Hsize, Hcs. simpl.
  by apply encode_scan_cs4_writes_nothing.
Qed.

(** C2: Refinement of the writer: on a loaded object over a well-formed
    RGB image, [encode_image] -- guards, frame, capacity check, the three
    nested loops with their [except: pass], and the save -- is
    [encode_spec]. *)
Theorem encode_image_refines (m : pystr) (st : stego) (fs : files) (size0 size1 : nat) :
  initialized st → color_size st = 3 → image_size st = (size0, size1) →
  well_formed (image_data st) size0 size1 3 →
  encode_image m (st, fs) = encode_spec m (st, fs).
Proof.
  intros Hinit Hcs Hsize Hwf. unfold encode_spec.
  case_decide as Hout.
  { unfold encode_image, get_obj. pym_unfold. simpl. by rewrite decide_True. }
  case_decide as Hm.
  { subst m. rewrite encode_image_output by done.
    by erewrite bind_normal by (by apply ensure_initialized_skip). }
  rewrite encode_image_unfold, encode_initialized_unfold, Hcs, build_frame_spec by first [done | lia].
  fold (frame m 3). case_decide; [done|].
  destruct (build_frame_normal m 3 (frame m 3) ltac:(lia) (build_frame_spec m 3 ltac:(lia)))
    as (_ & _ & Hmod).
  rewrite Hsize. cbn [fst snd]. by rewrite encode_scan_embed.
Qed.

End Encoder.
