(* ===== verification/ReadLoop.v ===== *)
(** * The reading loops of [decode_image]

    The two reading loops of [decode_image] (lines 385-430 of
    [src/steganographer.py]), which differ only in their bound, and
    their refinement: on a well-formed image whose pixels have at least
    [color_size] channels, a loop with bound [limit] returns the first
    [limit] bits of [lsbs_of] over the scan. *)

From S2P Require Import Prelude BitCodec PixelBuffer Engine WriteLoop.
Import BitCodec PixelBuffer Steganographer WriteLoop.

Module ReadLoop.

(** ** [decode_image] *)

(** The local variables of a reading loop: the bits read and their count. *)
Record dec_locals := DecL {
  dl_bits : list Z;
  dl_index : nat
}.

(** The body of the innermost reading loop of [decode_image]: stop at
    [limit] bits, otherwise append [data[y][x][c] & 1]. *)
Definition decode_channel (data : image) (limit : Z) (widthIndex heightIndex colorIndex : nat)
    : PyM dec_locals unit :=
  st ← get;
  if decide (limit ≤ Z.of_nat (dl_index st))%Z then raise Done else
  v ← lift (channel_at data widthIndex heightIndex colorIndex);
  put (DecL (dl_bits st ++ [Z.land v 1]) (S (dl_index st))).

(** The two reading loops of [decode_image] (they differ only in their
    bound). *)
Definition decode_scan (size0 size1 color_size : nat) (data : image) (limit : Z)
    : PyM dec_locals unit :=
  for_range 0 size0 (λ heightIndex,
    for_range 0 size1 (λ widthIndex,
      for_range 0 color_size (decode_channel data limit widthIndex heightIndex))).

(** The bits read by a reading loop, which ends by [except: pass]. *)
Definition read_lsbs (st : stego) (limit : Z) : list Z :=
  dl_bits (try_pass (decode_scan (image_size st).1 (image_size st).2 (color_size st)
                                 (image_data st) limit) (DecL [] 0)).2.

Arguments read_lsbs : simpl never.

(** ** The reading loops *)

(** The three loops are one loop over [scan_slots]. *)
Lemma decode_scan_flat (size0 size1 cs : nat) (data : image) (limit : Z) :
  decode_scan size0 size1 cs data limit
  ≡ for_each (scan_slots size0 size1 cs) (λ q, decode_channel data limit q.1.2 q.1.1 q.2).
Proof.
  unfold decode_scan, for_range, scan_slots.
  etransitivity.
  - apply (for_each_nested (seq 0 size0) (λ _, seq 0 size1)
             (λ h w, for_each (seq 0 cs) (decode_channel data limit w h))).
  - apply (for_each_nested (scan_pixels size0 size1) (λ _, seq 0 cs)
             (λ p c, decode_channel data limit p.2 p.1 c)).
Qed.

(** The bit a reading loop takes from slot [q]. *)
Definition slot_lsb (data : image) (q : (nat * nat) * nat) : Z :=
  Z.land (chan data q.1.2 q.1.1 q.2) 1.

(** A reading loop over slots that all exist, from [k] bits read, appends
    the next [limit - k] bits of the slots. *)
Lemma decode_slots_run (data : image) (limit : Z) (sl : list ((nat * nat) * nat))
    (acc : list Z) (k : nat) :
  (∀ q, q ∈ sl → channel_at data q.1.2 q.1.1 q.2 = Normal (chan data q.1.2 q.1.1 q.2)) →
  ∃ r k', for_each sl (λ q, decode_channel data limit q.1.2 q.1.1 q.2) (DecL acc k)
          = (r, DecL (acc ++ take (Z.to_nat limit - k) (slot_lsb data <$> sl)) k').
Proof.
  revert acc k. induction sl as [|q sl IH]; intros acc k Hsl.
  - exists (Normal ()), k. simpl. by rewrite take_nil, app_nil_r.
  - cbn [for_each]. unfold mbind at 1, pym_bind at 1.
    unfold decode_channel at 1. pym_unfold. cbn [fst snd dl_index dl_bits].
    destruct (decide (limit ≤ Z.of_nat k)%Z).
    + exists (Raised Done), k. replace (Z.to_nat limit - k) with 0 by lia.
      by rewrite app_nil_r.
    + rewrite Hsl by set_solver.
      destruct (IH (acc ++ [Z.land (chan data q.1.2 q.1.1 q.2) 1]) (S k)) as (r & k' & E);
        [intros; apply Hsl; set_solver|].
      exists r, k'. rewrite E. f_equal. f_equal.
      replace (Z.to_nat limit - k) with (S (Z.to_nat limit - S k)) by lia.
      rewrite fmap_cons. simpl. by rewrite <- app_assoc.
Qed.

Lemma lsbs_of_slots (data : image) (pxs : list (nat * nat)) (cs : nat) :
  slot_lsb data <$> (pxs ≫= λ p, pair p <$> seq 0 cs) = lsbs_of data pxs cs.
Proof.
  induction pxs as [|[x y] pxs IH]; [done|].
  rewrite bind_cons, fmap_app, IH, lsbs_of_cons, <- list_fmap_compose. done.
Qed.

(** Refinement of the reading loops: on a well-formed image whose
    pixels have at least [color_size] channels, a reading loop with
    bound [limit] returns the first [limit] bits of [lsbs_of] over the
    scan. *)
Theorem read_lsbs_spec (st : stego) (size0 size1 nch : nat) (limit : Z) :
  image_size st = (size0, size1) → well_formed (image_data st) size0 size1 nch →
  color_size st ≤ nch →
  read_lsbs st limit
  = take (Z.to_nat limit) (lsbs_of (image_data st) (scan_pixels size0 size1) (color_size st)).
Proof.
  intros Hsize Hwf Hcs. unfold read_lsbs. rewrite Hsize. cbn [fst snd].
  rewrite try_pass_state.
  rewrite (decode_scan_flat size0 size1 (color_size st) (image_data st) limit (DecL [] 0)).
  destruct (decode_slots_run (image_data st) limit (scan_slots size0 size1 (color_size st))
              [] 0) as (r & k' & ->).
  - intros q Hq. unfold scan_slots in Hq.
    apply list_elem_of_bind in Hq as ([h w] & Hq & Hp).
    apply list_elem_of_fmap in Hq as (c & -> & Hc). simpl.
    apply elem_of_scan_pixels in Hp as [Hh Hw]. apply elem_of_seq in Hc.
    destruct (well_formed_pixel _ _ _ _ w h Hwf) as (px & Hpx & Hlen & _); [lia|lia|].
    apply (channel_at_chan _ _ _ _ px); [done|lia].
  - simpl. unfold scan_slots. by rewrite lsbs_of_slots, Nat.sub_0_r.
Qed.

(** One reading step keeps the bits read 0 or 1, as many as the
    counter, and never more than the bound. *)
Lemma decode_channel_inv (data : image) (limit : Z) (w h c : nat) (st : dec_locals) :
  let P s := Forall is_bit (dl_bits s) ∧ length (dl_bits s) = dl_index s ∧
             (Z.of_nat (dl_index s) ≤ Z.max 0 limit)%Z in
  P st → P (decode_channel data limit w h c st).2.
Proof.
  intros P (Hbits & Hlen & Hle). destruct st as [bits k]. cbn in *.
  unfold decode_channel. pym_unfold. cbn. case_decide as Hdone; [done|].
  destruct (channel_at data w h c) as [v|e]; cbn; [|done].
  split_and!.
  - apply Forall_app. split; [done|]. constructor; [|done].
    pose proof (Z.land_ones v 1 ltac:(lia)) as Hv. change (Z.ones 1) with 1%Z in Hv.
    rewrite Hv. pose proof (Z.mod_pos_bound v (2 ^ 1) ltac:(lia)).
    change (2 ^ 1)%Z with 2%Z in *. unfold is_bit. lia.
  - cbn. rewrite length_app. cbn. lia.
  - cbn. lia.
Qed.

(** C33: whatever the object's state, a reading loop of [decode_image]
    returns a list of bits (each 0 or 1) of length at most its bound. *)
Theorem read_lsbs_bits (st : stego) (limit : Z) :
  Forall is_bit (read_lsbs st limit) ∧ length (read_lsbs st limit) ≤ Z.to_nat limit.
Proof.
  unfold read_lsbs. rewrite try_pass_state, decode_scan_flat. cbn [snd].
  set (P := λ s, Forall is_bit (dl_bits s) ∧ length (dl_bits s) = dl_index s ∧
                 (Z.of_nat (dl_index s) ≤ Z.max 0 limit)%Z).
  assert (HP : P (for_each (scan_slots (image_size st).1 (image_size st).2 (color_size st))
                   (λ q, decode_channel (image_data st) limit q.1.2 q.1.1 q.2) (DecL [] 0)).2).
  { apply for_each_invariant; [|unfold P; cbn; split_and!; [done|done|lia]].
    intros q s _ Hs. by apply decode_channel_inv. }
  destruct HP as (Hbits & Hlen & Hle). split; [done|]. rewrite Hlen.
  apply Nat2Z.inj_le. destruct (Z.le_ge_cases 0 limit); [rewrite Z2Nat.id|rewrite Z2Nat.nonpos]; lia.
Qed.

End ReadLoop.
