(* ===== verification/Decoder.v ===== *)
(** * [decode_image] and the round trip

    The slice loop, [decode_image] after its lazy initialisation, and
    [decode_image] itself (lines 367-449 of [src/steganographer.py]);
    [decode_spec] is its loop-free contract.  The theorems are the
    decoder's behaviour on an image that holds a frame, its under-run
    error, its refinement of [decode_spec], and the end-to-end round trip:
    a message written by one [Steganographer] object into an RGB image
    and saved is read back by a fresh object from the saved file. *)

From S2P Require Import Prelude BitCodec PixelBuffer Engine WriteLoop Encoder ReadLoop.
Import BitCodec PixelBuffer Steganographer WriteLoop Encoder ReadLoop.

Module Decoder.

(** [for index in range(lo, hi): message_list.append(total_list[index])] *)
Definition slice_bits (total_list : list Z) (lo hi : Z) : outcome (list Z) :=
  eval (for_range (Z.to_nat lo) (Z.to_nat (hi - lo)) (λ index,
          v ← lift (py_get total_list index);
          modify (λ acc, acc ++ [v])) ;; get) [].

(** [decode_image] after its lazy initialisation: read the 32-bit length,
    then the length field and the message, slice the message bits out and
    convert them. *)
Definition decode_initialized : PyM world pystr :=
  st ← get_obj;
  message_length ← lift (bin_list_to_int (read_lsbs st 32));
  let message_bit_length := (message_length * 8)%Z in
  let total_list := read_lsbs st (message_bit_length + 32) in
  message_list ← lift (slice_bits total_list 32 (message_bit_length + 32));
  lift (bin_list_to_message message_list).

Definition decode_image : PyM world pystr :=
  ensure_initialized ;; decode_initialized.

(** ** The contract *)

(** [decode_image] on the scanned least significant bits [L]. *)
Definition decode_spec (L : list Z) : outcome pystr :=
  n ← bin_list_to_int (take 32 L);
  if decide (Z.of_nat (length L) < n * 8 + 32)%Z then Raised IndexError
  else bin_list_to_message (take (Z.to_nat (n * 8)) (drop 32 L)).

(** ** Properties *)

Arguments slice_bits : simpl never.

(** ** The slice loop of [decode_image] *)

Lemma slice_loop (l : list Z) (start n : nat) (acc : list Z) :
  for_each (seq start n) (λ index, v ← lift (py_get l index); modify (λ acc, acc ++ [v])) acc
  = if decide (start + n ≤ length l ∨ n = 0) then (Normal (), acc ++ take n (drop start l))
    else (Raised IndexError, acc ++ drop start l).
Proof.
  revert start acc. induction n as [|n IH]; intros start acc.
  - rewrite decide_True by lia. simpl. by rewrite app_nil_r.
  - cbn [seq for_each]. destruct (l !! start) as [v|] eqn:Hv.
    + erewrite bind_normal by (unfold py_get; pym_unfold; by rewrite Hv).
      rewrite IH, (drop_S l v start Hv).
      apply lookup_lt_Some in Hv.
      destruct (decide (S start + n ≤ length l ∨ n = 0)), (decide (start + S n ≤ length l ∨ S n = 0));
        try lia; simpl; by rewrite <- ?app_assoc.
    + erewrite bind_raised by (unfold py_get; pym_unfold; by rewrite Hv).
      apply lookup_ge_None in Hv. rewrite decide_False by lia.
      by rewrite drop_ge, app_nil_r.
Qed.

(** [total_list[lo:hi]] by the loop of [decode_image]: the slice when the
    list is long enough, [IndexError] otherwise. *)
Lemma slice_bits_spec (l : list Z) (lo hi : Z) :
  slice_bits l lo hi
  = if decide (Z.to_nat lo + Z.to_nat (hi - lo) ≤ length l ∨ Z.to_nat (hi - lo) = 0)
    then Normal (take (Z.to_nat (hi - lo)) (drop (Z.to_nat lo) l))
    else Raised IndexError.
Proof.
  unfold slice_bits, eval, for_range. unfold mbind at 1, pym_bind at 1.
  rewrite slice_loop. case_decide; done.
Qed.

Lemma bin_list_to_int_length (l : list Z) (n : Z) :
  bin_list_to_int l = Normal n → 32 ≤ length l.
Proof.
  intros H. destruct (decide (32 ≤ length l)); [done|].
  unfold bin_list_to_int in H. rewrite assemble_short in H by lia. done.
Qed.

(** ** The decoder *)

(** [decode_image] on a loaded object whose scanned least
    significant bits begin with the length field and the bits of a
    message of bytes returns the message and changes nothing. *)
Theorem decode_initialized_frame (st : stego) (fs : files) (m : pystr)
    (size0 size1 nch : nat) :
  image_size st = (size0, size1) → well_formed (image_data st) size0 size1 nch →
  color_size st ≤ nch →
  take (32 + 8 * length m) (lsbs_of (image_data st) (scan_pixels size0 size1) (color_size st))
  = int_to_bin_list (Z.of_nat (length m)) ++ message_to_bin_list m →
  (Z.of_nat (length m) < 2 ^ 32)%Z → Forall (fits 8) m →
  decode_initialized (st, fs) = (Normal m, (st, fs)).
Proof.
  intros Hsize Hwf Hcs Hframe Hlen Hm.
  set (L := lsbs_of _ _ _) in Hframe.
  assert (Hread : ∀ limit, read_lsbs st limit = take (Z.to_nat limit) L)
    by (intros; by eapply read_lsbs_spec).
  assert (H32 : read_lsbs st 32 = int_to_bin_list (Z.of_nat (length m))).
  { rewrite Hread. replace (Z.to_nat 32) with (min 32 (32 + 8 * length m)) by lia.
    rewrite <- take_take, Hframe, take_app_length'; [done|].
    by rewrite int_to_bin_list_length. }
  unfold decode_initialized, get_obj. pym_unfold. cbn [fst snd].
  unfold bin_list_to_int. rewrite H32, assemble_msb_bits, Z.mod_small by lia. cbn.
  rewrite Hread. replace (Z.to_nat (Z.of_nat (length m) * 8 + 32)) with (32 + 8 * length m) by lia.
  rewrite Hframe, slice_bits_spec.
  rewrite decide_True by (rewrite length_app, int_to_bin_list_length, message_to_bin_list_length; lia).
  replace (Z.to_nat 32) with (length (int_to_bin_list (Z.of_nat (length m))))
    by (rewrite int_to_bin_list_length; lia).
  rewrite drop_app_length, take_ge
    by (rewrite message_to_bin_list_length; lia).
  cbn. by rewrite bin_list_to_message_bytes.
Qed.

(** C9: Under-run: when the length field read from the image announces
    more message bits than the image holds, [decode_image] on a loaded
    object raises [IndexError] (from [total_list[index]]), not a
    [ValueError] about the frame length. *)
Theorem decode_image_underrun (st : stego) (fs : files) (size0 size1 nch : nat) (n : Z) :
  initialized st → image_size st = (size0, size1) →
  well_formed (image_data st) size0 size1 nch → color_size st ≤ nch →
  bin_list_to_int (take 32 (lsbs_of (image_data st) (scan_pixels size0 size1) (color_size st)))
    = Normal n →
  (Z.of_nat (length (lsbs_of (image_data st) (scan_pixels size0 size1) (color_size st)))
     < n * 8 + 32)%Z →
  decode_image (st, fs) = (Raised IndexError, (st, fs)).
Proof.
  intros Hinit Hsize Hwf Hcs Hn Hshort.
  set (L := lsbs_of _ _ _) in Hn, Hshort.
  assert (Hread : ∀ limit, read_lsbs st limit = take (Z.to_nat limit) L)
    by (intros; by eapply read_lsbs_spec).
  pose proof (bin_list_to_int_length _ _ Hn) as H32. rewrite length_take in H32.
  unfold decode_image. erewrite bind_normal by (by apply ensure_initialized_skip).
  unfold decode_initialized, get_obj. pym_unfold. cbn [fst snd].
  rewrite Hread. change (Z.to_nat 32) with 32. rewrite Hn. cbn [fst snd].
  rewrite Hread, (take_ge L) by lia.
  rewrite slice_bits_spec, decide_False by lia. done.
Qed.

(** ** From [encode_image] to the saved file *)

Lemma well_formed_not_placeholder (data : image) (size0 size1 nch : nat) :
  well_formed data size0 size1 nch → nch ≠ 1 → shape_is_111 data = false.
Proof.
  intros [_ Hrows] Hn.
  destruct data as [|row rows]; [done|]. destruct row as [|px pxs]; [done|].
  destruct px as [|v vs]; [done|]. destruct vs; [|done]. destruct pxs; [|done].
  destruct rows; [|done].
  apply Forall_cons in Hrows as [[_ Hpx] _]. apply Forall_cons in Hpx as [[Hl _] _].
  simpl in Hl. lia.
Qed.

Lemma frame_bits (n : Z) (m : pystr) (k : nat) :
  Forall is_bit (int_to_bin_list n ++ message_to_bin_list m ++ replicate k 0%Z).
Proof.
  apply Forall_app. split; [apply msb_bits_are_bits|].
  apply Forall_app. split.
  - rewrite message_to_bin_list_concat. apply Forall_concat, Forall_fmap, Forall_true.
    intros c. apply msb_bits_are_bits.
  - apply Forall_replicate. by left.
Qed.

(** The scanned least significant bits after [embed] begin with the
    frame. *)
Lemma lsbs_embed_prefix (data : image) (size0 size1 : nat) (bits : list Z) :
  well_formed data size0 size1 3 → Forall is_bit bits →
  length bits ≤ 3 * (size0 * size1) →
  take (length bits)
       (lsbs_of (embed 3 data (scan_pixels size0 size1) bits) (scan_pixels size0 size1) 3)
  = bits.
Proof.
  intros Hwf Hbits Hlen. apply list_eq. intros i.
  destruct (decide (i < length bits)).
  - rewrite lookup_take_lt by done. apply lsbs_embed_lookup; try done.
    + apply NoDup_scan_pixels.
    + by apply well_formed_pixels_fit.
    + by rewrite length_scan_pixels.
  - rewrite lookup_take_ge, lookup_ge_None_2 by lia. done.
Qed.

(** [encode_image] after the initialisation, on an RGB object whose
    frame fits: the array becomes [embed] of the frame and is saved under
    the output name. *)
Lemma encode_initialized_rgb (st : stego) (fs : files) (m : pystr) (size0 size1 : nat) :
  color_size st = 3 → image_size st = (size0, size1) →
  well_formed (image_data st) size0 size1 3 → 0 < size0 → 0 < size1 → m ≠ [] →
  length (frame m 3) < max_bits_storable st →
  encode_initialized m (st, fs)
  = (Normal (), (set_image_data (embed 3 (image_data st) (scan_pixels size0 size1) (frame m 3)) st,
                 <[output_file st := ImageFile (embed 3 (image_data st) (scan_pixels size0 size1)
                                                  (frame m 3)) "RGB" (size0, size1)]> fs)).
Proof.
  intros Hcs Hsize Hwf H0 H1 Hm Hcap.
  destruct (build_frame_normal m 3 (frame m 3) ltac:(lia) (build_frame_spec m 3 ltac:(lia)))
    as (_ & _ & HFmod).
  rewrite encode_initialized_unfold by done.
  rewrite Hcs, build_frame_spec by lia. fold (frame m 3).
  rewrite decide_False by lia. rewrite Hsize. cbn [fst snd].
  rewrite encode_scan_embed by done.
  rewrite (save_output_image_spec _ _ (ImageFile (embed 3 (image_data st) (scan_pixels size0 size1)
                                                 (frame m 3)) "RGB" (size0, size1))); [done|].
  apply fromarray_rgb; [by apply embed_well_formed|lia|lia].
Qed.

(** The object a fresh constructor call loads from an RGB file. *)
Definition loaded_rgb (junk : Z) (src out : string) (img : image_file) (size0 size1 : nat) : stego :=
  set_max_bits (size0 * size1 * 3)
    (set_color_size 3 (load_image img (steganographer_init junk [("inputFile", src); ("outputFile", out)]))).

Lemma ensure_fresh_rgb (junk : Z) (src out : string) (img : image_file) (fs : files)
    (size0 size1 : nat) :
  src ≠ "" → fs !! src = Some img → file_mode img = "RGB" → file_size img = (size0, size1) →
  ensure_initialized (steganographer_init junk [("inputFile", src); ("outputFile", out)], fs)
  = (Normal (), (loaded_rgb junk src out img size0 size1, fs)).
Proof.
  intros Hsrc Himg Hmode Hsize. rewrite ensure_initialized_load by done.
  rewrite (initialize_image_data_eq _ _ img) by done. by rewrite Hmode, Hsize.
Qed.

(** The encoding half of the round trip: a fresh object over an RGB
    file writes [embed] of the frame and saves it under [out]. *)
Lemma encode_fresh_rgb (junk : Z) (src out : string) (img : image_file) (fs : files)
    (m : pystr) (size0 size1 : nat) :
  src ≠ "" → out ≠ "" → fs !! src = Some img →
  file_mode img = "RGB" → file_size img = (size0, size1) →
  well_formed (file_data img) size0 size1 3 → 0 < size0 → 0 < size1 → m ≠ [] →
  length (frame m 3) < size0 * size1 * 3 →
  ∃ st1,
    encode_image m (steganographer_init junk [("inputFile", src); ("outputFile", out)], fs)
    = (Normal (), (st1, <[out := ImageFile (embed 3 (file_data img) (scan_pixels size0 size1)
                                              (frame m 3)) "RGB" (size0, size1)]> fs)).
Proof.
  intros Hsrc Hout Himg Hmode Hsize Hwf H0 H1 Hm Hcap.
  rewrite encode_image_output by done.
  erewrite bind_normal by (by apply ensure_fresh_rgb).
  rewrite (encode_initialized_rgb _ _ _ size0 size1) by (cbn; rewrite ?Hsize; done || lia).
  by eexists.
Qed.

(** The decoding half: a fresh object over a saved RGB file whose
    scanned least significant bits begin with the frame of [m]. *)
Lemma decode_fresh_rgb (junk : Z) (out : string) (fs : files) (D : image) (m : pystr)
    (size0 size1 : nat) :
  out ≠ "" → fs !! out = Some (ImageFile D "RGB" (size0, size1)) →
  well_formed D size0 size1 3 →
  take (32 + 8 * length m) (lsbs_of D (scan_pixels size0 size1) 3)
  = int_to_bin_list (Z.of_nat (length m)) ++ message_to_bin_list m →
  (Z.of_nat (length m) < 2 ^ 32)%Z → Forall (fits 8) m →
  eval decode_image (steganographer_init junk [("inputFile", out)], fs) = Normal m.
Proof.
  intros Hout Hfile Hwf Hframe Hlen Hm.
  unfold eval, decode_image.
  erewrite bind_normal.
  2:{ rewrite ensure_initialized_load by done.
      by rewrite (initialize_image_data_eq _ _ (ImageFile D "RGB" (size0, size1))). }
  by erewrite (decode_initialized_frame _ _ m size0 size1 3).
Qed.

(** The least significant bits of an image after [embed] of the frame of
    [m] begin with the length field and the bits of [m]. *)
Lemma saved_frame_prefix (data : image) (m : pystr) (size0 size1 : nat) :
  well_formed data size0 size1 3 → length (frame m 3) ≤ size0 * size1 * 3 →
  take (32 + 8 * length m)
       (lsbs_of (embed 3 data (scan_pixels size0 size1) (frame m 3)) (scan_pixels size0 size1) 3)
  = int_to_bin_list (Z.of_nat (length m)) ++ message_to_bin_list m.
Proof.
  intros Hwf Hcap. set (P := lsbs_of _ _ 3).
  assert (HP : take (length (frame m 3)) P = frame m 3).
  { apply lsbs_embed_prefix; [done|apply frame_bits|lia]. }
  assert (Hlen : 32 + 8 * length m ≤ length (frame m 3)).
  { unfold frame. rewrite !length_app, int_to_bin_list_length, message_to_bin_list_length. lia. }
  replace (take (32 + 8 * length m) P) with (take (32 + 8 * length m) (take (length (frame m 3)) P))
    by (rewrite take_take; f_equal; lia).
  rewrite HP. unfold frame. rewrite app_assoc, take_app_length'; [done|].
  by rewrite length_app, int_to_bin_list_length, message_to_bin_list_length.
Qed.

(** C1: End-to-end round trip.  One object, built with an input and an
    output file name, loads an RGB image of [width x height] bytes from
    the input file and encodes a non-empty message of bytes whose padded
    frame is shorter than the capacity; a fresh object built with the
    saved file as input decodes that message. *)
Theorem encode_decode_roundtrip (junk junk' : Z) (src out : string) (img : image_file)
    (fs : files) (m : pystr) (size0 size1 : nat) :
  src ≠ "" → out ≠ "" → fs !! src = Some img →
  file_mode img = "RGB" → file_size img = (size0, size1) →
  well_formed (file_data img) size0 size1 3 → 0 < size0 → 0 < size1 →
  m ≠ [] → Forall (fits 8) m → (Z.of_nat (length m) < 2 ^ 32)%Z →
  32 + 8 * length m + (3 - (32 + 8 * length m) mod 3) < size0 * size1 * 3 →
  ∃ w1,
    encode_image m (steganographer_init junk [("inputFile", src); ("outputFile", out)], fs)
      = (Normal (), w1) ∧
    eval decode_image (steganographer_init junk' [("inputFile", out)], w1.2) = Normal m.
Proof.
  intros Hsrc Hout Himg Hmode Hsize Hwf H0 H1 Hm Hfits Hlen Hcap.
  destruct (build_frame_normal m 3 (frame m 3) ltac:(lia) (build_frame_spec m 3 ltac:(lia)))
    as (_ & HFlen & _).
  destruct (encode_fresh_rgb junk src out img fs m size0 size1) as [st1 ->]; try done; [lia|].
  eexists. split; [done|]. cbn [snd].
  apply (decode_fresh_rgb _ _ _ (embed 3 (file_data img) (scan_pixels size0 size1) (frame m 3)) _ size0 size1);
    [done | by rewrite lookup_insert_eq | by apply embed_well_formed | | done | done].
  apply saved_frame_prefix; [done|lia].
Qed.

(** C23: two messages in sequence.  An object built with an RGB input
    image and an output name encodes a first message and saves it, then
    -- without reloading the input file -- encodes a second message into
    the array that already holds the first, and saves again; a fresh
    object built on the saved file decodes the second message: the new
    frame overwrites the old one where they overlap, and the length field
    makes the decoder ignore what is left of the old one. *)
Theorem reencode_last_message (junk junk' : Z) (src out : string) (img : image_file)
    (fs : files) (m1 m2 : pystr) (size0 size1 : nat) :
  src ≠ "" → out ≠ "" → fs !! src = Some img →
  file_mode img = "RGB" → file_size img = (size0, size1) →
  well_formed (file_data img) size0 size1 3 → 0 < size0 → 0 < size1 →
  m1 ≠ [] → m2 ≠ [] → Forall (fits 8) m2 → (Z.of_nat (length m2) < 2 ^ 32)%Z →
  32 + 8 * length m1 + (3 - (32 + 8 * length m1) mod 3) < size0 * size1 * 3 →
  32 + 8 * length m2 + (3 - (32 + 8 * length m2) mod 3) < size0 * size1 * 3 →
  ∃ w1 w2,
    encode_image m1 (steganographer_init junk [("inputFile", src); ("outputFile", out)], fs)
      = (Normal (), w1) ∧
    encode_image m2 w1 = (Normal (), w2) ∧
    eval decode_image (steganographer_init junk' [("inputFile", out)], w2.2) = Normal m2.
Proof.
  intros Hsrc Hout Himg Hmode Hsize Hwf H0 H1 Hm1 Hm2 Hfits Hlen Hcap1 Hcap2.
  destruct (build_frame_normal m1 3 (frame m1 3) ltac:(lia) (build_frame_spec m1 3 ltac:(lia)))
    as (_ & HF1 & _).
  destruct (build_frame_normal m2 3 (frame m2 3) ltac:(lia) (build_frame_spec m2 3 ltac:(lia)))
    as (_ & HF2 & _).
  pose proof (embed_well_formed 3 _ (scan_pixels size0 size1) (frame m1 3) _ _ _ Hwf) as HD1.
  set (D1 := embed 3 (file_data img) (scan_pixels size0 size1) (frame m1 3)) in *.
  set (st1 := set_image_data D1 (loaded_rgb junk src out img size0 size1)).
  assert (Henc1 : encode_image m1 (steganographer_init junk [("inputFile", src); ("outputFile", out)], fs)
                  = (Normal (), (st1, <[out := ImageFile D1 "RGB" (size0, size1)]> fs))).
  { rewrite encode_image_output by done.
    erewrite bind_normal by (by apply ensure_fresh_rgb).
    by rewrite (encode_initialized_rgb _ _ _ size0 size1) by (cbn; rewrite ?Hsize; done || lia). }
  rewrite Henc1. do 2 eexists. split; [done|]. split.
  { rewrite encode_image_unfold by (try done; apply (well_formed_not_placeholder _ size0 size1 3); done).
    rewrite (encode_initialized_rgb _ _ _ size0 size1) by (cbn; rewrite ?Hsize; done || lia).
    reflexivity. }
  cbn [snd]. rewrite insert_insert_eq.
  apply (decode_fresh_rgb _ _ _ (embed 3 D1 (scan_pixels size0 size1) (frame m2 3)) _ size0 size1);
    [done | by rewrite lookup_insert_eq | by apply embed_well_formed | | done | done].
  apply saved_frame_prefix; [done|lia].
Qed.

(** The slice [total_list[32 : 32 + k]] of the first [32 + k] bits read
    is the [k] bits after the length field. *)
Lemma slice_after_length (L : list Z) (n : Z) :
  (n * 8 + 32 ≤ Z.of_nat (length L))%Z →
  slice_bits (take (Z.to_nat (n * 8 + 32)) L) 32 (n * 8 + 32)
  = Normal (take (Z.to_nat (n * 8)) (drop 32 L)).
Proof.
  intros Hlen. rewrite slice_bits_spec, Z.add_simpl_r. change (Z.to_nat 32) with 32.
  destruct (decide (0 ≤ n)%Z) as [Hn|Hn].
  - rewrite decide_True by (rewrite length_take; lia).
    replace (Z.to_nat (n * 8 + 32)) with (32 + Z.to_nat (n * 8)) by lia.
    by rewrite <- take_drop_commute, take_take, Nat.min_id.
  - rewrite decide_True by lia. by replace (Z.to_nat (n * 8)) with 0 by lia.
Qed.

(** C3: Refinement of the reader: on a loaded object over a well-formed
    image whose pixels have at least [color_size] channels,
    [decode_image] -- both reading loops with their [except: pass], the
    slice and the conversion -- is [decode_spec] of the least significant
    bits in scan order, and it changes nothing. *)
Theorem decode_image_refines (st : stego) (fs : files) (size0 size1 nch : nat) :
  initialized st → image_size st = (size0, size1) →
  well_formed (image_data st) size0 size1 nch → color_size st ≤ nch →
  decode_image (st, fs)
  = (decode_spec (lsbs_of (image_data st) (scan_pixels size0 size1) (color_size st)), (st, fs)).
Proof.
  intros Hinit Hsize Hwf Hcs.
  set (L := lsbs_of _ _ _).
  assert (Hread : ∀ limit, read_lsbs st limit = take (Z.to_nat limit) L)
    by (intros; by eapply read_lsbs_spec).
  unfold decode_image. erewrite bind_normal by (by apply ensure_initialized_skip).
  unfold decode_initialized, get_obj, decode_spec. pym_unfold. cbn [fst snd].
  rewrite Hread. change (Z.to_nat 32) with 32.
  destruct (bin_list_to_int (take 32 L)) as [n|e] eqn:Hn; cbn [fst snd]; [|done].
  pose proof (bin_list_to_int_length _ _ Hn) as H32. rewrite length_take in H32.
  rewrite Hread. unfold mbind, outcome_bind. case_decide as Hshort.
  - rewrite (take_ge L), slice_bits_spec, decide_False by lia. done.
  - rewrite slice_after_length by lia. cbn [fst snd]. by destruct (bin_list_to_message _).
Qed.

End Decoder.
