(* ===== verification/Lifecycle.v ===== *)
(** * The life of a [Steganographer] object

    A program holds one object and the image files; it may call the
    public methods [initialize_image_data], [encode_image] and
    [decode_image] in any order, any number of times, and keeps the
    object after a call that raised (Python keeps the attributes the call
    set before the exception).  [step] is one such call; the states
    reachable from a freshly built object are those of [rtc step].

    The invariant [world_ok]: every image file is a well-formed byte
    array of its recorded size, and the object holds either the
    placeholder of the constructor with size [(0, 0)], or a well-formed
    byte array of its recorded size whose capacity is
    [width * height * color_size] for the colour size of its mode when
    the mode is supported.  Every call keeps it, so it holds in every
    reachable state; in particular every image [encode_image] ever saves
    is a well-formed byte array. *)

From S2P Require Import Prelude BitCodec PixelBuffer Engine WriteLoop Encoder ReadLoop Decoder.
Import BitCodec PixelBuffer Steganographer WriteLoop Encoder ReadLoop Decoder.

Module Lifecycle.

(** ** The invariant *)

Definition file_ok (img : image_file) : Prop :=
  ∃ nch, well_formed (file_data img) (file_size img).1 (file_size img).2 nch.

Definition files_ok (fs : files) : Prop := map_Forall (λ _ img, file_ok img) fs.

Definition obj_ok (st : stego) : Prop :=
  (shape_is_111 (image_data st) = true ∧ image_size st = (0, 0)) ∨
  ((∃ nch, well_formed (image_data st) (image_size st).1 (image_size st).2 nch) ∧
   ∀ cs, color_size_of (color_mode st) = Normal cs →
     color_size st = cs ∧ max_bits_storable st = (image_size st).1 * (image_size st).2 * cs).

Definition world_ok (w : world) : Prop := obj_ok w.1 ∧ files_ok w.2.

(** ** The calls *)

Inductive call :=
  | CallInit
  | CallEncode (message : pystr)
  | CallDecode.

Definition run_call (c : call) (w : world) : world :=
  match c with
  | CallInit => (initialize_image_data w).2
  | CallEncode message => (encode_image message w).2
  | CallDecode => (decode_image w).2
  end.

Inductive step : world → world → Prop :=
  | step_call (c : call) (w : world) : step w (run_call c w).

(** ** The writing loop keeps the shape of the array *)

Lemma store_pixel_wf (data d : image) (size0 size1 nch y x : nat) (v : list Z) :
  well_formed data size0 size1 nch → store_pixel data y x v = Normal d →
  well_formed d size0 size1 nch.
Proof.
  intros [Hlen Hrows] Hst. unfold store_pixel, py_get in Hst.
  destruct (data !! y) as [row|] eqn:Hrow; [|done]. cbn in Hst.
  destruct (row !! x) as [px|] eqn:Hpx; [|done]. cbn in Hst.
  destruct (Forall_lookup_1 _ _ _ _ Hrows Hrow) as [Hrl Hpxs].
  destruct (Forall_lookup_1 _ _ _ _ Hpxs Hpx) as [Hpl _].
  assert (Hp : ∀ p, (length p = length px ∧ Forall (fits 8) p) →
                    well_formed (<[y := <[x := p]> row]> data) size0 size1 nch).
  { intros p [Hl Hf]. split; [by rewrite length_insert|].
    apply Forall_insert; [done|]. split; [by rewrite length_insert|].
    apply Forall_insert; [done|]. split; [lia|done]. }
  repeat case_decide; cbn in Hst; simplify_eq; apply Hp; split.
  - by rewrite length_fmap.
  - apply Forall_fmap, Forall_true. intros. apply to_uint8_fits.
  - by rewrite length_replicate.
  - apply Forall_replicate, to_uint8_fits.
Qed.

Lemma encode_pixel_wf (bits : list Z) (cs h w size0 size1 nch : nat) (st : enc_locals) :
  well_formed (el_data st) size0 size1 nch →
  well_formed (el_data (encode_pixel bits cs h w st).2) size0 size1 nch.
Proof.
  intros Hwf. unfold encode_pixel.
  apply (bind_preserves (λ s, well_formed (el_data s) size0 size1 nch)); [| |done].
  - intros s Hs. unfold for_range. apply for_each_invariant; [|done].
    intros c s' _ Hs'. by rewrite (proj1 (encode_channel_keeps _ _ _ _ _)).
  - intros [] s Hs. pym_unfold. cbn.
    destruct (store_pixel _ _ _ _) as [d|e] eqn:Hd; cbn; [|done].
    by eapply store_pixel_wf.
Qed.

(** Whatever the colour size and the number of channels, the writing
    loop leaves a well-formed array well-formed. *)
Lemma encode_scan_wf (size0 size1 cs : nat) (bits : list Z) (st : enc_locals) (nch : nat) :
  well_formed (el_data st) size0 size1 nch →
  well_formed (el_data (try_pass (encode_scan size0 size1 cs bits) st).2) size0 size1 nch.
Proof.
  intros Hwf. rewrite try_pass_state, encode_scan_flat. cbn [snd].
  apply (for_each_invariant (λ s, well_formed (el_data s) size0 size1 nch)); [|done].
  intros p s _ Hs. by apply encode_pixel_wf.
Qed.

(** ** Every call keeps the invariant *)

Lemma init_world_ok (w : world) : world_ok w → world_ok (initialize_image_data w).2.
Proof.
  destruct w as [st fs]. intros [Hobj Hfs].
  destruct (decide (input_file st = "")) as [Hin|Hin].
  { unfold initialize_image_data, get_obj. pym_unfold. cbn. by rewrite decide_True. }
  destruct (fs !! input_file st) as [img|] eqn:Himg.
  - rewrite (initialize_image_data_eq st fs img) by done.
    destruct (map_Forall_lookup_1 _ _ _ _ Hfs Himg) as [nch Hwf].
    destruct (color_size_of (file_mode img)) as [cs|e] eqn:Hmode; cbn; split; try done;
      right; cbn; (split; [by exists nch|]); intros cs' Hcs'; rewrite Hmode in Hcs'; [|done].
    by apply normal_inj in Hcs' as <-.
  - unfold initialize_image_data, get_obj, open_image. pym_unfold. cbn [fst snd].
    rewrite decide_False by done. cbn [fst snd]. by rewrite Himg.
Qed.

Lemma fromarray_file_ok (st : stego) (img : image_file) :
  obj_ok st → fromarray (image_data st) = Normal img → file_ok img.
Proof.
  unfold fromarray. intros [[H111 _] | [[nch Hwf] _]] Hf.
  - destruct (image_data st) as [|[|[|v [|? ?]] [|? ?]] [|? ?]];
      cbn in H111; try done; cbn in Hf; simplify_eq.
  - destruct (image_data st) as [|row rows] eqn:Hd; [done|].
    destruct row as [|px pxs]; [done|].
    assert (Hsz : length (px :: pxs) = (image_size st).1 ∧
                  length ((px :: pxs) :: rows) = (image_size st).2).
    { destruct Hwf as [Hlen Hrows]. apply Forall_cons in Hrows as [[Hrl _] _]. done. }
    destruct Hsz as [H1 H2].
    revert Hf. repeat case_decide; intros Hf; simplify_eq; exists nch;
      cbn in H1, H2 |- *; by rewrite H1, H2.
Qed.

Lemma save_world_ok (w : world) : world_ok w → world_ok (save_output_image w).2.
Proof.
  destruct w as [st fs]. intros [Hobj Hfs].
  unfold save_output_image, get_obj. pym_unfold. cbn.
  destruct (fromarray (image_data st)) as [img|e] eqn:Hf; cbn; [|done].
  split; [done|]. apply map_Forall_insert_2; [|done]. by eapply fromarray_file_ok.
Qed.

Lemma encode_initialized_world_ok (message : pystr) (w : world) :
  world_ok w → world_ok (encode_initialized message w).2.
Proof.
  destruct w as [st fs]. intros [Hobj Hfs].
  destruct (decide (message = [])) as [->|Hm].
  { unfold encode_initialized. by rewrite decide_True. }
  rewrite encode_initialized_unfold by done.
  destruct (build_frame message (color_size st)) as [F|e]; [|done].
  case_decide; [done|]. apply save_world_ok. split; [|done].
  cbn [fst]. unfold obj_ok. cbn [image_data image_size color_mode color_size max_bits_storable
    set_image_data].
  cbn [fst] in Hobj. destruct Hobj as [[H111 Hsize] | [[nch Hwf] Hcap]].
  - left. rewrite Hsize. split; [|done]. unfold encode_scan, for_range. by cbn.
  - right. split; [|done]. exists nch. by apply (encode_scan_wf _ _ _ _ (EncL (image_data st) 0 _)).
Qed.

Lemma ensure_world_ok (w : world) : world_ok w → world_ok (ensure_initialized w).2.
Proof.
  destruct w as [st fs]. intros Hw. unfold ensure_initialized, get_obj. pym_unfold. cbn.
  destruct (shape_is_111 (image_data st)); [by apply init_world_ok|done].
Qed.

Lemma encode_world_ok (message : pystr) (w : world) :
  world_ok w → world_ok (encode_image message w).2.
Proof.
  destruct w as [st fs]. intros Hw.
  destruct (decide (output_file st = "")).
  { unfold encode_image, get_obj. pym_unfold. cbn. by rewrite decide_True. }
  rewrite encode_image_output by done.
  apply (bind_preserves world_ok); [intros; by apply ensure_world_ok| |done].
  intros [] w' Hw'. by apply encode_initialized_world_ok.
Qed.

Lemma decode_initialized_state (w : world) : (decode_initialized w).2 = w.
Proof.
  destruct w as [st fs]. unfold decode_initialized, get_obj. pym_unfold. cbn.
  by repeat case_match.
Qed.

Lemma decode_world_ok (w : world) : world_ok w → world_ok (decode_image w).2.
Proof.
  intros Hw. unfold decode_image.
  apply (bind_preserves world_ok); [intros; by apply ensure_world_ok| |done].
  intros [] w' Hw'. by rewrite decode_initialized_state.
Qed.

Lemma step_world_ok (w w' : world) : step w w' → world_ok w → world_ok w'.
Proof.
  intros [[|message|] w0] Hw; cbn;
    [by apply init_world_ok | by apply encode_world_ok | by apply decode_world_ok].
Qed.

Lemma init_kwargs_keep (st : stego) (kwargs : list (string * string)) :
  image_data (foldl init_kwarg st kwargs) = image_data st ∧
  image_size (foldl init_kwarg st kwargs) = image_size st.
Proof.
  revert st. induction kwargs as [|[k v] kw IH]; intros st; [done|]. cbn [foldl].
  destruct (IH (init_kwarg st (k, v))) as [-> ->].
  unfold init_kwarg. by repeat case_decide.
Qed.

(** C34: in every state a program reaches from a freshly built object
    over well-formed image files, by any sequence of calls to
    [initialize_image_data], [encode_image] and [decode_image] (each of
    which may raise), every image file is a well-formed byte array of its
    recorded size, and the object holds either the constructor's
    placeholder or a well-formed byte array of its recorded size whose
    capacity is [width * height * color_size] when its mode is
    supported. *)
Theorem reachable_world_ok (junk : Z) (kwargs : list (string * string)) (fs : files) (w : world) :
  files_ok fs → rtc step (steganographer_init junk kwargs, fs) w → world_ok w.
Proof.
  intros Hfs Hr.
  assert (H0 : world_ok (steganographer_init junk kwargs, fs)).
  { split; [|done]. left. cbn [fst]. unfold steganographer_init.
    destruct (init_kwargs_keep (Stego "" "" [[[junk]]] "" 0 (0, 0) 0) kwargs) as [-> ->].
    done. }
  clear Hfs. induction Hr as [w|w1 w2 w3 H12 H23 IH]; [done|].
  apply IH. by eapply step_world_ok.
Qed.

End Lifecycle.
