(* ===== verification/FileHelpers.v ===== *)
(** * The text-file helpers of [Steganographer]

    [read_message_from_file] and [write_message_to_file] (lines 211-244
    of [src/steganographer.py]) and the two methods built on them,
    [encode_image_from_file] and [decode_image_to_file] (lines 451-484).
    The text files are a second map from names to strings beside the
    images of [Engine]; a method of the object runs on the [world] part of
    the larger state through [zoom].  Opening the empty name raises
    [IOError], as [open("")] does; other failures of the operating system
    are not modelled.  The map holds the text a read of the file returns:
    Python 3's text mode turns ["\r\n"] and ["\r"] into ["\n"] on
    reading, which the model does not represent, so a message written by
    [write_message_to_file] reads back as stored only when it contains no
    ["\r"].

    The theorems: [encode_image_from_file]
    is [encode_image] of the file's contents, and returns normally
    without encoding anything when the file is missing;
    [decode_image_to_file] stores the decoded message, and returns
    normally, dropping the message, when the file cannot be written; and
    the file-to-file round trip: a text file encoded into an RGB image by
    one object is decoded into another text file by a fresh object. *)

From S2P Require Import Prelude BitCodec PixelBuffer Engine WriteLoop Encoder ReadLoop Decoder.
Import BitCodec PixelBuffer Steganographer WriteLoop Encoder ReadLoop Decoder.

Module FileHelpers.

(** The text files, by name, and the state of a program that uses them
    beside one [Steganographer] object and the image files. *)
Abbreviation texts := (gmap string pystr).
Abbreviation fworld := (world * texts)%type.

(** A method of the object, run in the larger state. *)
Definition on_world {A} (m : PyM world A) : PyM fworld A :=
  zoom fst (λ w fw, (w, fw.2)) m.

(** [open(filename, 'r').read()]: the text stored under the name (see
    the header for newline translation). *)
Definition open_text (tx : texts) (filename : string) : outcome pystr :=
  if decide (filename = "") then Raised IOError else
  match tx !! filename with Some s => Normal s | None => Raised IOError end.

(** [read_message_from_file]: its [except IOError as e: raise e]
    re-raises the same exception. *)
Definition read_message_from_file (filename : string) : PyM fworld pystr :=
  fw ← get; lift (open_text fw.2 filename).

(** [write_message_to_file]: [open(filename, "w")] creates or truncates
    the file. *)
Definition write_message_to_file (message : pystr) (filename : string) : PyM fworld unit :=
  if decide (filename = "") then raise IOError else
  modify (λ fw, (fw.1, <[filename := message]> fw.2)).

(** [encode_image_from_file]: an [IOError] while reading is printed and
    the method returns; errors of [encode_image] propagate. *)
Definition encode_image_from_file (filename : string) : PyM fworld unit :=
  r ← try_except (message ← read_message_from_file filename; mret (Some message))
                 is_io_error (λ _, mret None);
  match r with
  | None => mret ()
  | Some message => on_world (encode_image message)
  end.

(** [decode_image_to_file]: errors of [decode_image] propagate; an
    [IOError] while writing is printed and the method returns. *)
Definition decode_image_to_file (filename : string) : PyM fworld unit :=
  message ← on_world (decode_image);
  try_except (write_message_to_file message filename) is_io_error (λ _, mret ()).

(** ** Properties *)

Lemma on_world_run {A} (m : PyM world A) (w : world) (tx : texts) r w' :
  m w = (r, w') → on_world m (w, tx) = (r, (w', tx)).
Proof. intros H. unfold on_world, zoom. cbn. by rewrite H. Qed.

Lemma open_text_io (tx : texts) (filename : string) (e : exn) :
  open_text tx filename = Raised e → e = IOError.
Proof. unfold open_text. case_decide; [congruence|]. case_match; congruence. Qed.

(** [encode_image_from_file] on every branch. *)
Lemma encode_image_from_file_eq (filename : string) (w : world) (tx : texts) :
  encode_image_from_file filename (w, tx) =
    match open_text tx filename with
    | Normal message => ((encode_image message w).1, ((encode_image message w).2, tx))
    | Raised _ => (Normal (), (w, tx))
    end.
Proof.
  unfold encode_image_from_file, read_message_from_file.
  destruct (open_text tx filename) as [message|e] eqn:Ho.
  - erewrite bind_normal by (apply try_except_normal; pym_unfold; cbn; by rewrite Ho).
    by unfold on_world, zoom.
  - pose proof (open_text_io _ _ _ Ho) as ->.
    rewrite (bind_normal _ _ (w, tx) None (w, tx)); [done|].
    rewrite (try_except_caught _ _ _ _ IOError (w, tx)); [done| |done].
    pym_unfold. cbn. by rewrite Ho.
Qed.

(** [decode_image_to_file] on every branch. *)
Lemma decode_image_to_file_eq (filename : string) (w : world) (tx : texts) :
  decode_image_to_file filename (w, tx) =
    match decode_image w with
    | (Normal message, w') =>
        (Normal (), (w', if decide (filename = "") then tx else <[filename := message]> tx))
    | (Raised e, w') => (Raised e, (w', tx))
    end.
Proof.
  unfold decode_image_to_file.
  destruct (decode_image w) as [[message|e] w'] eqn:Hd.
  - erewrite bind_normal by (by apply on_world_run).
    unfold write_message_to_file. case_decide.
    + by rewrite (try_except_caught _ _ _ _ IOError (w', tx)).
    + by apply try_except_normal.
  - apply bind_raised. by apply on_world_run.
Qed.

(** C24: [encode_image_from_file] on a message file that cannot be read
    returns normally and changes nothing: the [IOError] is printed and
    swallowed, and the caller cannot tell that no message was encoded. *)
Theorem encode_image_from_file_missing (filename : string) (w : world) (tx : texts) :
  tx !! filename = None →
  encode_image_from_file filename (w, tx) = (Normal (), (w, tx)).
Proof.
  intros Hnone. rewrite encode_image_from_file_eq. unfold open_text.
  case_decide; [done|]. by rewrite Hnone.
Qed.

(** C25: [decode_image_to_file] to a file that cannot be opened returns
    normally with the decoded message dropped: the text files are left
    as they were. *)
Theorem decode_image_to_file_write_error (w : world) (tx : texts) (message : pystr) (w' : world) :
  decode_image w = (Normal message, w') →
  decode_image_to_file "" (w, tx) = (Normal (), (w', tx)).
Proof. intros Hd. by rewrite decode_image_to_file_eq, Hd. Qed.

(** C26: file-to-file round trip.  An object built with an RGB input
    image and an output name encodes the contents of a text file of
    bytes; a fresh object built on the saved image decodes it into
    another text file, which then holds the original message. *)
Theorem file_roundtrip (junk junk' : Z) (src out msgfile dst : string) (img : image_file)
    (fs : files) (tx : texts) (m : pystr) (size0 size1 : nat) :
  src ≠ "" → out ≠ "" → msgfile ≠ "" → dst ≠ "" →
  fs !! src = Some img → tx !! msgfile = Some m →
  file_mode img = "RGB" → file_size img = (size0, size1) →
  well_formed (file_data img) size0 size1 3 → 0 < size0 → 0 < size1 →
  m ≠ [] → Forall (fits 8) m → (Z.of_nat (length m) < 2 ^ 32)%Z →
  32 + 8 * length m + (3 - (32 + 8 * length m) mod 3) < size0 * size1 * 3 →
  ∃ w1 w2,
    encode_image_from_file msgfile
      ((steganographer_init junk [("inputFile", src); ("outputFile", out)], fs), tx)
    = (Normal (), (w1, tx)) ∧
    decode_image_to_file dst ((steganographer_init junk' [("inputFile", out)], w1.2), tx)
    = (Normal (), (w2, <[dst := m]> tx)).
Proof.
  intros Hsrc Hout Hmf Hdst Himg Hm Hmode Hsize Hwf H0 H1 Hne Hfits Hlen Hcap.
  destruct (build_frame_normal m 3 (frame m 3) ltac:(lia) (build_frame_spec m 3 ltac:(lia)))
    as (_ & HFlen & _).
  destruct (encode_fresh_rgb junk src out img fs m size0 size1) as [st1 Henc]; try done; [lia|].
  set (D := embed 3 (file_data img) (scan_pixels size0 size1) (frame m 3)) in Henc.
  set (dec := (steganographer_init junk' [("inputFile", out)], <[out := ImageFile D "RGB" (size0, size1)]> fs)).
  assert (Hdec : eval decode_image dec = Normal m).
  { apply (decode_fresh_rgb _ _ _ D _ size0 size1);
      [done | by rewrite lookup_insert_eq | by apply embed_well_formed | | done | done].
    apply saved_frame_prefix; [done|lia]. }
  unfold eval in Hdec. destruct (decode_image dec) as [r w2] eqn:Hd. cbn in Hdec. subst r.
  exists (st1, <[out := ImageFile D "RGB" (size0, size1)]> fs), w2. split.
  - rewrite encode_image_from_file_eq. unfold open_text. rewrite decide_False, Hm by done.
    by rewrite Henc.
  - rewrite decode_image_to_file_eq. cbn [snd]. fold dec. by rewrite Hd, decide_False.
Qed.

End FileHelpers.
