(* ===== verification/Encrypted.v ===== *)
(** * [EncryptedSteganographer]

    The subclass of lines 487-589 of [src/steganographer.py]: its
    constructor pops three keyword arguments (the recipient's public key
    file, the sender's key pair file and its passphrase) and passes the
    rest to [Steganographer.__init__]; its four methods wrap the message
    in an envelope before [encode_image] and unwrap it after
    [decode_image].  The envelope is built by [CryptoHelper] and
    [Message] of the module [message], which is not part of the
    repository: it is the interface [Envelope], a class of two
    operations with the law a correct envelope obeys.  The theorems are
    proved against the interface; the instance [plain_envelope] shows the
    law can be met. *)

From S2P Require Import Prelude BitCodec PixelBuffer Engine WriteLoop Encoder ReadLoop Decoder.
From S2P Require Import FileHelpers.
Import BitCodec PixelBuffer Steganographer WriteLoop Encoder ReadLoop Decoder FileHelpers.

Module Encrypted.

(** ** The envelope interface *)

(** [CryptoHelper.encryptMessage(m, recipient, sender, passphrase)
    .dumpMessage()] and [CryptoHelper.decryptMessage(Message.loadMessage(s),
    key_pair, passphrase)], each of which may raise.  [opens pub kp pw]
    says that the key pair in file [kp], unlocked by [pw], belongs to the
    public key in file [pub].  The law: what is sealed for [pub] is opened
    by such a key pair, and a sealed message is a non-empty string of
    bytes (the dumped envelope is text). *)
Class Envelope := {
  encrypt_dump : pystr → string → string → string → outcome pystr;
  load_decrypt : pystr → string → string → outcome pystr;
  opens : string → string → string → Prop;
  envelope_correct m pub skp pw c kp kpw :
    encrypt_dump m pub skp pw = Normal c → opens pub kp kpw → load_decrypt c kp kpw = Normal m;
  envelope_bytes m pub skp pw c :
    encrypt_dump m pub skp pw = Normal c → c ≠ [] ∧ Forall (fits 8) c
}.

(** ** The object *)

Record estego := EStego {
  e_obj : stego;
  recipient_public_key_filename : string;
  senders_key_pair_filename : string;
  passphrase : string
}.

Definition set_e_obj (st : stego) (e : estego) : estego :=
  EStego st (recipient_public_key_filename e) (senders_key_pair_filename e) (passphrase e).

(** The object, the image files and the text files. *)
Abbreviation eworld := (estego * files * texts)%type.

(** A method inherited from [Steganographer], run on the base object. *)
Definition as_base {A} (m : PyM fworld A) : PyM eworld A :=
  zoom (λ ew : eworld, ((e_obj ew.1.1, ew.1.2), ew.2))
       (λ fw ew, ((set_e_obj fw.1.1 ew.1.1, fw.1.2), fw.2)) m.

(** [kwargs[key]] of a dictionary given as its list of entries. *)
Fixpoint kw_lookup (key : string) (kwargs : list (string * string)) : option string :=
  match kwargs with
  | [] => None
  | (k, v) :: kw => if decide (k = key) then Some v else kw_lookup key kw
  end.

(** [kwargs.pop(key)]: the value and the dictionary without the key, or
    [KeyError]. *)
Fixpoint kw_pop (key : string) (kwargs : list (string * string))
    : outcome (string * list (string * string)) :=
  match kwargs with
  | [] => Raised KeyError
  | (k, v) :: kw =>
      if decide (k = key) then Normal (v, kw)
      else '(r, kw') ← kw_pop key kw; Normal (r, (k, v) :: kw')
  end.

(** The constructor [EncryptedSteganographer]: each missing key raises
    [KeyError] (re-raised with a new text), then the base constructor
    runs on what is left. *)
Definition encrypted_init (junk : Z) (kwargs : list (string * string)) : outcome estego :=
  '(rk, kw1) ← kw_pop "recipientPublicKeyFileName" kwargs;
  '(sk, kw2) ← kw_pop "sendersKeyPairFileName" kw1;
  '(pw, kw3) ← kw_pop "passphrase" kw2;
  mret (EStego (steganographer_init junk kw3) rk sk pw).

Section Methods.
Context `{Envelope}.

(** [encrypt_and_encode_message] *)
Definition encrypt_and_encode_message (message : pystr) : PyM eworld unit :=
  ew ← get;
  let e := ew.1.1 in
  sealed ← lift (encrypt_dump message (recipient_public_key_filename e)
                   (senders_key_pair_filename e) (passphrase e));
  as_base (on_world (encode_image sealed)).

(** [encrypt_and_encode_message_from_file]: the [IOError] of the read is
    re-raised. *)
Definition encrypt_and_encode_message_from_file (message_file : string) : PyM eworld unit :=
  message ← as_base (read_message_from_file message_file);
  ew ← get;
  let e := ew.1.1 in
  sealed ← lift (encrypt_dump message (recipient_public_key_filename e)
                   (senders_key_pair_filename e) (passphrase e));
  as_base (on_world (encode_image sealed)).

(** [decrypt_and_decode_message]: an exception of [decode_image] is
    printed and swallowed, and the empty string is decrypted instead. *)
Definition decrypt_and_decode_message : PyM eworld pystr :=
  message ← try_except (as_base (on_world decode_image)) is_exception (λ _, mret []);
  ew ← get;
  lift (load_decrypt message (senders_key_pair_filename ew.1.1) (passphrase ew.1.1)).

(** [decrypt_and_decode_message_to_file]: every exception propagates. *)
Definition decrypt_and_decode_message_to_file (message_file : string) : PyM eworld unit :=
  message ← as_base (on_world decode_image);
  ew ← get;
  plain ← lift (load_decrypt message (senders_key_pair_filename ew.1.1) (passphrase ew.1.1));
  as_base (write_message_to_file plain message_file).

End Methods.

(** ** A model of the interface *)

(** An envelope that seals a string of bytes behind a one-byte header
    and opens with any key: enough to show that the law of [Envelope] can
    be met.  It is not an instance, so that the theorems stay about an
    arbitrary envelope. *)
Definition plain_seal (m : pystr) : outcome pystr :=
  if decide (Forall (fits 8) m) then Normal (1%Z :: m) else Raised (ValueError ChrOutOfRange).

Definition plain_open (c : pystr) : outcome pystr :=
  match c with _ :: m => Normal m | [] => Raised (ValueError ChrOutOfRange) end.

Lemma plain_correct m c : plain_seal m = Normal c → plain_open c = Normal m.
Proof. unfold plain_seal. case_decide; [|done]. by intros <-%normal_inj. Qed.

Lemma plain_bytes m c : plain_seal m = Normal c → c ≠ [] ∧ Forall (fits 8) c.
Proof.
  unfold plain_seal. case_decide; [|done]. intros <-%normal_inj.
  split; [done|]. constructor; [unfold fits; simpl; lia|done].
Qed.

Definition plain_envelope : Envelope := {|
  encrypt_dump m _ _ _ := plain_seal m;
  load_decrypt c _ _ := plain_open c;
  opens _ _ _ := True;
  envelope_correct m _ _ _ c _ _ Hc _ := plain_correct m c Hc;
  envelope_bytes m _ _ _ c Hc := plain_bytes m c Hc
|}.

(** ** Properties *)

Lemma kw_pop_none (key : string) (kwargs : list (string * string)) :
  kw_lookup key kwargs = None → kw_pop key kwargs = Raised KeyError.
Proof.
  induction kwargs as [|[k v] kw IH]; cbn; [done|].
  case_decide; [done|]. intros ->%IH. done.
Qed.

(** Popping a key: its value, the other keys untouched, and the base
    constructor, which ignores the key, unchanged. *)
Lemma kw_pop_some (key v : string) (kwargs : list (string * string)) :
  kw_lookup key kwargs = Some v →
  ∃ kw', kw_pop key kwargs = Normal (v, kw') ∧
    (∀ k', k' ≠ key → kw_lookup k' kw' = kw_lookup k' kwargs) ∧
    (key ≠ "inputFile" → key ≠ "outputFile" →
     ∀ st, foldl init_kwarg st kw' = foldl init_kwarg st kwargs).
Proof.
  induction kwargs as [|[k v'] kw IH]; cbn; [done|].
  case_decide as Hk.
  - intros [= <-]. subst k. exists kw. split; [done|]. split.
    + intros k' Hne. by rewrite decide_False by congruence.
    + intros Hi Ho st. unfold init_kwarg at 2. by rewrite !decide_False.
  - intros Hl. destruct (IH Hl) as (kw' & -> & Hlk & Hinit).
    exists ((k, v') :: kw'). split; [done|]. split.
    + intros k' Hne. cbn. case_decide; [done|]. by apply Hlk.
    + intros Hi Ho st. cbn. by apply Hinit.
Qed.

(** C27: the constructor of [EncryptedSteganographer] raises [KeyError]
    unless the recipient's public key file, the sender's key pair file
    and the passphrase are all given; then the object holds them and its
    base object is the one [Steganographer] builds from all the keyword
    arguments. *)
Theorem encrypted_init_spec (junk : Z) (kwargs : list (string * string)) :
  encrypted_init junk kwargs =
    match kw_lookup "recipientPublicKeyFileName" kwargs, kw_lookup "sendersKeyPairFileName" kwargs,
          kw_lookup "passphrase" kwargs with
    | Some rk, Some sk, Some pw => Normal (EStego (steganographer_init junk kwargs) rk sk pw)
    | _, _, _ => Raised KeyError
    end.
Proof.
  unfold encrypted_init.
  destruct (kw_lookup "recipientPublicKeyFileName" kwargs) as [rk|] eqn:Hr;
    [|by rewrite kw_pop_none].
  destruct (kw_pop_some _ _ _ Hr) as (kw1 & -> & Hl1 & Hi1). cbn.
  rewrite <- (Hl1 "sendersKeyPairFileName"), <- (Hl1 "passphrase") by done.
  destruct (kw_lookup "sendersKeyPairFileName" kw1) as [sk|] eqn:Hs; [|by rewrite kw_pop_none].
  destruct (kw_pop_some _ _ _ Hs) as (kw2 & -> & Hl2 & Hi2). cbn.
  rewrite <- (Hl2 "passphrase") by done.
  destruct (kw_lookup "passphrase" kw2) as [pw|] eqn:Hp; [|by rewrite kw_pop_none].
  destruct (kw_pop_some _ _ _ Hp) as (kw3 & -> & _ & Hi3). cbn.
  unfold steganographer_init. by rewrite Hi3, Hi2, Hi1.
Qed.

Lemma as_base_run {A} (m : PyM fworld A) (e : estego) (fs : files) (tx : texts) r st' fs' tx' :
  m ((e_obj e, fs), tx) = (r, ((st', fs'), tx')) →
  as_base m ((e, fs), tx) = (r, ((set_e_obj st' e, fs'), tx')).
Proof. intros Hm. unfold as_base, zoom. cbn. by rewrite Hm. Qed.

Section Laws.
Context `{Envelope}.

(** C28: [decrypt_and_decode_message] hides a failure of [decode_image]
    (any exception but [SystemExit], which [except Exception] lets pass):
    the exception is printed and the empty string is decrypted in place
    of the message, so the caller sees whatever the envelope code makes
    of an empty envelope. *)
Theorem decrypt_swallows_decode_error (e : estego) (fs : files) (tx : texts) (err : exn)
    (st' : stego) (fs' : files) :
  decode_image (e_obj e, fs) = (Raised err, (st', fs')) → is_exception err = true →
  decrypt_and_decode_message ((e, fs), tx)
  = (load_decrypt [] (senders_key_pair_filename e) (passphrase e),
     ((set_e_obj st' e, fs'), tx)).
Proof.
  intros Hd Hexc. unfold decrypt_and_decode_message.
  erewrite bind_normal.
  2:{ rewrite (try_except_caught _ _ _ _ err ((set_e_obj st' e, fs'), tx)); [done| |done].
      apply as_base_run. by apply on_world_run. }
  done.
Qed.

(** C29: encrypted round trip.  A sender object built with an RGB input
    image, an output name, the recipient's public key and its own key
    pair seals and encodes a message; a recipient object built on the
    saved image with a key pair that opens envelopes for that public key
    decodes and decrypts the same message, provided the sealed envelope
    fits in the image. *)
Theorem encrypted_roundtrip (junk junk' : Z) (src out pub skp pw pub' kp kpw : string)
    (img : image_file) (fs : files) (tx : texts) (m c : pystr) (size0 size1 : nat) :
  src ≠ "" → out ≠ "" → fs !! src = Some img →
  file_mode img = "RGB" → file_size img = (size0, size1) →
  well_formed (file_data img) size0 size1 3 → 0 < size0 → 0 < size1 →
  encrypt_dump m pub skp pw = Normal c → opens pub kp kpw →
  (Z.of_nat (length c) < 2 ^ 32)%Z →
  32 + 8 * length c + (3 - (32 + 8 * length c) mod 3) < size0 * size1 * 3 →
  ∃ es er ew1,
    encrypted_init junk [("inputFile", src); ("outputFile", out);
      ("recipientPublicKeyFileName", pub); ("sendersKeyPairFileName", skp);
      ("passphrase", pw)] = Normal es ∧
    encrypt_and_encode_message m ((es, fs), tx) = (Normal (), ew1) ∧
    encrypted_init junk' [("inputFile", out); ("recipientPublicKeyFileName", pub');
      ("sendersKeyPairFileName", kp); ("passphrase", kpw)] = Normal er ∧
    eval decrypt_and_decode_message ((er, ew1.1.2), ew1.2) = Normal m.
Proof.
  intros Hsrc Hout Himg Hmode Hsize Hwf H0 H1 Hc Hopen Hlen Hcap.
  destruct (envelope_bytes _ _ _ _ _ Hc) as [Hcne Hfits].
  destruct (build_frame_normal c 3 (frame c 3) ltac:(lia) (build_frame_spec c 3 ltac:(lia)))
    as (_ & HFlen & _).
  destruct (encode_fresh_rgb junk src out img fs c size0 size1) as [st1 Henc]; try done; [lia|].
  set (D := embed 3 (file_data img) (scan_pixels size0 size1) (frame c 3)) in Henc.
  set (es := EStego (steganographer_init junk [("inputFile", src); ("outputFile", out)]) pub skp pw).
  set (er := EStego (steganographer_init junk' [("inputFile", out)]) pub' kp kpw).
  set (fs1 := <[out := ImageFile D "RGB" (size0, size1)]> fs).
  exists es, er, ((set_e_obj st1 es, fs1), tx). split; [done|]. split.
  { unfold encrypt_and_encode_message. erewrite bind_normal by done. cbn zeta.
    erewrite bind_normal by (unfold lift; cbn; by rewrite Hc).
    apply as_base_run, on_world_run. exact Henc. }
  split; [done|]. cbn [fst snd].
  assert (Hdec : eval decode_image (e_obj er, fs1) = Normal c).
  { apply (decode_fresh_rgb _ _ _ D _ size0 size1);
      [done | unfold fs1; by rewrite lookup_insert_eq | by apply embed_well_formed | | done | done].
    apply saved_frame_prefix; [done|lia]. }
  unfold eval in Hdec. destruct (decode_image (e_obj er, fs1)) as [r [st2 fs2]] eqn:Hd.
  cbn in Hdec. subst r.
  unfold eval, decrypt_and_decode_message.
  erewrite bind_normal by (apply try_except_normal, as_base_run, on_world_run; exact Hd).
  erewrite bind_normal by done. cbn. by apply (envelope_correct m pub skp pw).
Qed.

End Laws.

End Encrypted.
