(* ===== verification/Compare.v ===== *)
(** * [compare_pixels]

    The static method of lines 175-209 of [src/steganographer.py]: open
    two images (on [IOError], print and [exit(1)]), check that their
    sizes agree (otherwise print and [exit(1)]), then print the first
    [pixels] pixels of both, side by side, in the loop order of the
    method, which ends by [except Exception: pass].  The method has no
    effect but its output: its state is the list of printed lines, each
    line kept as the values it shows rather than as text.

    The loop reads [data[widthIndex][heightIndex]] with [heightIndex]
    over [size[1]] (the height) and [widthIndex] over [size[0]] (the
    width), so on a non-square image the indices leave the array: the
    theorems give the output on every branch and count the pixel lines
    of two well-formed images: [min(pixels, width * width)] when the
    width is at most the height, [min(pixels, height)] otherwise. *)

From S2P Require Import Prelude BitCodec PixelBuffer Engine WriteLoop.
Import BitCodec PixelBuffer Steganographer WriteLoop.

Module Compare.

(** The lines [compare_pixels] prints. *)
Inductive cp_line :=
  | ReadingPixels (pixels : nat) (image_a image_b : string)
  | OpenFailed
  | SizeMismatch
  | PixelLine (index : nat) (pa pb : pixel).

Abbreviation stdout := (list cp_line).

Definition print (l : cp_line) : PyM stdout unit := modify (λ out, out ++ [l]).

(** The loop variables: [__pixelIndex] and the output so far. *)
Record cmp_locals := CmpL {
  pixel_index : nat;
  cmp_out : stdout
}.

(** [data[widthIndex][heightIndex]] *)
Definition read_pixel (data : image) (widthIndex heightIndex : nat) : outcome pixel :=
  row ← py_get data widthIndex; py_get row heightIndex.

(** The body of the inner loop. *)
Definition compare_body (pixels : nat) (oimd nimd : image) (heightIndex widthIndex : nat)
    : PyM cmp_locals unit :=
  st ← get;
  if decide (pixels ≤ pixel_index st) then raise Done else
  pa ← lift (read_pixel oimd widthIndex heightIndex);
  pb ← lift (read_pixel nimd widthIndex heightIndex);
  put (CmpL (S (pixel_index st)) (cmp_out st ++ [PixelLine (pixel_index st) pa pb])).

Definition compare_loop (pixels : nat) (oim nim : image_file) : PyM cmp_locals unit :=
  for_range 0 (file_size oim).2 (λ heightIndex,
    for_range 0 (file_size oim).1 (λ widthIndex,
      compare_body pixels (file_data oim) (file_data nim) heightIndex widthIndex)).

Definition compare_pixels (fs : files) (image_a image_b : string) (pixels : nat)
    : PyM stdout unit :=
  print (ReadingPixels pixels image_a image_b) ;;
  '(oim, nim) ← try_except (lift (oim ← open_image fs image_a;
                                   nim ← open_image fs image_b; mret (oim, nim)))
                           is_io_error (λ _, print OpenFailed ;; raise (SystemExit 1));
  if decide ((file_size nim).1 = (file_size oim).1 ∧ (file_size nim).2 = (file_size oim).2)
  then out ← get;
       put (cmp_out (try_pass (compare_loop pixels oim nim) (CmpL 0 out)).2)
  else print SizeMismatch ;; raise (SystemExit 1).

(** ** The flat description of the output *)

(** The length of the longest prefix of [l] whose elements satisfy [ok]. *)
Fixpoint count_while {X} (ok : X → bool) (l : list X) : nat :=
  match l with
  | [] => 0
  | x :: l' => if ok x then S (count_while ok l') else 0
  end.

(** Both images have pixel [(heightIndex, widthIndex)] of the loop. *)
Definition readable (oimd nimd : image) (p : nat * nat) : bool :=
  bool_decide (is_Some (pixel_at oimd p.2 p.1)) && bool_decide (is_Some (pixel_at nimd p.2 p.1)).

(** The pixel lines of the loop positions [l], numbered from [i]. *)
Fixpoint pixel_lines (oimd nimd : image) (i : nat) (l : list (nat * nat)) : stdout :=
  match l with
  | [] => []
  | (h, w) :: l' =>
      PixelLine i (default [] (pixel_at oimd w h)) (default [] (pixel_at nimd w h))
      :: pixel_lines oimd nimd (S i) l'
  end.

(** ** Properties *)

Lemma read_pixel_spec (data : image) (w h : nat) :
  read_pixel data w h =
    match pixel_at data w h with Some px => Normal px | None => Raised IndexError end.
Proof.
  unfold read_pixel, pixel_at, py_get.
  destruct (data !! w) as [row|]; cbn; [|done]. by destruct (row !! h).
Qed.

Lemma compare_body_run (pixels : nat) (oimd nimd : image) (h w i : nat) (out : stdout) :
  compare_body pixels oimd nimd h w (CmpL i out) =
    if decide (pixels ≤ i) then (Raised Done, CmpL i out) else
    match pixel_at oimd w h, pixel_at nimd w h with
    | Some pa, Some pb => (Normal (), CmpL (S i) (out ++ [PixelLine i pa pb]))
    | _, _ => (Raised IndexError, CmpL i out)
    end.
Proof.
  unfold compare_body. pym_unfold. cbn. case_decide; [done|].
  rewrite !read_pixel_spec. by destruct (pixel_at oimd w h), (pixel_at nimd w h).
Qed.

(** The loop over the positions [l] from index [i] prints the readable
    prefix of [l], cut at [pixels]. *)
Lemma compare_positions (pixels : nat) (oimd nimd : image) (l : list (nat * nat))
    (i : nat) (out : stdout) :
  (for_each l (λ p, compare_body pixels oimd nimd p.1 p.2) (CmpL i out)).2
  = let k := min (pixels - i) (count_while (readable oimd nimd) l) in
    CmpL (i + k) (out ++ pixel_lines oimd nimd i (take k l)).
Proof.
  revert i out. induction l as [|[h w] l IH]; intros i out; cbn [for_each count_while].
  { cbn. rewrite Nat.min_0_r, Nat.add_0_r, app_nil_r. done. }
  unfold mbind at 1, pym_bind at 1. cbn [fst snd]. rewrite compare_body_run.
  unfold readable. cbn [fst snd].
  destruct (decide (pixels ≤ i)) as [Hdone|Hdone].
  { cbn zeta. replace (pixels - i) with 0 by lia. by rewrite Nat.add_0_r, app_nil_r. }
  destruct (pixel_at oimd w h) as [pa|] eqn:Ha;
    [destruct (pixel_at nimd w h) as [pb|] eqn:Hb|]; cbn [bool_decide decide_rel is_Some_dec];
    rewrite ?bool_decide_true, ?bool_decide_false by (intros [? ?]; congruence);
    try (by eexists); cbn zeta; rewrite ?Nat.min_0_r, ?Nat.add_0_r, ?app_nil_r; try done.
  rewrite (IH (S i)). cbn zeta.
  replace (pixels - i) with (S (pixels - S i)) by lia. cbn [andb Nat.min].
  cbn [take pixel_lines]. rewrite Ha, Hb, <- app_assoc. cbn. fold (readable oimd nimd). f_equal. lia.
Qed.

Lemma compare_loop_flat (pixels : nat) (oim nim : image_file) :
  compare_loop pixels oim nim
  ≡ for_each (scan_pixels (file_size oim).2 (file_size oim).1)
      (λ p, compare_body pixels (file_data oim) (file_data nim) p.1 p.2).
Proof. unfold compare_loop, for_range, scan_pixels. apply for_each_nested. Qed.

(** The positions the loop visits, in order. *)
Definition compare_scan (oim : image_file) : list (nat * nat) :=
  scan_pixels (file_size oim).2 (file_size oim).1.

(** [compare_pixels] on every branch. *)
Lemma compare_pixels_eq (fs : files) (image_a image_b : string) (pixels : nat) (out : stdout) :
  compare_pixels fs image_a image_b pixels out =
    let out1 := out ++ [ReadingPixels pixels image_a image_b] in
    match fs !! image_a, fs !! image_b with
    | Some oim, Some nim =>
        if decide ((file_size nim).1 = (file_size oim).1 ∧ (file_size nim).2 = (file_size oim).2)
        then
          let k := min pixels (count_while (readable (file_data oim) (file_data nim))
                                              (compare_scan oim)) in
          (Normal (), out1 ++ pixel_lines (file_data oim) (file_data nim) 0
                                (take k (compare_scan oim)))
        else (Raised (SystemExit 1), out1 ++ [SizeMismatch])
    | _, _ => (Raised (SystemExit 1), out1 ++ [OpenFailed])
    end.
Proof.
  unfold compare_pixels, print. erewrite bind_normal by done. cbn zeta.
  destruct (fs !! image_a) as [oim|] eqn:Ha; [destruct (fs !! image_b) as [nim|] eqn:Hb|].
  - erewrite bind_normal.
    2:{ apply try_except_normal. unfold lift, open_image. by rewrite Ha, Hb. }
    cbn. case_decide; [|done].
    erewrite bind_normal by done. unfold put.
    rewrite try_pass_state, (compare_loop_flat pixels oim nim (CmpL 0 _)), compare_positions.
    cbn. by rewrite Nat.sub_0_r.
  - erewrite bind_raised; [done|].
    rewrite (try_except_caught _ _ _ _ IOError (out ++ [ReadingPixels pixels image_a image_b])); [done| |done].
    unfold lift, open_image. by rewrite Ha, Hb.
  - erewrite bind_raised; [done|].
    rewrite (try_except_caught _ _ _ _ IOError (out ++ [ReadingPixels pixels image_a image_b])); [done| |done].
    unfold lift, open_image. by rewrite Ha.
Qed.

Lemma count_while_app_all {X} (ok : X → bool) (l1 l2 : list X) :
  Forall (λ x, ok x = true) l1 → count_while ok (l1 ++ l2) = length l1 + count_while ok l2.
Proof. induction 1 as [|x l1 Hx _ IH]; [done|]. cbn. by rewrite Hx, IH. Qed.

Lemma count_while_ext {X} (f g : X → bool) (l : list X) :
  (∀ x, x ∈ l → f x = g x) → count_while f l = count_while g l.
Proof.
  induction l as [|x l IH]; intros Hfg; [done|]. cbn.
  rewrite Hfg by set_solver. rewrite IH by set_solver. done.
Qed.

Lemma pixel_at_is_Some (data : image) (size0 size1 nch y x : nat) :
  well_formed data size0 size1 nch → is_Some (pixel_at data y x) ↔ y < size1 ∧ x < size0.
Proof.
  intros Hwf. split.
  - intros [px Hpx]. destruct Hwf as [Hlen Hrows]. unfold pixel_at in Hpx.
    destruct (data !! y) as [row|] eqn:Hrow; [|done]. cbn in Hpx.
    destruct (Forall_lookup_1 _ _ _ _ Hrows Hrow) as [Hrl _].
    apply lookup_lt_Some in Hrow, Hpx. lia.
  - intros [Hy Hx]. destruct (well_formed_pixel _ _ _ _ _ _ Hwf Hy Hx) as (px & -> & _). by eexists.
Qed.

(** The positions of the loop that lie in a [width x height] array: the
    [width * width] positions of the first [width] values of
    [heightIndex] when [width <= height], the first [height] values of
    [widthIndex] at [heightIndex = 0] otherwise. *)
Lemma count_in_bounds (width height : nat) :
  count_while (λ p : nat * nat, bool_decide (p.2 < height ∧ p.1 < width))
              (scan_pixels height width)
  = if decide (width ≤ height) then width * width else height.
Proof.
  unfold scan_pixels. set (ok := λ p : nat * nat, bool_decide (p.2 < height ∧ p.1 < width)).
  case_decide as Hle.
  - replace height with (width + (height - width)) at 1 by lia.
    rewrite seq_app, bind_app, count_while_app_all.
    + fold (scan_pixels width width). rewrite length_scan_pixels.
      destruct width as [|w'].
      { assert (Hnil : ∀ l : list nat, (l ≫= λ h, pair h <$> seq 0 0) = []).
        { intros l. induction l as [|? l IHl]; [done|]. exact IHl. }
        by rewrite Hnil. }
      destruct (height - S w') as [|d]; [cbn; lia|]. cbn. unfold ok at 1.
      rewrite bool_decide_false by (cbn; lia). lia.
    + apply Forall_forall. intros [h w] Hp. fold (scan_pixels width width) in Hp.
      apply elem_of_scan_pixels in Hp. unfold ok. apply bool_decide_eq_true. cbn. lia.
  - destruct height as [|h']; [done|]. cbn [seq mbind list_bind].
    replace width with (S h' + (width - S h')) at 1 by lia.
    rewrite seq_app, fmap_app, <- app_assoc, count_while_app_all.
    + rewrite length_fmap, length_seq. destruct (width - S h') as [|d] eqn:Hd; [lia|].
      cbn. unfold ok at 1. rewrite bool_decide_false by (cbn; lia). lia.
    + apply Forall_fmap, Forall_forall. intros w Hw. apply elem_of_seq in Hw.
      unfold ok. apply bool_decide_eq_true. cbn. lia.
Qed.

Lemma length_pixel_lines (oimd nimd : image) (i : nat) (l : list (nat * nat)) :
  length (pixel_lines oimd nimd i l) = length l.
Proof. revert i. induction l as [|[h w] l IH]; intros i; [done|]. cbn. by rewrite IH. Qed.

Lemma count_while_le {X} (ok : X → bool) (l : list X) : count_while ok l ≤ length l.
Proof. induction l as [|x l IH]; cbn; [lia|]. destruct (ok x); lia. Qed.

(** C30: [compare_pixels] on two well-formed images of the same size
    [(width, height)] returns normally after printing
    [min(pixels, width * width)] pixel lines when [width <= height] and
    [min(pixels, height)] otherwise: on a non-square image the loop's
    transposed indices leave the array and the [IndexError] ends the
    comparison early, silently. *)
Theorem compare_pixels_count (fs : files) (image_a image_b : string) (pixels : nat)
    (out : stdout) (oim nim : image_file) (width height nch nch' : nat) :
  fs !! image_a = Some oim → fs !! image_b = Some nim →
  file_size oim = (width, height) → file_size nim = (width, height) →
  well_formed (file_data oim) width height nch → well_formed (file_data nim) width height nch' →
  ∃ lines,
    compare_pixels fs image_a image_b pixels out
    = (Normal (), out ++ ReadingPixels pixels image_a image_b :: lines) ∧
    length lines = min pixels (if decide (width ≤ height) then width * width else height).
Proof.
  intros Ha Hb Hsa Hsb Hwa Hwb.
  rewrite compare_pixels_eq, Ha, Hb, Hsa, Hsb. cbn zeta.
  rewrite decide_True by done. eexists. split; [by rewrite <- app_assoc|].
  unfold compare_scan. rewrite Hsa. cbn [fst snd].
  rewrite length_pixel_lines, length_take.
  rewrite (count_while_ext _ (λ p : nat * nat, bool_decide (p.2 < height ∧ p.1 < width))).
  - pose proof (count_in_bounds width height) as Hc.
    pose proof (count_while_le (λ p : nat * nat, bool_decide (p.2 < height ∧ p.1 < width))
                               (scan_pixels height width)) as Hle.
    rewrite Hc in Hle |- *. lia.
  - intros [h w] _. unfold readable. cbn.
    apply eq_bool_prop_intro. rewrite andb_True, !bool_decide_spec.
    rewrite (pixel_at_is_Some _ _ _ _ _ _ Hwa), (pixel_at_is_Some _ _ _ _ _ _ Hwb). tauto.
Qed.

(** C31: [compare_pixels] exits with status 1 after printing why when an
    image cannot be opened or when the two sizes differ. *)
Theorem compare_pixels_exit (fs : files) (image_a image_b : string) (pixels : nat)
    (out : stdout) (why : cp_line) :
  (why = OpenFailed ∧ (fs !! image_a = None ∨ fs !! image_b = None)) ∨
  (why = SizeMismatch ∧ ∃ oim nim, fs !! image_a = Some oim ∧ fs !! image_b = Some nim ∧
                                   file_size nim ≠ file_size oim) →
  compare_pixels fs image_a image_b pixels out
  = (Raised (SystemExit 1), out ++ [ReadingPixels pixels image_a image_b; why]).
Proof.
  rewrite compare_pixels_eq. cbn zeta.
  intros [[-> [Ha|Hb]] | (-> & oim & nim & Ha & Hb & Hne)].
  - rewrite Ha. by rewrite <- app_assoc.
  - destruct (fs !! image_a); rewrite ?Hb; by rewrite <- app_assoc.
  - rewrite Ha, Hb, decide_False; [by rewrite <- app_assoc|].
    intros [H1 H2]. apply Hne. destruct (file_size nim), (file_size oim). cbn in *. congruence.
Qed.

End Compare.
