(* ===== verification/Cli.v ===== *)
(** * The command-line driver

    The block under [if __name__ == "__main__"] (lines 591-758 of
    [src/steganographer.py]): argparse's namespace is the record
    [Args.namespace] (a value not given on the command line is [None]); the
    if-chain on [--generate], [--encode], [--decode] and [--crypto] is
    [main], which builds a [Steganographer] or an
    [EncryptedSteganographer] and calls one of its methods.

    The driver runs in the monad [CliM]: the image files, the text files
    and the lines the driver prints, with Python's exceptions; [exit(n)]
    raises [SystemExit n].  When a [None] of the namespace is stored by a
    constructor or handed to [CryptoHelper], what PIL or the cipher does
    with it is not modelled: the run ends in [None] ("beyond the
    model"); every theorem below says when a run stays inside.  The
    lines printed by the methods themselves are not recorded.

    The theorems: a command given every argument its branch checks
    crashes on [args.print_help()] (a method the namespace does not
    have) before doing anything; no [--encode] run ever changes an
    image file; [--decode] works only without [--outputimage], writes the
    decoded message to [--outputfile], and without [--outputfile] prints
    the header and crashes on [steg.decode()]; the encrypted [--decode]
    prints the opened message. *)

From S2P Require Import Prelude BitCodec PixelBuffer Engine WriteLoop Encoder ReadLoop Decoder.
From S2P Require Import FileHelpers Encrypted.
Import PixelBuffer Steganographer Encoder Decoder FileHelpers Encrypted.

Module Cli.

(** ** The parsed arguments *)

Module Args.
(** [args = parser.parse_args()]: the options with [action="store_true"]
    are booleans, the others a string or [None]; the message is the
    string of its code points. *)
Record namespace := Namespace {
  inputimage : option string;
  outputimage : option string;
  encode : bool;
  decode : bool;
  crypto : bool;
  message : option pystr;
  inputfile : option string;
  outputfile : option string;
  generate : option string;
  encryptionkey : option string;
  signingkey : option string;
  passphrase : option string;
  modulus : option string;
  comparefiles : option string
}.
End Args.

(** Python's truth value of a string or [None]. *)
Definition truthy (o : option string) : bool :=
  match o with Some s => bool_decide (s ≠ "") | None => false end.

Definition truthy_msg (o : option pystr) : bool :=
  match o with Some m => bool_decide (m ≠ []) | None => false end.

(** ** The driver's state and monad *)

(** The lines the driver prints. *)
Inductive cli_line :=
  | PassphraseMissing         (* "A passphrase for the key must be provided." *)
  | ErrorOccured              (* "The following error occured: " *)
  | ErrorHasOccured           (* "The following error has occured: " *)
  | ErrorOpeningMessageFile   (* "The following Error was encountered opening the message file." *)
  | ErrorEncountered          (* "The following error was encountered: " *)
  | ShowError (e : exn)       (* print(e) *)
  | MessageWritten (filename : string) (* "Message successfully written to " + f + "." *)
  | MessageHeader             (* "Message:\n" *)
  | ShowMessage (m : pystr)   (* print(message) *)
  | Usage.                    (* parser.print_help() *)

Record proc := Proc {
  p_files : files;
  p_texts : texts;
  p_out : list cli_line
}.

(** A statement of the driver: [None] when a [None] value reaches a
    library. *)
Definition CliM (A : Type) : Type := proc → option (outcome A * proc).

#[export] Instance cli_ret : MRet CliM := λ A a p, Some (Normal a, p).
#[export] Instance cli_bind : MBind CliM := λ A B k m p,
  match m p with
  | Some (Normal a, p') => k a p'
  | Some (Raised e, p') => Some (Raised e, p')
  | None => None
  end.

Definition beyond {A} : CliM A := λ _, None.
Definition cli_raise {A} (e : exn) : CliM A := λ p, Some (Raised e, p).
Definition cli_lift {A} (o : outcome A) : CliM A := λ p, Some (o, p).

(** [exit(code)] *)
Definition exit {A} (code : nat) : CliM A := cli_raise (SystemExit code).

(** [print(...)] *)
Definition say (l : cli_line) : CliM unit :=
  λ p, Some (Normal (), Proc (p_files p) (p_texts p) (p_out p ++ [l])).

(** [try: m  except E as e: h(e)] *)
Definition cli_try {A} (m : CliM A) (handles : exn → bool) (h : exn → CliM A) : CliM A :=
  λ p, match m p with
       | Some (Raised e, p') => if handles e then h e p' else Some (Raised e, p')
       | r => r
       end.

(** A method call on the object [obj], which lives in the local [steg]:
    the method sees the image and text files of the process. *)
Definition call {O A} (obj : O) (m : PyM (O * files * texts) A) : CliM A :=
  λ p, let r := m ((obj, p_files p), p_texts p) in
       Some (r.1, Proc r.2.1.2 r.2.2 (p_out p)).

(** The keyword arguments as the constructors see them: a [None] under a
    key the constructors store leaves the model; under another key it is
    ignored by the constructors, and dropped. *)
Definition stored_key (k : string) : bool :=
  bool_decide (k ∈ ["inputFile"; "outputFile"; "recipientPublicKeyFileName";
                    "sendersKeyPairFileName"; "passphrase"]).

Fixpoint py_kwargs (kw : list (string * option string)) : option (list (string * string)) :=
  match kw with
  | [] => Some []
  | (k, Some v) :: kw' => (λ r, (k, v) :: r) <$> py_kwargs kw'
  | (k, None) :: kw' => if stored_key k then None else py_kwargs kw'
  end.

Definition is_key_error (e : exn) : bool := bool_decide (e = KeyError).

(** [except IOError] does not catch the [SystemExit] of [exit()]. *)
Lemma is_io_error_exit (n : nat) : is_io_error (SystemExit n) = false.
Proof. done. Qed.

(** [encode_image(None)]: the output name is checked and the image loaded
    as for a string; then [None == ""] is false and [len(None)] raises
    [TypeError]. *)
Definition encode_image_none : PyM world unit :=
  st ← get_obj;
  if decide (output_file st = "") then raise (ValueError NoOutputFile) else
  ensure_initialized ;; raise TypeError.

(** [steg.encode_image(args.message)] *)
Definition encode_image_arg (message : option pystr) : PyM fworld unit :=
  on_world (match message with Some m => encode_image m | None => encode_image_none end).

Section Driver.
Context `{Envelope}.

(** [CryptoHelper.generateKeys(name, passphrase[, modulus])] of the
    external module [message]: whatever it does to key files is outside
    the state of the model. *)
Variable generate_keys : string → string → option string → outcome unit.
(** The unspecified value of [numpy.empty((1, 1, 1))]. *)
Variable junk : Z.

(** The constructor [Steganographer] on keyword arguments [kw]. *)
Definition new_plain (kw : list (string * option string)) : CliM stego :=
  match py_kwargs kw with Some kw' => mret (steganographer_init junk kw') | None => beyond end.

(** The constructor [EncryptedSteganographer] on keyword arguments [kw]. *)
Definition new_encrypted (kw : list (string * option string)) : CliM estego :=
  match py_kwargs kw with Some kw' => cli_lift (encrypted_init junk kw') | None => beyond end.


(** A string argument that [CryptoHelper] receives. *)
Definition need {A} (o : option A) : CliM A :=
  match o with Some v => mret v | None => beyond end.

(** [--encode --crypto]: note the keyword [outputfile], in lower case. *)
Definition encode_crypto (a : Args.namespace) : CliM unit :=
  steg ← cli_try (new_encrypted [("inputFile", Args.inputimage a); ("outputfile", Args.outputimage a);
                   ("recipientPublicKeyFileName", Args.encryptionkey a);
                   ("sendersKeyPairFileName", Args.signingkey a); ("passphrase", Args.passphrase a)])
                 is_key_error (λ e, say ErrorHasOccured ;; say (ShowError e) ;; exit 1);
  cli_try (if truthy (Args.inputfile a)
           then f ← need (Args.inputfile a); call steg (encrypt_and_encode_message_from_file f)
           else m ← need (Args.message a); call steg (encrypt_and_encode_message m))
          is_io_error (λ e, say ErrorOpeningMessageFile ;; say (ShowError e) ;; exit 1).

(** [--encode] without [--crypto] *)
Definition encode_plain (a : Args.namespace) : CliM unit :=
  steg ← cli_try (new_plain [("inputFile", Args.inputimage a); ("outputFile", Args.outputimage a)])
                 is_key_error (λ e, say ErrorOccured ;; say (ShowError e) ;; exit 1);
  cli_try (if truthy (Args.inputfile a)
           then f ← need (Args.inputfile a); call steg (encode_image_from_file f)
           else call steg (encode_image_arg (Args.message a)))
          is_io_error (λ e, say ErrorOccured ;; say (ShowError e) ;; exit 1).

(** [--decode --crypto] *)
Definition decode_crypto (a : Args.namespace) : CliM unit :=
  steg ← cli_try (new_encrypted [("inputFile", Args.inputimage a);
                   ("recipientPublicKeyFileName", Args.encryptionkey a);
                   ("sendersKeyPairFileName", Args.signingkey a); ("passphrase", Args.passphrase a)])
                 is_key_error (λ e, say ErrorHasOccured ;; say (ShowError e) ;; exit 1);
  cli_try (if truthy (Args.outputfile a)
           then f ← need (Args.outputfile a);
                call steg (decrypt_and_decode_message_to_file f) ;;
                say (MessageWritten f) ;; exit 0
           else say MessageHeader ;; m ← call steg decrypt_and_decode_message;
                say (ShowMessage m) ;; exit 0)
          is_io_error (λ e, say ErrorEncountered ;; say (ShowError e) ;; exit 1).

(** [--decode] without [--crypto]; [steg.decode()] names no method of
    [Steganographer]. *)
Definition decode_plain (a : Args.namespace) : CliM unit :=
  steg ← cli_try (new_plain [("inputFile", Args.inputimage a)])
                 is_key_error (λ e, say ErrorHasOccured ;; say (ShowError e) ;; exit 1);
  cli_try (if truthy (Args.outputfile a)
           then f ← need (Args.outputfile a);
                call steg (decode_image_to_file f) ;;
                say (MessageWritten f) ;; exit 0
           else say MessageHeader ;; cli_raise AttributeError)
          is_io_error (λ e, say ErrorEncountered ;; say (ShowError e) ;; exit 1).

(** The if-chain of the driver, then [exit(0)].  [args.print_help()]
    raises [AttributeError]: [print_help] is a method of the parser, not
    of the namespace. *)
Definition main (a : Args.namespace) : CliM unit :=
  (if truthy (Args.generate a) then
     if negb (truthy (Args.passphrase a)) then say PassphraseMissing ;; exit 1
     else g ← need (Args.generate a); p ← need (Args.passphrase a);
          cli_lift (generate_keys g p (if truthy (Args.modulus a) then Args.modulus a else None))
   else if Args.encode a then
     if Args.crypto a then
       if negb (truthy (Args.inputimage a)) || negb (truthy (Args.outputimage a))
          || negb (truthy_msg (Args.message a) || truthy (Args.inputfile a))
          || negb (truthy (Args.encryptionkey a)) || negb (truthy (Args.signingkey a))
          || negb (truthy (Args.passphrase a))
       then encode_crypto a
       else cli_raise AttributeError
     else
       if negb (truthy (Args.inputimage a)) || negb (truthy (Args.outputimage a))
          || negb (truthy_msg (Args.message a) || truthy (Args.inputfile a))
       then encode_plain a
       else cli_raise AttributeError
   else if Args.decode a then
     if Args.crypto a then
       if negb (truthy (Args.inputimage a)) || negb (truthy (Args.outputimage a))
          || negb (truthy (Args.encryptionkey a)) || negb (truthy (Args.signingkey a))
          || negb (truthy (Args.passphrase a))
       then decode_crypto a
       else cli_raise AttributeError
     else
       if negb (truthy (Args.inputimage a)) || negb (truthy (Args.outputimage a))
       then decode_plain a
       else cli_raise AttributeError
   else say Usage ;; exit 1) ;;
  exit 0.

(** The exit status of the process: the code of [exit], or 1 after the
    traceback of an uncaught exception. *)
Definition exit_status (r : outcome unit) : nat :=
  match r with Raised (SystemExit n) => n | Raised _ => 1 | Normal _ => 0 end.

End Driver.

(** ** Properties *)

(** *** The driver's monad *)

Lemma cli_bind_normal {A B} (m : CliM A) (k : A → CliM B) p a p' :
  m p = Some (Normal a, p') → (m ≫= k) p = k a p'.
Proof. intros Hm. unfold mbind, cli_bind. by rewrite Hm. Qed.

Lemma cli_bind_raised {A B} (m : CliM A) (k : A → CliM B) p e p' :
  m p = Some (Raised e, p') → (m ≫= k) p = Some (Raised e, p').
Proof. intros Hm. unfold mbind, cli_bind. by rewrite Hm. Qed.

Lemma cli_try_normal {A} (m : CliM A) handles h p a p' :
  m p = Some (Normal a, p') → cli_try m handles h p = Some (Normal a, p').
Proof. intros Hm. unfold cli_try. by rewrite Hm. Qed.

Lemma cli_try_raised {A} (m : CliM A) handles h p e p' :
  m p = Some (Raised e, p') →
  cli_try m handles h p = if handles e then h e p' else Some (Raised e, p').
Proof. intros Hm. unfold cli_try. by rewrite Hm. Qed.

Lemma call_run {O A} (obj : O) (m : PyM (O * files * texts) A) p r o' fs' tx' :
  m ((obj, p_files p), p_texts p) = (r, ((o', fs'), tx')) →
  call obj m p = Some (r, Proc fs' tx' (p_out p)).
Proof. intros Hm. unfold call. by rewrite Hm. Qed.

(** Unfold the driver's plumbing on a concrete run. *)
Ltac cli_unfold :=
  unfold mbind, cli_bind, cli_try, need, mret, cli_ret, call, say, exit, cli_raise, cli_lift.

(** *** Runs that leave the image files alone *)

(** Every run of [m] that stays in the model ends with the image files it
    started with. *)
Definition keeps_files {A} (m : CliM A) : Prop :=
  ∀ p r p', m p = Some (r, p') → p_files p' = p_files p.

Create HintDb keeps.

Lemma keeps_ret {A} (a : A) : keeps_files (mret a).
Proof. by intros p r p' [= _ <-]. Qed.
Lemma keeps_raise {A} (e : exn) : keeps_files (A := A) (cli_raise e).
Proof. by intros p r p' [= _ <-]. Qed.
Lemma keeps_exit {A} (n : nat) : keeps_files (A := A) (exit n).
Proof. apply keeps_raise. Qed.
Lemma keeps_lift {A} (o : outcome A) : keeps_files (cli_lift o).
Proof. by intros p r p' [= _ <-]. Qed.
Lemma keeps_beyond {A} : keeps_files (A := A) beyond.
Proof. done. Qed.
Lemma keeps_say (l : cli_line) : keeps_files (say l).
Proof. by intros p r p' [= _ <-]. Qed.
Lemma keeps_need {A} (o : option A) : keeps_files (need o).
Proof. destruct o; [apply keeps_ret | apply keeps_beyond]. Qed.

Lemma keeps_bind {A B} (m : CliM A) (k : A → CliM B) :
  keeps_files m → (∀ a, keeps_files (k a)) → keeps_files (m ≫= k).
Proof.
  intros Hm Hk p r p'. unfold mbind, cli_bind.
  destruct (m p) as [[[a|e] p1]|] eqn:E; [| intros [= _ <-] | done].
  - intros H. rewrite (Hk a _ _ _ H). by apply (Hm p (Normal a)).
  - by apply (Hm p (Raised e)).
Qed.

Lemma keeps_try {A} (m : CliM A) handles (h : exn → CliM A) :
  keeps_files m → (∀ e, keeps_files (h e)) → keeps_files (cli_try m handles h).
Proof.
  intros Hm Hh p r p'. unfold cli_try.
  destruct (m p) as [[[a|e] p1]|] eqn:E; [intros [= <- <-]; by apply (Hm p (Normal a)) | | done].
  destruct (handles e); [|intros [= _ <-]; by apply (Hm p (Raised e))].
  intros H. rewrite (Hh e _ _ _ H). by apply (Hm p (Raised e)).
Qed.

Lemma keeps_if {A} (b : bool) (m1 m2 : CliM A) :
  keeps_files m1 → keeps_files m2 → keeps_files (if b then m1 else m2).
Proof. by destruct b. Qed.

(** A method call that leaves the image files alone. *)
Lemma keeps_call {O A} (obj : O) (m : PyM (O * files * texts) A) :
  (∀ fs tx, (m ((obj, fs), tx)).2.1.2 = fs) → keeps_files (call obj m).
Proof. intros Hm p r p' [= _ <-]. cbn. apply Hm. Qed.

(** *** The methods under the guards the driver leaves open *)

Lemma initialize_image_data_files (st : stego) (fs : files) :
  (initialize_image_data (st, fs)).2.2 = fs.
Proof.
  unfold initialize_image_data, get_obj, modify_obj. pym_unfold. cbn.
  case_decide; [done|]. cbn [fst snd]. by repeat case_match.
Qed.

Lemma ensure_initialized_files (st : stego) (fs : files) :
  (ensure_initialized (st, fs)).2.2 = fs.
Proof.
  unfold ensure_initialized, get_obj. pym_unfold. cbn.
  destruct (shape_is_111 _); [apply initialize_image_data_files | done].
Qed.

(** A computation that first runs [ensure_initialized] and then raises
    raises with the image files unchanged. *)
Lemma ensure_then_raise {A} (k : PyM world A) (st : stego) (fs : files) :
  (∀ st', ∃ e st'', k (st', fs) = (Raised e, (st'', fs))) →
  ∃ e st', (ensure_initialized ;; k) (st, fs) = (Raised e, (st', fs)).
Proof.
  intros Hk. pose proof (ensure_initialized_files st fs) as Hf.
  destruct (ensure_initialized (st, fs)) as [[[]|e] [st1 fs1]] eqn:E; cbn in Hf; subst fs1.
  - destruct (Hk st1) as (e & st2 & Hk1). exists e, st2. by rewrite (bind_normal _ _ _ () (st1, fs)).
  - exists e, st1. by rewrite (bind_raised _ _ _ e (st1, fs)).
Qed.

(** [encode_image] raises, and saves nothing, without an output name,
    with no input name for an object not yet loaded, or for the empty
    message. *)
Lemma encode_image_guard (m : pystr) (st : stego) (fs : files) :
  output_file st = "" ∨ (input_file st = "" ∧ shape_is_111 (image_data st) = true) ∨ m = [] →
  ∃ e st', encode_image m (st, fs) = (Raised e, (st', fs)).
Proof.
  intros Hg. destruct (decide (output_file st = "")) as [Ho|Ho].
  { exists (ValueError NoOutputFile), st. unfold encode_image, get_obj. pym_unfold. cbn.
    by rewrite decide_True. }
  rewrite encode_image_output by done.
  destruct Hg as [?|[[Hi H111]| ->]]; [done| |].
  - exists (ValueError NoInputFile), st. rewrite (bind_raised _ _ _ (ValueError NoInputFile) (st, fs)); [done|].
    rewrite ensure_initialized_load by done.
    unfold initialize_image_data, get_obj. pym_unfold. cbn. by rewrite decide_True.
  - apply ensure_then_raise. intros st'. exists (ValueError MessageNotSet), st'.
    unfold encode_initialized. by rewrite decide_True.
Qed.

(** [encode_image(None)] always raises and saves nothing. *)
Lemma encode_image_none_raises (st : stego) (fs : files) :
  ∃ e st', encode_image_none (st, fs) = (Raised e, (st', fs)).
Proof.
  destruct (decide (output_file st = "")).
  { exists (ValueError NoOutputFile), st. unfold encode_image_none, get_obj. pym_unfold. cbn.
    by rewrite decide_True. }
  destruct (ensure_then_raise (A := unit) (raise TypeError) st fs) as (e & st' & Hr);
    [by eexists _, _|].
  exists e, st'. rewrite <- Hr. unfold encode_image_none, get_obj. pym_unfold. cbn.
  by rewrite decide_False.
Qed.

Lemma encode_image_from_file_guard (f : string) (st : stego) (fs : files) (tx : texts) :
  output_file st = "" ∨ (input_file st = "" ∧ shape_is_111 (image_data st) = true) →
  (encode_image_from_file f ((st, fs), tx)).2.1.2 = fs.
Proof.
  intros Hg. rewrite encode_image_from_file_eq.
  destruct (open_text tx f) as [m|]; [|done]. cbn.
  by destruct (encode_image_guard m st fs) as (e & st' & ->); [tauto|].
Qed.

Section Sealed.
Context `{Envelope}.

(** The base object of an [EncryptedSteganographer] without an output
    name: sealing may fail, and encoding the sealed message does. *)
Lemma encode_sealed_no_output (c : pystr) (es : estego) (fs : files) (tx : texts) :
  output_file (e_obj es) = "" →
  (as_base (on_world (encode_image c)) ((es, fs), tx)).2.1.2 = fs.
Proof.
  intros Ho. destruct (encode_image_guard c (e_obj es) fs) as (e & st' & Hr); [by left|].
  by rewrite (as_base_run _ _ _ _ _ _ _ _ (on_world_run _ _ tx _ _ Hr)).
Qed.

Lemma encrypt_and_encode_no_output (m : pystr) (es : estego) (fs : files) (tx : texts) :
  output_file (e_obj es) = "" → (encrypt_and_encode_message m ((es, fs), tx)).2.1.2 = fs.
Proof.
  intros Ho. unfold encrypt_and_encode_message. pym_unfold. cbn.
  destruct (encrypt_dump _ _ _ _); [exact (encode_sealed_no_output _ _ _ _ Ho) | done].
Qed.

Lemma encrypt_and_encode_from_file_no_output (f : string) (es : estego) (fs : files) (tx : texts) :
  output_file (e_obj es) = "" →
  (encrypt_and_encode_message_from_file f ((es, fs), tx)).2.1.2 = fs.
Proof.
  intros Ho. unfold encrypt_and_encode_message_from_file, read_message_from_file.
  unfold as_base at 1, zoom. pym_unfold. cbn.
  destruct (open_text tx f); cbn; [|done].
  destruct (encrypt_dump _ _ _ _); [|done]. exact (encode_sealed_no_output _ _ _ _ Ho).
Qed.

End Sealed.

Lemma truthy_Some (s : string) : truthy (Some s) = false ↔ s = "".
Proof. unfold truthy. rewrite bool_decide_eq_false. split; [by intros ?%dec_stable | intros -> Hne; by apply Hne]. Qed.

Lemma truthy_msg_Some (m : pystr) : truthy_msg (Some m) = false ↔ m = [].
Proof. unfold truthy_msg. rewrite bool_decide_eq_false. split; [by intros ?%dec_stable | intros -> Hne; by apply Hne]. Qed.

(** The object the plain branches build. *)
Lemma new_plain_run (junk : Z) (ii oi : option string) (p : proc) :
  new_plain junk [("inputFile", ii); ("outputFile", oi)] p =
  match ii, oi with
  | Some i, Some o => Some (Normal (steganographer_init junk [("inputFile", i); ("outputFile", o)]), p)
  | _, _ => None
  end.
Proof. by destruct ii, oi. Qed.

Lemma keeps_bind_try_new {A} (c : CliM A) handles h (k : A → CliM unit) :
  (∀ p, c p = None ∨ ∃ x, c p = Some (Normal x, p) ∧ keeps_files (k x)) →
  keeps_files (cli_try c handles h ≫= k).
Proof.
  intros Hc p r p'. unfold mbind at 1, cli_bind, cli_try.
  destruct (Hc p) as [->|(x & -> & Hk)]; [done|]. apply Hk.
Qed.

(** The object the encrypted [--encode] builds has no output name: the
    keyword is spelt [outputfile]. *)
Lemma new_encrypted_no_output `{Envelope} (junk : Z) (ii oi ek sk pw : option string) (p : proc) :
  let c := new_encrypted junk [("inputFile", ii); ("outputfile", oi);
             ("recipientPublicKeyFileName", ek); ("sendersKeyPairFileName", sk); ("passphrase", pw)] in
  c p = None ∨ ∃ es, c p = Some (Normal es, p) ∧ output_file (e_obj es) = "".
Proof. destruct ii, oi, ek, sk, pw; cbn; eauto. Qed.

#[export] Hint Resolve keeps_ret keeps_raise keeps_exit keeps_lift keeps_beyond keeps_say
  keeps_need keeps_bind keeps_try keeps_if : keeps.

(** *** No [--encode] run changes an image file *)

Section EncodeRuns.
Context `{Envelope}.
Variable junk : Z.

Lemma encode_crypto_keeps (a : Args.namespace) : keeps_files (encode_crypto junk a).
Proof.
  unfold encode_crypto. apply keeps_bind_try_new. intros p.
  destruct (new_encrypted_no_output junk (Args.inputimage a) (Args.outputimage a)
              (Args.encryptionkey a) (Args.signingkey a) (Args.passphrase a) p)
    as [Hn|(es & Hs & Ho)]; [by left|right].
  exists es. split; [exact Hs|]. apply keeps_try; [|auto with keeps].
  apply keeps_if; apply keeps_bind; auto with keeps; intros; apply keeps_call; intros.
  - by apply encrypt_and_encode_from_file_no_output.
  - by apply encrypt_and_encode_no_output.
Qed.

Lemma encode_plain_keeps (a : Args.namespace) :
  (negb (truthy (Args.inputimage a)) || negb (truthy (Args.outputimage a))
   || negb (truthy_msg (Args.message a) || truthy (Args.inputfile a))) = true →
  keeps_files (encode_plain junk a).
Proof.
  intros Hc. unfold encode_plain. apply keeps_bind_try_new. intros p.
  rewrite new_plain_run.
  destruct (Args.inputimage a) as [i|], (Args.outputimage a) as [o|]; [right|by left..].
  eexists. split; [done|]. apply keeps_try; [|auto with keeps].
  assert (Hg : o = "" ∨ i = "" ∨ truthy_msg (Args.message a) || truthy (Args.inputfile a) = false).
  { destruct (truthy (Some o)) eqn:Eo; [|left; by apply truthy_Some].
    destruct (truthy (Some i)) eqn:Ei; [|right; left; by apply truthy_Some].
    right; right. revert Hc. cbn. by destruct (_ || _). }
  destruct (truthy (Args.inputfile a)) eqn:Hf; cbn [orb] in Hg.
  - apply keeps_bind; [auto with keeps|]. intros f. apply keeps_call. intros fs tx.
    apply encode_image_from_file_guard. cbn. destruct Hg as [|[|Hg]]; [by left|by right|].
    by rewrite orb_true_r in Hg.
  - apply keeps_call. intros fs tx. unfold encode_image_arg.
    destruct (Args.message a) as [m|].
    + destruct (encode_image_guard m (steganographer_init junk [("inputFile", i); ("outputFile", o)]) fs)
        as (e & st' & Hr); [|by rewrite (on_world_run _ _ tx _ _ Hr)].
      cbn. destruct Hg as [|[|Hg]]; [by left|by right; left|right; right].
      rewrite orb_false_r in Hg. by apply truthy_msg_Some.
    + destruct (encode_image_none_raises (steganographer_init junk [("inputFile", i); ("outputFile", o)]) fs)
        as (e & st' & Hr). by rewrite (on_world_run _ _ tx _ _ Hr).
Qed.

End EncodeRuns.

Lemma truthy_Some_true (s : string) : s ≠ "" → truthy (Some s) = true.
Proof. intros Hs. destruct (truthy (Some s)) eqn:E; [done|]. by apply truthy_Some in E. Qed.

(** The object the encrypted [--decode] builds. *)
Lemma new_encrypted_dec_run `{Envelope} (junk : Z) (i ek sk pw : string) (p : proc) :
  new_encrypted junk [("inputFile", Some i); ("recipientPublicKeyFileName", Some ek);
                      ("sendersKeyPairFileName", Some sk); ("passphrase", Some pw)] p
  = Some (Normal (EStego (steganographer_init junk [("inputFile", i)]) ek sk pw), p).
Proof. reflexivity. Qed.

(** ** The commands *)

Section Commands.
Context `{Envelope}.
Variable generate_keys : string → string → option string → outcome unit.
Variable junk : Z.

(** C36: no run of [--encode] changes an image file, with or without
    [--crypto]: with every argument the branch checks it crashes on
    [args.print_help()]; with one missing, the object has no output
    name, or no input name, or the message is empty or [None], and
    [encode_image] raises before it saves (the encrypted branch always
    builds an object without output name, since its keyword is spelt
    [outputfile]). *)
Theorem encode_never_saves (a : Args.namespace) (p p' : proc) (r : outcome unit) :
  truthy (Args.generate a) = false → Args.encode a = true →
  main generate_keys junk a p = Some (r, p') → p_files p' = p_files p.
Proof.
  intros Hg He. revert p r p'. change (keeps_files (main generate_keys junk a)).
  unfold main. rewrite Hg, He. apply keeps_bind; [|auto with keeps].
  destruct (Args.crypto a); [apply keeps_if; auto using encode_crypto_keeps with keeps|].
  match goal with |- keeps_files (if ?c then _ else _) => destruct c eqn:Hc end;
    auto using encode_plain_keeps with keeps.
Qed.

(** C35: a command given every argument its branch checks -- [--encode]
    with both images and a message or message file, or [--decode] with
    both images, and with [--crypto] also both keys and the passphrase --
    crashes with [AttributeError] on [args.print_help()] before it builds
    an object, prints or touches a file: the checks are inverted. *)
Theorem main_help_crash (a : Args.namespace) (p : proc) :
  truthy (Args.generate a) = false →
  truthy (Args.inputimage a) = true → truthy (Args.outputimage a) = true →
  (Args.encode a = true ∧ truthy_msg (Args.message a) || truthy (Args.inputfile a) = true) ∨
  (Args.encode a = false ∧ Args.decode a = true) →
  (Args.crypto a = true → truthy (Args.encryptionkey a) = true ∧
     truthy (Args.signingkey a) = true ∧ truthy (Args.passphrase a) = true) →
  main generate_keys junk a p = Some (Raised AttributeError, p).
Proof.
  intros Hg Hi Ho [[He Hm]|[He Hd]] Hc; unfold main; rewrite Hg, Hi, Ho, He; rewrite ?Hd;
    destruct (Args.crypto a); try destruct (Hc eq_refl) as (-> & -> & ->); by rewrite ?Hm.
Qed.

(** C37: [--decode] without [--crypto], with an input image, no output
    image and an output file: a fresh object decodes the input image
    into the output file, the driver prints the success line and exits
    with status 0; an [IOError] of the decoder (the input image missing)
    is printed and the driver exits with status 1; any other exception
    of the decoder ends the process. *)
Theorem decode_to_file_run (a : Args.namespace) (p : proc) (i f : string) :
  truthy (Args.generate a) = false → Args.encode a = false → Args.decode a = true →
  Args.crypto a = false → Args.inputimage a = Some i → truthy (Args.outputimage a) = false →
  Args.outputfile a = Some f → f ≠ "" →
  main generate_keys junk a p =
    Some (match decode_image (steganographer_init junk [("inputFile", i)], p_files p) with
          | (Normal m, w) =>
              (Raised (SystemExit 0), Proc w.2 (<[f := m]> (p_texts p)) (p_out p ++ [MessageWritten f]))
          | (Raised e, w) =>
              if is_io_error e
              then (Raised (SystemExit 1), Proc w.2 (p_texts p) (p_out p ++ [ErrorEncountered; ShowError e]))
              else (Raised e, Proc w.2 (p_texts p) (p_out p))
          end).
Proof.
  intros Hg He Hd Hc Hi Ho Hf Hfne. unfold main. rewrite Hg, He, Hd, Hc, Ho, orb_true_r.
  unfold decode_plain. rewrite Hi, Hf, (truthy_Some_true f Hfne).
  unfold new_plain. cli_unfold. cbn.
  rewrite decode_image_to_file_eq.
  destruct (decode_image _) as [[m|e] [st' fs']]; cbn; [by rewrite decide_False|].
  destruct (is_io_error e); by rewrite <- ?app_assoc.
Qed.

(** C38: [--decode] without [--crypto] and without an output file
    prints the header ["Message:"] and then crashes with
    [AttributeError] on [steg.decode()], a method [Steganographer] does
    not have: the message is never decoded nor shown. *)
Theorem decode_print_crash (a : Args.namespace) (p : proc) (i : string) :
  truthy (Args.generate a) = false → Args.encode a = false → Args.decode a = true →
  Args.crypto a = false → Args.inputimage a = Some i → truthy (Args.outputimage a) = false →
  truthy (Args.outputfile a) = false →
  main generate_keys junk a p
  = Some (Raised AttributeError, Proc (p_files p) (p_texts p) (p_out p ++ [MessageHeader])).
Proof.
  intros Hg He Hd Hc Hi Ho Hf. unfold main. rewrite Hg, He, Hd, Hc, Ho, orb_true_r.
  unfold decode_plain, new_plain. rewrite Hi, Hf. cli_unfold. by cbn.
Qed.

(** C39: [--decode --crypto] with an input image, both keys and the
    passphrase, and neither an output image nor an output file: an
    [EncryptedSteganographer] whose base object reads the input image,
    holding the signing key as its key pair, decodes and decrypts; the
    driver prints the header and the message and exits with status 0,
    prints an [IOError] and exits with status 1, or ends with any other
    exception. *)
Theorem decode_crypto_run (a : Args.namespace) (p : proc) (i ek sk pw : string) :
  truthy (Args.generate a) = false → Args.encode a = false → Args.decode a = true →
  Args.crypto a = true → Args.inputimage a = Some i → truthy (Args.outputimage a) = false →
  Args.encryptionkey a = Some ek → Args.signingkey a = Some sk → Args.passphrase a = Some pw →
  truthy (Args.outputfile a) = false →
  main generate_keys junk a p =
    Some (match decrypt_and_decode_message
                  ((EStego (steganographer_init junk [("inputFile", i)]) ek sk pw, p_files p),
                   p_texts p) with
          | (Normal m, ew) =>
              (Raised (SystemExit 0), Proc ew.1.2 ew.2 (p_out p ++ [MessageHeader; ShowMessage m]))
          | (Raised e, ew) =>
              if is_io_error e
              then (Raised (SystemExit 1),
                    Proc ew.1.2 ew.2 (p_out p ++ [MessageHeader; ErrorEncountered; ShowError e]))
              else (Raised e, Proc ew.1.2 ew.2 (p_out p ++ [MessageHeader]))
          end).
Proof.
  intros Hg He Hd Hc Hi Ho Hek Hsk Hpw Hf. unfold main. rewrite Hg, He, Hd, Hc, Ho, orb_true_r.
  unfold decode_crypto. rewrite Hi, Hek, Hsk, Hpw, Hf. cli_unfold.
  cbn [orb negb]. cbv beta. rewrite new_encrypted_dec_run.
  cbn -[steganographer_init decrypt_and_decode_message].
  destruct (decrypt_and_decode_message _) as [[m|e] [[es fs'] tx']]; cbn;
    [by rewrite is_io_error_exit, <- app_assoc|].
  destruct (is_io_error e); by rewrite <- ?app_assoc.
Qed.

End Commands.

End Cli.
