(* ===== verification/Examples.v ===== *)
(** * Concrete runs of [Steganographer]

    A 4 x 4 and an 8 x 8 RGB image in a file [in.png], the objects,
    text files and command lines built on them, and each general theorem
    of the development applied to them: every hypothesis is discharged
    by evaluation, so the theorems are shown to apply to real inputs.
    The last example runs the command-line driver itself. *)

From S2P Require Import Prelude BitCodec CodecSpec PixelBuffer Engine WriteLoop Encoder ReadLoop.
From S2P Require Import Decoder Lifecycle FileHelpers Encrypted Compare Cli.
Import BitCodec PixelBuffer Steganographer WriteLoop Encoder ReadLoop Decoder Lifecycle
  FileHelpers Encrypted Compare Cli.

Module Examples.

(** ** Fixtures *)

Definition rgb4x4 : image := replicate 4 (replicate 4 [100; 151; 42]%Z).
Definition white4x4 : image := replicate 4 (replicate 4 [255; 255; 255]%Z).
Definition rgba4x4 : image := replicate 4 (replicate 4 [100; 151; 42; 255]%Z).
Definition cmyk4x4 : image := replicate 4 (replicate 4 [10; 20; 30; 40]%Z).
Definition palette4x4 : image := replicate 4 (replicate 4 [7]%Z).

Definition in_file : image_file := ImageFile rgb4x4 "RGB" (4, 4).
Definition fs0 : files := {[ "in.png" := in_file ]}.
Definition kwargs0 : list (string * string) := [("inputFile", "in.png"); ("outputFile", "out.png")].

(** The object after a successful [initialize_image_data] on [img]. *)
Definition loaded (img : image_file) (cs : nat) : stego :=
  set_max_bits ((file_size img).1 * (file_size img).2 * cs)
    (set_color_size cs (load_image img (steganographer_init 0 kwargs0))).

Definition st_rgb : stego := loaded in_file 3.
Definition st_white : stego := loaded (ImageFile white4x4 "RGB" (4, 4)) 3.
Definition st_rgba : stego := loaded (ImageFile rgba4x4 "RGBA" (4, 4)) 3.
Definition st_cmyk : stego := loaded (ImageFile cmyk4x4 "CMYK" (4, 4)) 4.

(** The message ["A"]: its padded frame has 42 bits, below the 48 of the
    image. *)
Definition msg_A : pystr := [65]%Z.

(** An 8 x 8 RGB image: 192 bits, room for a sealed envelope. *)
Definition rgb8x8 : image := replicate 8 (replicate 8 [100; 151; 42]%Z).
Definition big_file : image_file := ImageFile rgb8x8 "RGB" (8, 8).
Definition fs_big : files := {[ "in.png" := big_file ]}.

(** Two images to compare, and a text file holding ["A"]. *)
Definition fs_ab : files :=
  {[ "a.png" := in_file; "b.png" := ImageFile white4x4 "RGB" (4, 4) ]}.
Definition tx0 : texts := {[ "msg.txt" := msg_A ]}.

(** The image files after [msg_A] is encoded, and a fresh decoder on them. *)
Definition w_enc : world := (encode_image msg_A (steganographer_init 0 kwargs0, fs0)).2.
Definition w_dec : world := (steganographer_init 1 [("inputFile", "out.png")], w_enc.2).

(** An encrypted object on the white image, whose decoding fails. *)
Definition e_white : estego := EStego st_white "pub.key" "pair.key" "secret".

#[local] Existing Instance plain_envelope.

(** Command lines.  [CryptoHelper.generateKeys] is not called by them. *)
Definition gen0 : string → string → option string → outcome unit := λ _ _ _, Normal ().
Definition p0 : proc := Proc fs0 tx0 [].

(** [-e -ii in.png -oi out.png -m A] *)
Definition args_encode : Args.namespace :=
  Args.Namespace (Some "in.png") (Some "out.png") true false false (Some msg_A)
    None None None None None None None None.
(** [-e --crypto -ii in.png -m A -ec bob.pub -sk alice.key -p a] (no output image) *)
Definition args_encode_crypto : Args.namespace :=
  Args.Namespace (Some "in.png") None true false true (Some msg_A)
    None None None (Some "bob.pub") (Some "alice.key") (Some "a") None None.
(** [-d -ii out.png -of copy.txt] *)
Definition args_decode_file : Args.namespace :=
  Args.Namespace (Some "out.png") None false true false None None (Some "copy.txt")
    None None None None None None.
(** [-d -ii out.png] *)
Definition args_decode : Args.namespace :=
  Args.Namespace (Some "out.png") None false true false None None None None None None None None None.
(** [-d --crypto -ii out.png -ec alice.pub -sk bob.key -p b] *)
Definition args_decode_crypto : Args.namespace :=
  Args.Namespace (Some "out.png") None false true true None None None
    None (Some "alice.pub") (Some "bob.key") (Some "b") None None.

(** The image files after the library, not the command line, sealed and
    encoded [msg_A] into [out.png]. *)
Definition es_send : estego :=
  EStego (steganographer_init 0 [("inputFile", "in.png"); ("outputFile", "out.png")])
    "bob.pub" "alice.key" "a".
Definition fs_sealed : files := (encrypt_and_encode_message msg_A ((es_send, fs_big), tx0)).2.1.2.

Ltac by_eval :=
  first [ done | lia
        | apply (bool_decide_unpack _); vm_compute; reflexivity
        | apply Nat.ltb_lt; vm_compute; reflexivity
        | vm_compute; reflexivity ].

(** ** Witnesses *)

Lemma encode_decode_roundtrip_witness :
  ∃ w1,
    encode_image msg_A (steganographer_init 0 kwargs0, fs0) = (Normal (), w1) ∧
    eval decode_image (steganographer_init 1 [("inputFile", "out.png")], w1.2) = Normal msg_A.
Proof. apply (encode_decode_roundtrip 0 1 "in.png" "out.png" in_file fs0 msg_A 4 4); by_eval. Defined.

Lemma reencode_last_message_witness :
  ∃ w1 w2,
    encode_image msg_A (steganographer_init 0 kwargs0, fs0) = (Normal (), w1) ∧
    encode_image [66]%Z w1 = (Normal (), w2) ∧
    eval decode_image (steganographer_init 1 [("inputFile", "out.png")], w2.2) = Normal [66]%Z.
Proof.
  apply (reencode_last_message 0 1 "in.png" "out.png" in_file fs0 msg_A [66]%Z 4 4); by_eval.
Defined.

Lemma encode_image_refines_witness :
  encode_image msg_A (st_rgb, fs0) = encode_spec msg_A (st_rgb, fs0).
Proof. apply (encode_image_refines msg_A st_rgb fs0 4 4); by_eval. Defined.

Lemma decode_image_refines_witness :
  decode_image (st_rgb, fs0)
  = (decode_spec (lsbs_of rgb4x4 (scan_pixels 4 4) 3), (st_rgb, fs0)).
Proof. apply (decode_image_refines st_rgb fs0 4 4 3); by_eval. Defined.

Lemma encode_image_lsb_only_witness :
  well_formed (image_data (encode_image msg_A (st_rgb, fs0)).2.1) 4 4 3 ∧
  ∀ y x c, Z.shiftr (chan (image_data (encode_image msg_A (st_rgb, fs0)).2.1) y x c) 1
           = Z.shiftr (chan rgb4x4 y x c) 1.
Proof. apply (encode_image_lsb_only msg_A st_rgb fs0 4 4); by_eval. Defined.

Lemma encode_image_rgba_unchanged_witness :
  encode_image msg_A (st_rgba, fs0)
  = (Normal (), (st_rgba, <["out.png" := ImageFile rgba4x4 "RGBA" (4, 4)]> fs0)).
Proof. apply (encode_image_rgba_unchanged msg_A st_rgba fs0 4 4); by_eval. Defined.

Lemma encode_image_cs4_unchanged_witness :
  image_data (encode_image msg_A (st_cmyk, fs0)).2.1 = cmyk4x4.
Proof. apply (encode_image_cs4_unchanged msg_A st_cmyk fs0 4 4); by_eval. Defined.

Lemma encode_image_capacity_witness :
  fst (encode_image msg_A (st_rgb, fs0)) = Raised (ValueError MessageTooLarge) ↔
  48 ≤ 32 + 8 * 1 + (3 - (32 + 8 * 1) mod 3).
Proof. apply (encode_image_capacity msg_A st_rgb fs0); by_eval. Defined.

Lemma build_frame_length_witness :
  ∃ frame, build_frame msg_A 3 = Normal frame ∧ length frame mod 3 = 0 ∧
    32 + 8 * 1 < length frame ≤ 32 + 8 * 1 + 3.
Proof. apply (build_frame_length msg_A 3); by_eval. Defined.

Lemma decode_image_underrun_witness :
  decode_image (st_white, fs0) = (Raised IndexError, (st_white, fs0)).
Proof. apply (decode_image_underrun st_white fs0 4 4 3 4294967295); by_eval. Defined.

Lemma unsupported_mode_then_zero_division_witness :
  ∃ w1,
    encode_image msg_A (steganographer_init 0 kwargs0,
                        {[ "in.png" := ImageFile palette4x4 "P" (4, 4) ]})
      = (Raised (ValueError UnsupportedColorModel), w1) ∧
    encode_image msg_A w1 = (Raised ZeroDivisionError, w1).
Proof.
  apply (unsupported_mode_then_zero_division 0 "in.png" "out.png"
           (ImageFile palette4x4 "P" (4, 4))); by_eval.
Defined.

Lemma encode_image_no_output_witness :
  encode_image msg_A (steganographer_init 0 [("inputFile", "in.png")], fs0)
  = (Raised (ValueError NoOutputFile), (steganographer_init 0 [("inputFile", "in.png")], fs0)).
Proof. apply encode_image_no_output; by_eval. Defined.

Lemma encode_image_empty_witness :
  encode_image [] (st_rgb, fs0) = (Raised (ValueError MessageNotSet), (st_rgb, fs0)).
Proof. apply encode_image_empty; by_eval. Defined.

Lemma set_bit_parity_witness : set_bit 200 0 1 = (2 * (200 / 2) + 1)%Z.
Proof. apply set_bit_parity; by_eval. Defined.

Lemma bin_list_to_int_short_witness : bin_list_to_int [1; 0]%Z = Raised IndexError.
Proof. apply bin_list_to_int_short; by_eval. Defined.

Lemma bin_list_to_message_bad_length_error_witness :
  bin_list_to_message [1; 0; 1]%Z = Raised (ValueError NotDivisibleBy8).
Proof. apply bin_list_to_message_bad_length_error; by_eval. Defined.

Lemma encode_image_untouched_beyond_frame_witness :
  pixel_at (image_data (encode_image msg_A (st_rgb, fs0)).2.1) 3 3 = pixel_at rgb4x4 3 3.
Proof. apply (encode_image_untouched_beyond_frame msg_A st_rgb fs0 4 4) with (k := 14); by_eval. Defined.

Lemma steganographer_init_spec_witness :
  steganographer_init 7 (kwargs0 ++ [("verbose", "1")])
  = Stego (default "" ((list_to_map (kwargs0 ++ [("verbose", "1")]) : gmap string string)
                        !! "inputFile"))
          (default "" ((list_to_map (kwargs0 ++ [("verbose", "1")]) : gmap string string)
                        !! "outputFile"))
          [[[7%Z]]] "" 0 (0, 0) 0.
Proof. apply steganographer_init_spec; by_eval. Defined.

Lemma encode_image_from_file_missing_witness :
  encode_image_from_file "none.txt" ((st_rgb, fs0), tx0) = (Normal (), ((st_rgb, fs0), tx0)).
Proof. apply encode_image_from_file_missing; by_eval. Defined.

Lemma decode_image_to_file_write_error_witness :
  decode_image_to_file "" (w_dec, tx0) = (Normal (), ((decode_image w_dec).2, tx0)).
Proof. apply (decode_image_to_file_write_error w_dec tx0 msg_A); by_eval. Defined.

Lemma file_roundtrip_witness :
  ∃ w1 w2,
    encode_image_from_file "msg.txt" ((steganographer_init 0 kwargs0, fs0), tx0)
    = (Normal (), (w1, tx0)) ∧
    decode_image_to_file "copy.txt" ((steganographer_init 1 [("inputFile", "out.png")], w1.2), tx0)
    = (Normal (), (w2, <["copy.txt" := msg_A]> tx0)).
Proof.
  apply (file_roundtrip 0 1 "in.png" "out.png" "msg.txt" "copy.txt" in_file fs0 tx0 msg_A 4 4);
    by_eval.
Defined.

Lemma decrypt_swallows_decode_error_witness :
  decrypt_and_decode_message ((e_white, fs0), tx0)
  = (load_decrypt [] "pair.key" "secret", ((set_e_obj st_white e_white, fs0), tx0)).
Proof. apply (decrypt_swallows_decode_error e_white fs0 tx0 IndexError); by_eval. Defined.

Lemma encrypted_roundtrip_witness :
  ∃ es er ew1,
    encrypted_init 0 [("inputFile", "in.png"); ("outputFile", "out.png");
      ("recipientPublicKeyFileName", "bob.pub"); ("sendersKeyPairFileName", "alice.key");
      ("passphrase", "a")] = Normal es ∧
    encrypt_and_encode_message msg_A ((es, fs_big), tx0) = (Normal (), ew1) ∧
    encrypted_init 1 [("inputFile", "out.png"); ("recipientPublicKeyFileName", "alice.pub");
      ("sendersKeyPairFileName", "bob.key"); ("passphrase", "b")] = Normal er ∧
    eval decrypt_and_decode_message ((er, ew1.1.2), ew1.2) = Normal msg_A.
Proof.
  apply (encrypted_roundtrip 0 1 "in.png" "out.png" "bob.pub" "alice.key" "a" "alice.pub"
           "bob.key" "b" big_file fs_big tx0 msg_A [1; 65]%Z 8 8); by_eval.
Defined.

Lemma compare_pixels_count_witness :
  ∃ lines,
    compare_pixels fs_ab "a.png" "b.png" 10 []
    = (Normal (), [] ++ ReadingPixels 10 "a.png" "b.png" :: lines) ∧
    length lines = min 10 (if decide (4 ≤ 4) then 4 * 4 else 4).
Proof.
  apply (compare_pixels_count fs_ab "a.png" "b.png" 10 [] in_file (ImageFile white4x4 "RGB" (4, 4))
           4 4 3 3); by_eval.
Defined.

Lemma compare_pixels_exit_witness :
  compare_pixels fs0 "in.png" "b.png" 10 []
  = (Raised (SystemExit 1), [] ++ [ReadingPixels 10 "in.png" "b.png"; OpenFailed]).
Proof. apply compare_pixels_exit. left. split; [done|]. right. by_eval. Defined.

Lemma reachable_world_ok_witness :
  world_ok (run_call CallDecode (run_call (CallEncode msg_A) (steganographer_init 0 kwargs0, fs0))).
Proof.
  apply (reachable_world_ok 0 kwargs0 fs0).
  - apply map_Forall_singleton. exists 3. by_eval.
  - eapply rtc_l; [apply step_call|]. apply rtc_once, step_call.
Defined.

Lemma main_help_crash_witness : main gen0 0 args_encode p0 = Some (Raised AttributeError, p0).
Proof.
  apply main_help_crash; [by_eval | by_eval | by_eval | left; split; by_eval | intros; discriminate].
Defined.

Lemma encode_never_saves_witness :
  main gen0 0 args_encode_crypto p0 = Some (Raised (ValueError NoOutputFile), p0) ∧
  p_files p0 = fs0.
Proof.
  split; [vm_compute; reflexivity|].
  apply (encode_never_saves gen0 0 args_encode_crypto p0 p0 (Raised (ValueError NoOutputFile)));
    vm_compute; reflexivity.
Defined.

Lemma decode_to_file_run_witness :
  main gen0 1 args_decode_file (Proc w_enc.2 tx0 []) =
    Some (match decode_image (steganographer_init 1 [("inputFile", "out.png")], w_enc.2) with
          | (Normal m, w) =>
              (Raised (SystemExit 0), Proc w.2 (<["copy.txt" := m]> tx0) ([] ++ [MessageWritten "copy.txt"]))
          | (Raised e, w) =>
              if is_io_error e
              then (Raised (SystemExit 1), Proc w.2 tx0 ([] ++ [ErrorEncountered; ShowError e]))
              else (Raised e, Proc w.2 tx0 [])
          end).
Proof. apply (decode_to_file_run gen0 1 args_decode_file (Proc w_enc.2 tx0 [])); by_eval. Defined.

Lemma decode_print_crash_witness :
  main gen0 1 args_decode (Proc w_enc.2 tx0 [])
  = Some (Raised AttributeError, Proc w_enc.2 tx0 ([] ++ [MessageHeader])).
Proof. apply (decode_print_crash gen0 1 args_decode (Proc w_enc.2 tx0 []) "out.png"); by_eval. Defined.

Lemma decode_crypto_run_witness :
  main gen0 1 args_decode_crypto (Proc fs_sealed tx0 []) =
    Some (match decrypt_and_decode_message
                  ((EStego (steganographer_init 1 [("inputFile", "out.png")]) "alice.pub" "bob.key" "b",
                    fs_sealed), tx0) with
          | (Normal m, ew) =>
              (Raised (SystemExit 0), Proc ew.1.2 ew.2 ([] ++ [MessageHeader; ShowMessage m]))
          | (Raised e, ew) =>
              if is_io_error e
              then (Raised (SystemExit 1),
                    Proc ew.1.2 ew.2 ([] ++ [MessageHeader; ErrorEncountered; ShowError e]))
              else (Raised e, Proc ew.1.2 ew.2 ([] ++ [MessageHeader]))
          end).
Proof.
  apply (decode_crypto_run gen0 1 args_decode_crypto (Proc fs_sealed tx0 []) "out.png"
           "alice.pub" "bob.key" "b"); by_eval.
Defined.

(** ** A run of the command line *)

(** The command lines on the scenario: the plain [--decode] to a file
    writes ["A"] to [copy.txt] and exits with status 0; the encrypted
    [--decode] of an image sealed by the library prints the header and
    ["A"] and exits with status 0. *)
Example cli_decode_runs :
  main gen0 1 args_decode_file (Proc w_enc.2 tx0 [])
  = Some (Raised (SystemExit 0), Proc w_enc.2 (<["copy.txt" := msg_A]> tx0) [MessageWritten "copy.txt"]) ∧
  (match main gen0 1 args_decode_crypto (Proc fs_sealed tx0 []) with
   | Some (r, p) => exit_status r = 0 ∧ p_out p = [MessageHeader; ShowMessage msg_A]
   | None => False
   end).
Proof. split; vm_compute; [reflexivity | split; reflexivity]. Qed.

End Examples.
